(** * Home Maintenance: due-state engine and double-press confirmation

    A shallow embedding of the Home Assistant integration
    [custom_components/home_maintenance]:

    - [binary_sensor.py]: [HomeMaintenanceSensor._update_state] and its helpers
      (the due-state computation), the constructor and the platform set-up;
    - [button.py]: [HomeMaintenanceButton.icon] and [async_press] over the
      module-level tables [_pending_confirmations], [_confirmed_tasks] and
      [_reset_timers] (the double-press confirmation), the constructor and
      the platform set-up;
    - [websocket.py]: the task commands.

    Python exceptions are modelled by the [result] type, dictionaries by
    [gmap], and the event loop by an explicit table of armed callbacks. *)

From Stdlib Require Import ZArith Lia Ascii String DecimalString.
From stdpp Require Import base option gmap gmultiset strings list.

#[local] Set Warnings "-clear-no-such-hyp".

Local Open Scope Z_scope.

(** ** Exceptions and fallible computations *)

Inductive exn : Type :=
  | KeyError (key : string)
  | TypeError
  | ValueError
  | OverflowError
  | AttributeError.

Inductive result (A : Type) : Type :=
  | Ok (a : A)
  | Raise (e : exn).

Arguments Ok {A} a.
Arguments Raise {A} e.

Definition rbind {A B : Type} (r : result A) (k : A -> result B) : result B :=
  match r with
  | Ok a => k a
  | Raise e => Raise e
  end.

Notation "'let*' x ':=' r 'in' k" := (rbind r (fun x => k))
  (at level 10, x name, r at level 100, k at level 200).

Definition subscript {V : Type} (d : gmap string V) (key : string) : result V :=
  match d !! key with
  | Some v => Ok v
  | None => Raise (KeyError key)
  end.

(** ** Python's [datetime] (proleptic Gregorian calendar, years 1..9999) *)

Module Py.

Definition MINYEAR : Z := 1.
Definition MAXYEAR : Z := 9999.
Definition MAXORDINAL : Z := 3652059.

(** [tzinfo] is [None] for a naive value and [Some off] for an aware one,
    [off] being the UTC offset in seconds (time zones are fixed offsets). *)
Record datetime : Type := mk_datetime {
  year : Z; month : Z; day : Z;
  hour : Z; minute : Z; second : Z; microsecond : Z;
  tzinfo : option Z
}.

Definition is_leap (y : Z) : bool :=
  (y mod 4 =? 0) && (negb (y mod 100 =? 0) || (y mod 400 =? 0)).

(** [calendar.monthrange(y, m)[1]] *)
Definition days_in_month (y m : Z) : Z :=
  if m =? 2 then (if is_leap y then 29 else 28)
  else if (m =? 4) || (m =? 6) || (m =? 9) || (m =? 11) then 30
  else 31.

Definition days_before_year (y : Z) : Z :=
  let y1 := y - 1 in y1 * 365 + y1 / 4 - y1 / 100 + y1 / 400.

Definition DAYS_BEFORE_MONTH (m : Z) : Z :=
  match m with
  | 1 => 0 | 2 => 31 | 3 => 59 | 4 => 90 | 5 => 120 | 6 => 151
  | 7 => 181 | 8 => 212 | 9 => 243 | 10 => 273 | 11 => 304 | 12 => 334
  | _ => 0
  end.

Definition days_before_month (y m : Z) : Z :=
  DAYS_BEFORE_MONTH m + (if (2 <? m) && is_leap y then 1 else 0).

Definition ymd2ord (y m d : Z) : Z :=
  days_before_year y + days_before_month y m + d.

(** [datetime._ord2ymd] *)
Definition ord2ymd (n0 : Z) : Z * Z * Z :=
  let n := n0 - 1 in
  let n400 := n / 146097 in let n := n mod 146097 in
  let y := n400 * 400 + 1 in
  let n100 := n / 36524 in let n := n mod 36524 in
  let n4 := n / 1461 in let n := n mod 1461 in
  let n1 := n / 365 in let n := n mod 365 in
  let y := y + n100 * 100 + n4 * 4 + n1 in
  if (n1 =? 4) || (n100 =? 4) then (y - 1, 12, 31)
  else
    let leapyear := (n1 =? 3) && (negb (n4 =? 24) || (n100 =? 3)) in
    let m := Z.shiftr (n + 50) 5 in
    let preceding :=
      DAYS_BEFORE_MONTH m + (if (2 <? m) && leapyear then 1 else 0) in
    if n <? preceding then
      let m' := m - 1 in
      let dim :=
        if m' =? 2 then (if leapyear then 29 else 28)
        else if (m' =? 4) || (m' =? 6) || (m' =? 9) || (m' =? 11) then 30
        else 31 in
      (y, m', n - (preceding - dim) + 1)
    else (y, m, n - preceding + 1).

(** [dt.replace(hour=0, minute=0, second=0, microsecond=0)] *)
Definition replace_midnight (dt : datetime) : datetime :=
  mk_datetime (year dt) (month dt) (day dt) 0 0 0 0 (tzinfo dt).

(** [dt.replace(year=y, month=m, day=d)]: [ValueError] outside the calendar. *)
Definition replace_date (dt : datetime) (y m d : Z) : result datetime :=
  if (MINYEAR <=? y) && (y <=? MAXYEAR) && (1 <=? m) && (m <=? 12)
     && (1 <=? d) && (d <=? days_in_month y m)
  then Ok (mk_datetime y m d (hour dt) (minute dt) (second dt)
                       (microsecond dt) (tzinfo dt))
  else Raise ValueError.

(** [timedelta(days=n)] and [timedelta(weeks=n)], as a number of whole days. *)
Definition timedelta_days (n : Z) : result Z :=
  if Z.abs n <=? 999999999 then Ok n else Raise OverflowError.

Definition timedelta_weeks (n : Z) : result Z := timedelta_days (n * 7).

(** [dt + timedelta(days=d)]: wall-clock fields move, [tzinfo] is kept. *)
Definition add_days (dt : datetime) (d : Z) : result datetime :=
  let o := ymd2ord (year dt) (month dt) (day dt) + d in
  if (0 <? o) && (o <=? MAXORDINAL) then
    let '(y, m, d') := ord2ymd o in
    Ok (mk_datetime y m d' (hour dt) (minute dt) (second dt)
                    (microsecond dt) (tzinfo dt))
  else Raise OverflowError.

(** Seconds since 0001-01-01T00:00:00 of the wall-clock fields. *)
Definition wall_seconds (dt : datetime) : Z :=
  (ymd2ord (year dt) (month dt) (day dt) - 1) * 86400
  + hour dt * 3600 + minute dt * 60 + second dt.

(** Microseconds of the instant an aware value (or a naive one read with
    offset [off]) stands for. *)
Definition instant (off : Z) (dt : datetime) : Z :=
  (wall_seconds dt - off) * 1000000 + microsecond dt.

(** [a >= b]: naive and aware values do not compare. *)
Definition ge (a b : datetime) : result bool :=
  match tzinfo a, tzinfo b with
  | Some oa, Some ob => Ok (instant ob b <=? instant oa a)
  | None, None => Ok (instant 0 b <=? instant 0 a)
  | _, _ => Raise TypeError
  end.

(** [a - b] in microseconds, for two aware values (every timestamp the
    integration subtracts comes from [dt_util.now()]). *)
Definition utc (dt : datetime) : Z := instant (default 0 (tzinfo dt)) dt.

Definition sub (a b : datetime) : Z := utc a - utc b.

(** The wall-clock fields of instant [us] under offset [off]. *)
Definition of_instant (off us : Z) : result datetime :=
  let secs := us / 1000000 + off in
  let o := secs / 86400 + 1 in
  let r := secs mod 86400 in
  if (0 <? o) && (o <=? MAXORDINAL) then
    let '(y, m, d) := ord2ymd o in
    Ok (mk_datetime y m d (r / 3600) (r mod 3600 / 60) (r mod 60)
                    (us mod 1000000) (Some off))
  else Raise OverflowError.

(** [dt.replace(tzinfo=src).astimezone(dst)] for two distinct zone objects:
    [self - offset] is the UTC value and [dst.fromutc] reads it in the zone
    with offset [dst]; either step raises [OverflowError] outside the
    calendar. *)
Definition astimezone (src : Z) (dt : datetime) (dst : Z) : result datetime :=
  let us := instant src dt in
  let* _ := of_instant 0 us in
  of_instant dst us.

End Py.

(** ** Text formatting *)

Definition digit (n : Z) : ascii :=
  Ascii.ascii_of_N (Z.to_N (48 + n mod 10)).

(** ["%0wd" % n] for [0 <= n < 10^w]. *)
Fixpoint zero_padded (w : nat) (n : Z) : string :=
  match w with
  | O => EmptyString
  | S w' => zero_padded w' (n / 10) +:+ String (digit n) EmptyString
  end.

Module Iso.
Import Py.

(** [datetime._format_offset] for an offset of whole seconds. *)
Definition format_offset (off : Z) : string :=
  let a := Z.abs off in
  (if off <? 0 then "-" else "+")
    +:+ zero_padded 2 (a / 3600) +:+ ":" +:+ zero_padded 2 (a mod 3600 / 60)
    +:+ (if a mod 60 =? 0 then "" else ":" +:+ zero_padded 2 (a mod 60)).

(** [dt.isoformat()] *)
Definition isoformat (dt : datetime) : string :=
  zero_padded 4 (year dt) +:+ "-" +:+ zero_padded 2 (month dt) +:+ "-"
    +:+ zero_padded 2 (day dt) +:+ "T"
    +:+ zero_padded 2 (hour dt) +:+ ":" +:+ zero_padded 2 (minute dt)
    +:+ ":" +:+ zero_padded 2 (second dt)
    +:+ (if microsecond dt =? 0 then ""
         else "." +:+ zero_padded 6 (microsecond dt))
    +:+ match tzinfo dt with
        | Some off => format_offset off
        | None => ""
        end.
End Iso.

(** ** [dateutil.relativedelta] restricted to [relativedelta(months=n)] *)

Module Relativedelta.
Import Py.

(** The constructor's [_fix]: more than 11 months carry into years. *)
Definition relativedelta (months : Z) : Z * Z :=
  if 11 <? Z.abs months then
    let s := Z.sgn months in
    ((months * s / 12) * s, ((months * s) mod 12) * s)
  else (0, months).

(** [dt + rd] ([relativedelta.__radd__]): the day is capped by the length of
    the target month, then [dt.replace] builds the value. *)
Definition add (dt : datetime) (rd : Z * Z) : result datetime :=
  let '(years, months) := rd in
  let y := year dt + years in
  let m := month dt in
  let '(y, m) :=
    if months =? 0 then (y, m)
    else
      let m := m + months in
      if 12 <? m then (y + 1, m - 12)
      else if m <? 1 then (y - 1, m + 12)
      else (y, m) in
  let d := Z.min (days_in_month y m) (day dt) in
  replace_date dt y m d.
End Relativedelta.

(** ** What the platform supplies

    Number handling ([float], [+], [>=], [format]) and Home Assistant's
    [dt_util.parse_datetime] are taken as given: the development holds for
    every implementation of this interface.  A number is a Python [float] or
    [int] (the [add_task] schema admits both for an odometer reading). *)

Class Runtime (num : Type) : Type := {
  (** [float(s)] of a text; [None] when it raises [ValueError] *)
  float : string -> option num;
  (** [x + n] for an int [n]: [OverflowError] when [x] is a float and [n]
      does not convert to one *)
  num_add : num -> Z -> result num;
  (** [x >= y]; comparing floats and ints never raises *)
  num_ge : num -> num -> bool;
  (** [f"{x:.0f}"]: [OverflowError] when [x] is an int that does not convert
      to a float *)
  format_0f : num -> result string;
  (** [dt_util.parse_datetime(s)]: [Ok None] when the text is not a date;
      the library documents [ValueError] for well-formed text that names no
      valid date *)
  parse_datetime : string -> result (option Py.datetime)
}.

(** The parts of [hass] the integration reads. *)
Record HomeAssistant : Type := {
  (** [hass.states]: entity id to state text *)
  states : gmap string string;
  (** the wall clock in the default time zone *)
  wall_clock : Py.datetime;
  (** [dt_util.DEFAULT_TIME_ZONE], as a UTC offset in seconds *)
  DEFAULT_TIME_ZONE : Z;
  (** whether [hass.data[DOMAIN].get("store")] yields a store *)
  store : bool;
  (** keys of [hass.data[DOMAIN]["button_entities"]] *)
  button_entities : gset string
}.

Module dt_util.
Import Py.

(** [dt_util.now()]: aware, in the default time zone. *)
Definition now (hass : HomeAssistant) : datetime :=
  let w := wall_clock hass in
  mk_datetime (year w) (month w) (day w) (hour w) (minute w) (second w)
              (microsecond w) (Some (DEFAULT_TIME_ZONE hass)).

(** [dt_util.as_utc]: a naive value is read in the default time zone. *)
Definition as_utc (hass : HomeAssistant) (dt : datetime) : result datetime :=
  match tzinfo dt with
  | Some 0 => Ok dt
  | Some off => astimezone off dt 0
  | None => astimezone (DEFAULT_TIME_ZONE hass) dt 0
  end.

(** [dt_util.as_local].  The default zone is a zone object of its own,
    never equal to the fixed-offset [tzinfo] of a parsed value, so an aware
    value always goes through [astimezone]; a naive one is given the default
    zone, and [astimezone] to its own zone returns it as it is. *)
Definition as_local (hass : HomeAssistant) (dt : datetime) : result datetime :=
  match tzinfo dt with
  | Some off => astimezone off dt (DEFAULT_TIME_ZONE hass)
  | None =>
      Ok (mk_datetime (year dt) (month dt) (day dt) (hour dt) (minute dt)
            (second dt) (microsecond dt) (Some (DEFAULT_TIME_ZONE hass)))
  end.
End dt_util.

(** ** Task dictionaries

    One optional field per key the code reads.  [None] is an absent key; for
    the nullable keys ([tag_id], [last_odometer], [odometer_entity]), which
    the code only reads with [.get], it is also a [None] value. *)

Module Task.
Record t (num : Type) : Type := mk {
  id : option string;
  title : option string;
  interval_value : option Z;
  interval_type : option string;
  last_performed : option string;
  tag_id : option string;
  last_odometer : option num;
  odometer_entity : option string
}.

Arguments id {num} _.
Arguments title {num} _.
Arguments interval_value {num} _.
Arguments interval_type {num} _.
Arguments last_performed {num} _.
Arguments tag_id {num} _.
Arguments last_odometer {num} _.
Arguments odometer_entity {num} _.
End Task.

(** [self.task[key]] *)
Definition item {A : Type} (key : string) (field : option A) : result A :=
  match field with
  | Some v => Ok v
  | None => Raise (KeyError key)
  end.

(** [interval_type in ("kilometers", "miles")] *)
Definition is_distance (interval_type : string) : bool :=
  (interval_type =? "kilometers")%string || (interval_type =? "miles")%string.

(** Truth value of an optional text: [None] and [""] are false. *)
Definition truthy (s : option string) : bool :=
  match s with
  | Some (String _ _) => true
  | _ => false
  end.

(** [state.state not in ("unknown", "unavailable", None)] *)
Definition usable_state (s : string) : bool :=
  negb ((s =? "unknown")%string || (s =? "unavailable")%string).

(** ** binary_sensor.py *)

Module Sensor.
Section Sensor.
Context {num : Type} {R : Runtime num}.

(** Values stored in [_attr_extra_state_attributes]. *)
Inductive attr : Type :=
  | ANone
  | AInt (z : Z)
  | ANum (x : num)
  | AStr (s : string).

Definition attr_of_num (x : option num) : attr :=
  match x with Some v => ANum v | None => ANone end.

Record state : Type := mk_state {
  _attr_is_on : bool;
  _attr_extra_state_attributes : gmap string attr
}.

Definition _calculate_next_due_date
    (last_performed : Py.datetime) (interval_value : Z)
    (interval_type : string) : result (option Py.datetime) :=
  if is_distance interval_type then Ok None
  else if (interval_type =? "days")%string then
    let* d := Py.timedelta_days interval_value in
    let* r := Py.add_days last_performed d in
    Ok (Some r)
  else if (interval_type =? "weeks")%string then
    let* d := Py.timedelta_weeks interval_value in
    let* r := Py.add_days last_performed d in
    Ok (Some r)
  else if (interval_type =? "months")%string then
    let* r := Relativedelta.add last_performed
                (Relativedelta.relativedelta interval_value) in
    Ok (Some r)
  else Ok (Some last_performed).

Definition _calculate_next_due_odometer
    (last_odometer : option num) (interval_value : Z)
    (interval_type : string) : result (option num) :=
  if negb (is_distance interval_type) then Ok None
  else
    match last_odometer with
    | None => Ok None
    | Some l =>
        let* n := num_add l interval_value in
        Ok (Some n)
    end.

Definition _get_current_odometer
    (hass : HomeAssistant) (task : Task.t num) : option num :=
  let odometer_entity := Task.odometer_entity task in
  if negb (truthy odometer_entity) then None
  else
    match odometer_entity with
    | None => None
    | Some e =>
        match states hass !! e with
        | Some s => if usable_state s then float s else None
        | None => None
        end
    end.

(** [if last.tzinfo is None: last = dt_util.as_utc(last)] *)
Definition aware (hass : HomeAssistant) (last : Py.datetime)
    : result Py.datetime :=
  match Py.tzinfo last with
  | None => dt_util.as_utc hass last
  | Some _ => Ok last
  end.

Definition _update_state
    (hass : HomeAssistant) (task : Task.t num) : result state :=
  let* interval_value := item "interval_value" (Task.interval_value task) in
  let* interval_type := item "interval_type" (Task.interval_type task) in
  let is_km_based := is_distance interval_type in
  let attrs : gmap string attr :=
    <["interval_type" := AStr interval_type]>
      (<["interval_value" := AInt interval_value]> ∅) in
  let attrs :=
    match Task.tag_id task with
    | Some tag => if truthy (Some tag) then <["tag_id" := AStr tag]> attrs
                  else attrs
    | None => attrs
    end in
  (* Handle km-based intervals *)
  if is_km_based then
    let last_odometer := Task.last_odometer task in
    let current_odometer := _get_current_odometer hass task in
    let* next_due_odometer :=
      _calculate_next_due_odometer last_odometer interval_value
                                   interval_type in
    let attrs := <["last_odometer" := attr_of_num last_odometer]> attrs in
    let attrs :=
      match current_odometer with
      | Some c => <["current_odometer" := ANum c]> attrs
      | None => attrs
      end in
    let attrs :=
      match next_due_odometer with
      | Some n => <["next_due_odometer" := ANum n]> attrs
      | None => attrs
      end in
    let last_performed := default "" (Task.last_performed task) in
    match last_odometer, current_odometer with
    | Some _, Some c =>
        match next_due_odometer with
        | Some n =>
            let on := num_ge c n in
            let* text := format_0f n in
            Ok (mk_state on
                  (<["last_performed" := AStr last_performed]>
                     (<["next_due" := AStr (text +:+ " " +:+ interval_type)]>
                        attrs)))
        | None => Raise TypeError
        end
    | _, _ =>
        Ok (mk_state false
              (<["last_performed" := AStr last_performed]>
                 (<["next_due" := AStr "unknown (odometer not available)"]>
                    attrs)))
    end
  else
    let* last_performed := item "last_performed" (Task.last_performed task) in
    let* last := parse_datetime last_performed in
    match last with
    | None =>
        Ok (mk_state true
              (<["next_due" := AStr "unknown"]>
                 (<["last_performed" := AStr last_performed]> attrs)))
    | Some last =>
        let* last := aware hass last in
        let* due_date :=
          _calculate_next_due_date last interval_value interval_type in
        match due_date with
        | Some due_date =>
            let due_date := Py.replace_midnight due_date in
            let* on :=
              Py.ge (Py.replace_midnight (dt_util.now hass)) due_date in
            Ok (mk_state on
                  (<["last_performed" := AStr last_performed]>
                     (<["next_due" := AStr (Iso.isoformat due_date)]>
                        attrs)))
        | None =>
            Ok (mk_state false
                  (<["last_performed" := AStr last_performed]>
                     (<["next_due" := AStr "unknown"]> attrs)))
        end
    end.

(** What a reader sees of an update: the state and one attribute. *)
Definition observe (key : string) (r : result state)
    : result (bool * option attr) :=
  let* st := r in
  Ok (_attr_is_on st, _attr_extra_state_attributes st !! key).

(** The date library does not raise on [last_performed]: it parses (or
    is reported unparsable), and conversion to UTC and interval addition
    stay inside the calendar. *)
Definition dates_computable (hass : HomeAssistant) (interval_value : Z)
    (interval_type last_performed : string) : Prop :=
  exists p, parse_datetime last_performed = Ok p /\
    forall parsed, p = Some parsed ->
      exists last d,
        aware hass parsed = Ok last /\
        _calculate_next_due_date last interval_value interval_type = Ok d.

(** The number operations do not raise on the task's readings: [L + V]
    returns when the last reading [L] is present, and formatting the sum
    returns when the current reading is present too. *)
Definition numbers_computable (hass : HomeAssistant) (task : Task.t num)
    (interval_value : Z) : Prop :=
  forall l, Task.last_odometer task = Some l ->
    exists n, num_add l interval_value = Ok n /\
      (is_Some (_get_current_odometer hass task) ->
       exists text, format_0f n = Ok text).

(** No usable reading: no entity configured, no state for it, a state
    "unknown" or "unavailable", or text that is not a number. *)
Definition reading_absent (hass : HomeAssistant) (task : Task.t num) : Prop :=
  match Task.odometer_entity task with
  | None => True
  | Some e =>
      e = "" \/
      match states hass !! e with
      | None => True
      | Some s => s = "unknown" \/ s = "unavailable" \/ float s = None
      end
  end.

End Sensor.
End Sensor.

(** ** A runnable platform

    Numbers with integer values, handled as Python handles ints, and a
    parser for the text [isoformat] writes ([YYYY-MM-DDTHH:MM:SS], optionally
    followed by [Z] or [+HH:MM] / [-HH:MM]); enough to run the model on
    concrete tasks.  Python's [float] and [parse_datetime] accept more
    texts than these, and a reading is exact only below [2^53]. *)

Module Reference.
Import Py.

Definition digit_val (c : ascii) : option Z :=
  let n := Z.of_N (Ascii.N_of_ascii c) in
  if (48 <=? n) && (n <=? 57) then Some (n - 48) else None.

Fixpoint take_digits (w : nat) (acc : Z) (s : string) : option (Z * string) :=
  match w with
  | O => Some (acc, s)
  | S w' =>
      match s with
      | String c s' =>
          match digit_val c with
          | Some d => take_digits w' (acc * 10 + d) s'
          | None => None
          end
      | EmptyString => None
      end
  end.

Definition expect (c : ascii) (s : string) : option string :=
  match s with
  | String c' s' => if Ascii.eqb c c' then Some s' else None
  | EmptyString => None
  end.

Fixpoint all_digits (acc : Z) (s : string) : option Z :=
  match s with
  | EmptyString => Some acc
  | String c s' =>
      match digit_val c with
      | Some d => all_digits (acc * 10 + d) s'
      | None => None
      end
  end.

Definition float_int (s : string) : option Z :=
  match s with
  | EmptyString => None
  | String "-" (String c s') => Z.opp <$> all_digits 0 (String c s')
  | _ => all_digits 0 s
  end.

Definition parse_offset (s : string) : option (option Z) :=
  match s with
  | EmptyString => Some None
  | String "Z" EmptyString => Some (Some 0)
  | String sign s1 =>
      '(hh, s2) ← take_digits 2 0 s1;
      s3 ← expect ":" s2;
      '(mm, s4) ← take_digits 2 0 s3;
      match s4 with
      | EmptyString =>
          if Ascii.eqb sign "+" then Some (Some (hh * 3600 + mm * 60))
          else if Ascii.eqb sign "-" then Some (Some (- (hh * 3600 + mm * 60)))
          else None
      | _ => None
      end
  end.

Definition parse_fields (s : string) : option datetime :=
  '(y, s) ← take_digits 4 0 s;
  s ← expect "-" s;
  '(m, s) ← take_digits 2 0 s;
  s ← expect "-" s;
  '(d, s) ← take_digits 2 0 s;
  s ← expect "T" s;
  '(hh, s) ← take_digits 2 0 s;
  s ← expect ":" s;
  '(mi, s) ← take_digits 2 0 s;
  s ← expect ":" s;
  '(ss, s) ← take_digits 2 0 s;
  tz ← parse_offset s;
  Some (mk_datetime y m d hh mi ss 0 tz).

Definition valid_fields (dt : datetime) : bool :=
  (MINYEAR <=? year dt) && (year dt <=? MAXYEAR)
  && (1 <=? month dt) && (month dt <=? 12)
  && (1 <=? day dt) && (day dt <=? days_in_month (year dt) (month dt))
  && (hour dt <? 24) && (minute dt <? 60) && (second dt <? 60).

Definition parse_iso (s : string) : result (option datetime) :=
  match parse_fields s with
  | None => Ok None
  | Some dt => if valid_fields dt then Ok (Some dt) else Raise ValueError
  end.

Definition show_int (z : Z) : string :=
  NilZero.string_of_int (Z.to_int z).

(** The int-to-float conversion: the nearest double, ties to even; ints of
    magnitude [2^1024 - 2^970] or more round past the largest double and
    raise [OverflowError]. *)
Definition FLOAT_LIMIT : Z := 2 ^ 1024 - 2 ^ 970.

Definition to_double (z : Z) : result Z :=
  let a := Z.abs z in
  if FLOAT_LIMIT <=? a then Raise OverflowError
  else
    let e := Z.log2 a - 52 in
    if e <=? 0 then Ok z
    else
      let q := Z.shiftr a e in
      let r := a - Z.shiftl q e in
      let half := Z.shiftl 1 (e - 1) in
      let q := if (half <? r) || ((half =? r) && Z.odd q) then q + 1 else q in
      Ok (Z.sgn z * Z.shiftl q e).

(** [f"{n:.0f}"] for an int [n]: the digits of its double. *)
Definition format_int (z : Z) : result string :=
  let* d := to_double z in
  Ok (show_int d).

Definition runtime : Runtime Z := {|
  float := float_int;
  num_add := fun l v => Ok (l + v);
  num_ge := Z.geb;
  format_0f := format_int;
  parse_datetime := parse_iso
|}.

End Reference.

(** ** button.py *)

Module Button.
Section Button.
Context {num : Type} {R : Runtime num}.

(** [timedelta(seconds=5)] and [timedelta(seconds=3)], in microseconds. *)
Definition CONFIRMATION_TIMEOUT : Z := 5000000.
Definition CONFIRMED_DISPLAY_TIME : Z := 3000000.

(** The two callbacks handed to [hass.loop.call_later]. *)
Inductive callback : Type :=
  | reset_icon_cb (task_id : string)
  | write_state_cb (task_id : string).

(** Module-level tables, the event loop's armed callbacks, and the two
    observable effects: calls of [store.update_last_performed] and requests
    [async_write_ha_state] per task id. *)
Record world : Type := mk_world {
  _pending_confirmations : gmap string Py.datetime;
  _confirmed_tasks : gmap string Py.datetime;
  _reset_timers : gmap string nat;
  loop : gmap nat (Z * callback);
  next_handle : nat;
  store_calls : list (string * option num);
  written : gmultiset string
}.

Definition initial : world :=
  mk_world ∅ ∅ ∅ ∅ 0%nat [] ∅.

Definition set_pending (f : gmap string Py.datetime -> gmap string Py.datetime)
    (w : world) : world :=
  mk_world (f (_pending_confirmations w)) (_confirmed_tasks w)
           (_reset_timers w) (loop w) (next_handle w) (store_calls w)
           (written w).

Definition set_confirmed
    (f : gmap string Py.datetime -> gmap string Py.datetime)
    (w : world) : world :=
  mk_world (_pending_confirmations w) (f (_confirmed_tasks w))
           (_reset_timers w) (loop w) (next_handle w) (store_calls w)
           (written w).

Definition set_timers (f : gmap string nat -> gmap string nat)
    (w : world) : world :=
  mk_world (_pending_confirmations w) (_confirmed_tasks w)
           (f (_reset_timers w)) (loop w) (next_handle w) (store_calls w)
           (written w).

(** [hass.loop.call_later(delay, cb)] *)
Definition call_later (delay : Z) (cb : callback) (w : world) : nat * world :=
  (next_handle w,
   mk_world (_pending_confirmations w) (_confirmed_tasks w)
            (_reset_timers w) (<[next_handle w := (delay, cb)]> (loop w))
            (S (next_handle w)) (store_calls w) (written w)).

(** [handle.cancel()]: the callback can no longer run. *)
Definition cancel (h : nat) (w : world) : world :=
  mk_world (_pending_confirmations w) (_confirmed_tasks w)
           (_reset_timers w) (delete h (loop w)) (next_handle w)
           (store_calls w) (written w).

(** [entity.async_write_ha_state()] of the button of [task_id] *)
Definition async_write_ha_state (task_id : string) (w : world) : world :=
  mk_world (_pending_confirmations w) (_confirmed_tasks w)
           (_reset_timers w) (loop w) (next_handle w) (store_calls w)
           (written w ⊎ {[+ task_id +]}).

(** [store.update_last_performed(task_id, performed_odometer=o)] *)
Definition update_last_performed (task_id : string) (o : option num)
    (w : world) : world :=
  mk_world (_pending_confirmations w) (_confirmed_tasks w)
           (_reset_timers w) (loop w) (next_handle w)
           (store_calls w ++ [(task_id, o)]) (written w).

(** [if tid in button_entities: button_entities[tid].async_write_ha_state()] *)
Definition write_if_registered (hass : HomeAssistant) (task_id : string)
    (w : world) : world :=
  if decide (task_id ∈ button_entities hass)
  then async_write_ha_state task_id w else w.

(** [if tid in _reset_timers: _reset_timers[tid].cancel(); del _reset_timers[tid]] *)
Definition cancel_and_forget (task_id : string) (w : world) : world :=
  match _reset_timers w !! task_id with
  | Some h => set_timers (delete task_id) (cancel h w)
  | None => w
  end.

(** The [icon] property.  Reading it drops an expired confirmation. *)
Definition icon (hass : HomeAssistant) (task : Task.t num) (w : world)
    : result (string * world) :=
  let* task_id := item "id" (Task.id task) in
  let now := dt_util.now hass in
  let confirmed :=
    match _confirmed_tasks w !! task_id with
    | Some confirmed_time =>
        if Py.sub now confirmed_time <=? CONFIRMED_DISPLAY_TIME
        then (true, w)
        else (false, set_confirmed (delete task_id) w)
    | None => (false, w)
    end in
  let '(shown, w) := confirmed in
  if shown then Ok ("mdi:check-circle", w)
  else if decide (is_Some (_pending_confirmations w !! task_id))
  then Ok ("mdi:alert-circle", w)
  else Ok ("mdi:check-circle-outline", w).

(** The closure [reset_icon] armed after a first press. *)
Definition reset_icon (hass : HomeAssistant) (task_id : string)
    (w : world) : world :=
  if decide (is_Some (_pending_confirmations w !! task_id)) then
    let w := set_pending (delete task_id) w in
    let w := set_timers (delete task_id) w in
    write_if_registered hass task_id w
  else w.

(** The reading passed to the store on confirmation (the block under
    [performed_odometer = None] in [async_press]). *)
Definition performed_odometer (hass : HomeAssistant) (task : Task.t num)
    : option num :=
  match Task.interval_type task with
  | Some ty =>
      if is_distance ty then
        match Task.odometer_entity task with
        | Some e =>
            if truthy (Some e) then
              match states hass !! e with
              | Some s => if usable_state s then float s else None
              | None => None
              end
            else None
        | None => None
        end
      else None
  | None => None
  end.

(** Keys of [d] whose timestamp is older than [limit] at [now]. *)
Definition expired (now : Py.datetime) (limit : Z)
    (d : gmap string Py.datetime) : list string :=
  (filter (λ p, limit < Py.sub now p.2) (map_to_list d)).*1.

Definition expire_pending (hass : HomeAssistant) (w : world)
    (tid : string) : world :=
  let w := set_pending (delete tid) w in
  let w := cancel_and_forget tid w in
  write_if_registered hass tid w.

Definition expire_confirmed (w : world) (tid : string) : world :=
  set_confirmed (delete tid) w.

(** The two clean-up loops that end [async_press]. *)
Definition clean_up (hass : HomeAssistant) (now : Py.datetime)
    (w : world) : world :=
  let w :=
    foldl (expire_pending hass) w
          (expired now CONFIRMATION_TIMEOUT (_pending_confirmations w)) in
  foldl expire_confirmed w
        (expired now CONFIRMED_DISPLAY_TIME (_confirmed_tasks w)).

(** The three branches of [async_press] before the clean-up. *)
Definition confirm (hass : HomeAssistant) (task : Task.t num) (task_id : string)
    (now : Py.datetime) (w : world) : world :=
  let w := set_pending (delete task_id) w in
  let w := cancel_and_forget task_id w in
  let w := set_confirmed <[task_id := now]> w in
  let w := async_write_ha_state task_id w in
  if store hass then
    let w := update_last_performed task_id (performed_odometer hass task) w in
    (call_later CONFIRMED_DISPLAY_TIME (write_state_cb task_id) w).2
  else w.

Definition restart (task_id : string) (now : Py.datetime) (w : world)
    : world :=
  let w := cancel_and_forget task_id w in
  let w := set_pending <[task_id := now]> w in
  let w := async_write_ha_state task_id w in
  let '(timer, w) :=
    call_later CONFIRMATION_TIMEOUT (reset_icon_cb task_id) w in
  set_timers <[task_id := timer]> w.

Definition first_press (task_id : string) (now : Py.datetime) (w : world)
    : world :=
  let w := set_pending <[task_id := now]> w in
  let w := async_write_ha_state task_id w in
  let w :=
    match _reset_timers w !! task_id with
    | Some h => cancel h w
    | None => w
    end in
  let '(timer, w) :=
    call_later CONFIRMATION_TIMEOUT (reset_icon_cb task_id) w in
  set_timers <[task_id := timer]> w.

Definition async_press (hass : HomeAssistant) (task : Task.t num) (w : world)
    : result world :=
  let* task_id := item "id" (Task.id task) in
  let now := dt_util.now hass in
  let w :=
    match _pending_confirmations w !! task_id with
    | Some first_press_time =>
        if Py.sub now first_press_time <=? CONFIRMATION_TIMEOUT
        then confirm hass task task_id now w
        else restart task_id now w
    | None => first_press task_id now w
    end in
  Ok (clean_up hass now w).

(** The event loop running an armed callback. *)
Definition fire (hass : HomeAssistant) (h : nat) (w : world) : world :=
  match loop w !! h with
  | Some (_, cb) =>
      (* a callback runs once: it leaves the loop as it is called *)
      let w := cancel h w in
      match cb with
      | reset_icon_cb task_id => reset_icon hass task_id w
      | write_state_cb task_id => async_write_ha_state task_id w
      end
  | None => w
  end.

(** Dropping a pending first press together with its timer: the part
    shared by [confirm], [restart] and [expire_pending]. *)
Definition forget (task_id : string) (w : world) : world :=
  cancel_and_forget task_id (set_pending (delete task_id) w).

(** *** Executions

    Presses, timer callbacks and indicator reads arrive in any order. *)
Inductive event : Type :=
  | Press (hass : HomeAssistant) (task : Task.t num)
  | Fire (hass : HomeAssistant) (h : nat)
  | ReadIcon (hass : HomeAssistant) (task : Task.t num).

Definition step (w : world) (e : event) : world :=
  match e with
  | Press hass task =>
      match async_press hass task w with Ok w' => w' | Raise _ => w end
  | Fire hass h => fire hass h w
  | ReadIcon hass task =>
      match icon hass task w with Ok (_, w') => w' | Raise _ => w end
  end.

Definition run_from (w : world) (trace : list event) : world :=
  foldl step w trace.

(** The clock reading an event takes, if it takes one. *)
Definition reading (e : event) : option Z :=
  match e with
  | Press hass _ | ReadIcon hass _ => Some (Py.utc (dt_util.now hass))
  | Fire _ _ => None
  end.

(** The clock does not go back along the trace, starting from [t]. *)
Fixpoint ordered (t : Z) (trace : list event) : Prop :=
  match trace with
  | [] => True
  | e :: rest =>
      match reading e with
      | Some t' => t <= t' /\ ordered t' rest
      | None => ordered t rest
      end
  end.

Fixpoint latest (t : Z) (trace : list event) : Z :=
  match trace with
  | [] => t
  | e :: rest => latest (default t (reading e)) rest
  end.

(** [w] is the world after some execution whose last clock reading is [t]. *)
Definition reachable (t : Z) (w : world) : Prop :=
  exists (trace : list event) (t0 : Z),
    ordered t0 trace /\ run_from initial trace = w /\ latest t0 trace = t.

(** Every pending id has its armed [reset_icon] callback and conversely. *)
Record consistent (w : world) : Prop := mk_consistent {
  timers_pending : forall tid,
    is_Some (_reset_timers w !! tid)
    <-> is_Some (_pending_confirmations w !! tid);
  timers_armed : forall tid h,
    _reset_timers w !! tid = Some h ->
    loop w !! h = Some (CONFIRMATION_TIMEOUT, reset_icon_cb tid);
  armed_registered : forall h d tid,
    loop w !! h = Some (d, reset_icon_cb tid) ->
    _reset_timers w !! tid = Some h;
  handles_fresh : forall h,
    is_Some (loop w !! h) -> (h < next_handle w)%nat
}.

(** Recorded timestamps are not later than the clock [t], and a pending
    first press is not earlier than a confirmation of the same id. *)
Record timely (t : Z) (w : world) : Prop := mk_timely {
  pending_past : forall tid tp,
    _pending_confirmations w !! tid = Some tp -> Py.utc tp <= t;
  confirmed_past : forall tid tc,
    _confirmed_tasks w !! tid = Some tc -> Py.utc tc <= t;
  confirmed_before_pending : forall tid tp tc,
    _pending_confirmations w !! tid = Some tp ->
    _confirmed_tasks w !! tid = Some tc ->
    Py.utc tc <= Py.utc tp
}.

End Button.
End Button.

(** ** websocket.py *)

Module Websocket.
Section Websocket.
Context {num : Type} {R : Runtime num}.

(** Scalar JSON values of an [updates] dictionary. *)
Inductive json : Type :=
  | JNull
  | JBool (b : bool)
  | JInt (z : Z)
  | JStr (s : string).

Definition json_truthy (v : json) : bool :=
  match v with
  | JNull => false
  | JBool b => b
  | JInt z => negb (z =? 0)
  | JStr s => truthy (Some s)
  end.

(** A message that passed the [home_maintenance/update_task] schema. *)
Record message : Type := mk_message {
  msg_id : Z;
  msg_task_id : string;
  msg_updates : option (gmap string json)
}.

(** What the handler does to its collaborators, in order. *)
Inductive effect : Type :=
  | send_result (id : Z)
  | send_error (id : Z) (code : string) (text : string)
  | update_task (task_id : string) (updates : gmap string json).

(** The text stored for a truthy [last_str]: [Ok None] is the
    [invalid_date] reply. *)
Definition normalize (hass : HomeAssistant) (last_str : json)
    : result (option string) :=
  match last_str with
  | JStr s =>
      let* parsed := parse_datetime s in
      match parsed with
      | None => Ok None
      | Some parsed =>
          let* parsed_local := dt_util.as_local hass parsed in
          Ok (Some (Iso.isoformat (Py.replace_midnight parsed_local)))
      end
  | _ => Raise TypeError
  end.

Definition json_text (v : json) : string :=
  match v with JStr s => s | _ => "" end.

Definition websocket_update_task (hass : HomeAssistant) (msg : message)
    : list effect * result unit :=
  let task_id := msg_task_id msg in
  let updates := default ∅ (msg_updates msg) in
  match subscript updates "last_performed" with
  | Raise e => ([], Raise e)
  | Ok last_str =>
      let last_performed :=
        if json_truthy last_str then normalize hass last_str
        else Ok (Some (Iso.isoformat
                         (Py.replace_midnight (dt_util.now hass)))) in
      match last_performed with
      | Raise e => ([], Raise e)
      | Ok None =>
          ([send_error (msg_id msg) "invalid_date"
              ("Could not parse date: " +:+ json_text last_str)], Ok ())
      | Ok (Some last_performed) =>
          let updates := <["last_performed" := JStr last_performed]> updates in
          if store hass then
            ([update_task task_id updates; send_result (msg_id msg)], Ok ())
          else ([], Raise AttributeError)
      end
  end.

End Websocket.
End Websocket.

(** ** Concrete households, tasks and messages *)

Module Scenario.

#[local] Existing Instance Reference.runtime.

Definition home_with (odometer : string) (has_store : bool) (hh mm ss : Z)
    : HomeAssistant := {|
  states := {[ "sensor.odometer" := odometer ]};
  wall_clock := Py.mk_datetime 2024 6 1 hh mm ss 0 None;
  DEFAULT_TIME_ZONE := 3600;
  store := has_store;
  button_entities := {[ "oil" ]}
|}.

(** 1 June 2024, [hh:mm:ss] local time, odometer at 12000. *)
Definition home : Z -> Z -> Z -> HomeAssistant := home_with "12000" true.

Definition calendar_task (value : Z) (type : string)
    (last : option string) : Task.t Z :=
  Task.mk Z (Some "filter") (Some "Change filter")
    (Some value) (Some type) last None None None.

Definition filter_task := calendar_task 1 "months" (Some "2024-01-31T00:00:00+01:00").
Definition yearly_task := calendar_task 1 "years" (Some "2024-01-01T10:30:00+00:00").
Definition garbled_task := calendar_task 30 "days" (Some "last spring").
Definition misdated_task :=
  calendar_task 30 "days" (Some "2024-02-30T00:00:00+01:00").
Definition undated_task := calendar_task 30 "days" None.
Definition ancient_task :=
  calendar_task 1 "years" (Some "0001-01-01T00:00:00").
Definition far_task := calendar_task 4000000 "days" (Some "2024-01-31T00:00:00+01:00").

Definition oil_task : Task.t Z :=
  Task.mk Z (Some "oil") (Some "Oil change") (Some 5000)
    (Some "kilometers") (Some "2024-01-31T00:00:00+01:00") None
    (Some 8000) (Some "sensor.odometer").

(** [oil_task] with an interval beyond the range of a float. *)
Definition endless_task : Task.t Z :=
  Task.mk Z (Some "oil") (Some "Oil change") (Some (10 ^ 309))
    (Some "kilometers") (Some "2024-01-31T00:00:00+01:00") None
    (Some 8000) (Some "sensor.odometer").

Definition press (hass : HomeAssistant) : @Button.event Z :=
  Button.Press hass oil_task.

(** One press at 10:30:00. *)
Definition pressed_once : @Button.world Z :=
  Button.run_from Button.initial [press (home 10 30 0)].

(** Three presses, one second apart. *)
Definition pressed_thrice : @Button.world Z :=
  Button.run_from Button.initial
    [press (home 10 30 0); press (home 10 30 1); press (home 10 30 2)].

Definition rename_only : Websocket.message :=
  Websocket.mk_message 7 "oil" (Some {[ "title" := Websocket.JStr "Oil" ]}).

Definition redate : Websocket.message :=
  Websocket.mk_message 8 "oil"
    (Some {[ "last_performed" := Websocket.JStr "2024-05-20T18:45:00+00:00" ]}).

End Scenario.

(** ** Counting presses and commits *)

Module Tally.
Section Tally.
Context {num : Type} {R : Runtime num}.

(** Whether [e] is a press of the button of [tid]. *)
Definition is_press_of (tid : string) (e : @Button.event num) : bool :=
  match e with
  | Button.Press _ task => bool_decide (Task.id task = Some tid)
  | _ => false
  end.

Fixpoint presses_on (tid : string) (trace : list (@Button.event num)) : nat :=
  match trace with
  | [] => 0%nat
  | e :: rest =>
      ((if is_press_of tid e then 1 else 0) + presses_on tid rest)%nat
  end.

(** Calls of [store.update_last_performed] made for [tid]. *)
Definition commits_of (tid : string) (calls : list (string * option num))
    : nat :=
  length (filter (λ c, c.1 = tid) calls).

(** 1 when [tid] has a pending first press, else 0. *)
Definition pending_count (tid : string) (w : @Button.world num) : nat :=
  if decide (is_Some (Button._pending_confirmations w !! tid))
  then 1%nat else 0%nat.

End Tally.
End Tally.

(** ** websocket.py: the other commands *)

(** Modelled from the spec: the task type [HomeMaintenanceTask] of
    [store.py], with the fields the constructor call in [websocket_add_task]
    names.  [None] is a [None] value. *)
Module StoredTask.
Record t (num : Type) : Type := mk {
  id : string;
  title : string;
  interval_value : Z;
  interval_type : string;
  last_performed : string;
  tag_id : option string;
  icon : option string;
  last_odometer : option num;
  odometer_entity : option string;
  category : option string;
  item_name : option string
}.

Arguments mk {num}.
Arguments id {num} _.
Arguments title {num} _.
Arguments interval_value {num} _.
Arguments interval_type {num} _.
Arguments last_performed {num} _.
Arguments tag_id {num} _.
Arguments icon {num} _.
Arguments last_odometer {num} _.
Arguments odometer_entity {num} _.
Arguments category {num} _.
Arguments item_name {num} _.
End StoredTask.

Module Commands.
Section Commands.
Context {num : Type} {R : Runtime num}.

(** A task as the store hands it out, and the attributes of an entity
    state: dictionaries from keys to values. *)
Definition dict : Type := gmap string (@Sensor.attr num).

(** What the store answers: the id [add] returns and the tasks [get_all]
    lists. *)
Record Store : Type := mk_store {
  add_returns : StoredTask.t num -> list string -> string;
  get_all : list dict
}.

(** A message that passed the [home_maintenance/add_task] schema; the
    optional keys are [None] when absent. *)
Record add_message : Type := mk_add_message {
  add_id : Z;
  add_title : string;
  add_interval_value : Z;
  add_interval_type : string;
  add_last_performed : option string;
  add_tag_id : option string;
  add_icon : option string;
  add_labels : option (list string);
  add_last_odometer : option num;
  add_odometer_entity : option string;
  add_category : option string;
  add_item_name : option string
}.

Inductive payload : Type :=
  | Success
  | SuccessId (id : string)
  | Tasks (tasks : list dict)
  | OneTask (task : dict).

Inductive effect : Type :=
  | send_result (id : Z) (p : payload)
  | send_error (id : Z) (code : string) (text : string)
  | store_add (task : StoredTask.t num) (labels : list string)
  | store_update_last_performed (task_id : string) (o : option num)
  | store_delete (task_id : string).

(** [uuid_hex] stands for [uuid.uuid4().hex]. *)
Definition websocket_add_task (hass : HomeAssistant) (st : Store)
    (uuid_hex : string) (msg : add_message) : list effect * result unit :=
  match item "last_performed" (add_last_performed msg) with
  | Raise e => ([], Raise e)
  | Ok last_str =>
      let last_performed :=
        if truthy (Some last_str)
        then Websocket.normalize hass (Websocket.JStr last_str)
        else Ok (Some (Iso.isoformat
                         (Py.replace_midnight (dt_util.now hass)))) in
      match last_performed with
      | Raise e => ([], Raise e)
      | Ok None =>
          ([send_error (add_id msg) "invalid_date"
              ("Could not parse date: " +:+ last_str)], Ok ())
      | Ok (Some last_performed) =>
          let new_task :=
            StoredTask.mk ("home_maintenance_" +:+ uuid_hex)
              (add_title msg) (add_interval_value msg)
              (add_interval_type msg) last_performed (add_tag_id msg)
              (add_icon msg) (add_last_odometer msg)
              (add_odometer_entity msg) (add_category msg)
              (add_item_name msg) in
          let labels := default [] (add_labels msg) in
          if store hass then
            ([store_add new_task labels;
              send_result (add_id msg)
                (SuccessId (add_returns st new_task labels))], Ok ())
          else ([], Raise AttributeError)
      end
  end.

Definition websocket_complete_task (hass : HomeAssistant) (msg_id : Z)
    (task_id : string) (performed_odometer : option num)
    : list effect * result unit :=
  if store hass then
    ([store_update_last_performed task_id performed_odometer;
      send_result msg_id Success], Ok ())
  else ([], Raise AttributeError).

Definition websocket_remove_task (hass : HomeAssistant) (msg_id : Z)
    (task_id : string) : list effect * result unit :=
  if store hass then
    ([store_delete task_id; send_result msg_id Success], Ok ())
  else ([], Raise AttributeError).

(** [if key in attrs and attrs[key] is not None: task[key] = attrs[key]] *)
Definition copy_if_set (key : string) (attrs task : dict) : dict :=
  match attrs !! key with
  | Some Sensor.ANone | None => task
  | Some v => <[key := v]> task
  end.

(** [if key in attrs: task[key] = attrs[key]] *)
Definition copy_if_present (key : string) (attrs task : dict) : dict :=
  match attrs !! key with
  | Some v => <[key := v]> task
  | None => task
  end.

Definition enrich (attrs task : dict) : dict :=
  copy_if_present "next_due" attrs
    (copy_if_set "current_odometer" attrs
       (copy_if_set "next_due_odometer" attrs task)).

(** The enrichment of one task: [entities] maps a task id to the entity id
    of its sensor, [attributes] an entity id to its state's attributes.  A
    task id that is no text has no entity. *)
Definition enriched (entities : gmap string string)
    (attributes : gmap string dict) (task_id : @Sensor.attr num)
    (task : dict) : dict :=
  match task_id with
  | Sensor.AStr tid =>
      match entities !! tid with
      | Some entity_id =>
          match attributes !! entity_id with
          | Some attrs => enrich attrs task
          | None => task
          end
      | None => task
      end
  | _ => task
  end.

(** The loop of [websocket_get_tasks]. *)
Fixpoint enrich_all (entities : gmap string string)
    (attributes : gmap string dict) (tasks : list dict)
    : result (list dict) :=
  match tasks with
  | [] => Ok []
  | task :: rest =>
      let* task_id := subscript task "id" in
      let task := enriched entities attributes task_id task in
      let* rest := enrich_all entities attributes rest in
      Ok (task :: rest)
  end.

Definition websocket_get_tasks (hass : HomeAssistant) (st : Store)
    (entities : gmap string string) (attributes : gmap string dict)
    (msg_id : Z) : list effect * result unit :=
  if store hass then
    match enrich_all entities attributes (get_all st) with
    | Ok tasks => ([send_result msg_id (Tasks tasks)], Ok ())
    | Raise e => ([], Raise e)
    end
  else ([], Raise AttributeError).

(** [websocket_get_task] for a task the store knows: [found] is what
    [store.get(task_id)] returned. *)
Definition websocket_get_task (entities : gmap string string)
    (attributes : gmap string dict) (msg_id : Z) (task_id : string)
    (found : dict) : list effect * result unit :=
  ([send_result msg_id
      (OneTask (enriched entities attributes (Sensor.AStr task_id) found))],
   Ok ()).

End Commands.
End Commands.

(** ** Entities and platform set-up *)

Module Platform.
Section Platform.
Context {num : Type} {R : Runtime num}.

(** [HomeMaintenanceSensor] after [__init__]. *)
Record sensor_entity : Type := mk_sensor {
  sensor_task : Task.t num;
  sensor_name : string;
  sensor_unique_id : string;
  sensor_device_id : option string;
  sensor_labels : list string;
  sensor_state : @Sensor.state num
}.

(** [HomeMaintenanceButton] after [__init__]. *)
Record button_entity : Type := mk_button {
  button_task : Task.t num;
  button_name : string;
  button_unique_id : string;
  button_device_id : option string;
  button_labels : list string;
  button_device_class : string
}.

(** [HomeMaintenanceSensor.__init__] *)
Definition sensor_init (hass : HomeAssistant) (task : Task.t num)
    (device_id : option string) (labels : option (list string))
    : result sensor_entity :=
  let* title := item "title" (Task.title task) in
  let* id := item "id" (Task.id task) in
  let* st := Sensor._update_state hass task in
  Ok (mk_sensor task title id device_id (default [] labels) st).

(** [HomeMaintenanceButton.__init__] *)
Definition button_init (task : Task.t num) (device_id : option string)
    (labels : option (list string)) : result button_entity :=
  let* title := item "title" (Task.title task) in
  let* id := item "id" (Task.id task) in
  Ok (mk_button task (title +:+ " - Confirm") (id +:+ "_button") device_id
        (default [] labels) "restart").

(** [hass.data[DOMAIN]]: each field is [None] (or [false]) while its key is
    absent.  [data_store] holds what [store.get_all()] lists. *)
Record domain_data : Type := mk_data {
  data_device_id : option string;
  data_store : option (list (Task.t num));
  data_entities : option (gmap string sensor_entity);
  data_button_entities : option (gmap string button_entity);
  data_add_entities : bool;
  data_add_button_entities : bool
}.

Definition empty_data : domain_data :=
  mk_data None None None None false false.

Definition with_entities (table : gmap string sensor_entity)
    (data : domain_data) : domain_data :=
  mk_data (data_device_id data) (data_store data) (Some table)
    (data_button_entities data) (data_add_entities data)
    (data_add_button_entities data).

Definition with_button_entities (table : gmap string button_entity)
    (data : domain_data) : domain_data :=
  mk_data (data_device_id data) (data_store data) (data_entities data)
    (Some table) (data_add_entities data) (data_add_button_entities data).

Definition with_add_entities (data : domain_data) : domain_data :=
  mk_data (data_device_id data) (data_store data) (data_entities data)
    (data_button_entities data) true (data_add_button_entities data).

Definition with_add_button_entities (data : domain_data) : domain_data :=
  mk_data (data_device_id data) (data_store data) (data_entities data)
    (data_button_entities data) (data_add_entities data) true.

(** The loop of [binary_sensor.async_setup_entry]; [entities] is the list
    built so far. *)
Fixpoint add_sensors (hass : HomeAssistant) (device_id : option string)
    (tasks : list (Task.t num)) (data : domain_data)
    (entities : list sensor_entity)
    : domain_data * result (list sensor_entity) :=
  match tasks with
  | [] => (data, Ok entities)
  | task :: rest =>
      match sensor_init hass task device_id None with
      | Raise e => (data, Raise e)
      | Ok entity =>
          let entities := entities ++ [entity] in
          match data_entities data with
          | None => (data, Raise (KeyError "entities"))
          | Some table =>
              match item "id" (Task.id task) with
              | Raise e => (data, Raise e)
              | Ok id =>
                  add_sensors hass device_id rest
                    (with_entities (<[id := entity]> table) data) entities
              end
          end
      end
  end.

(** [binary_sensor.async_setup_entry]: the data afterwards and the entities
    handed to [async_add_entities]. *)
Definition sensor_setup (hass : HomeAssistant) (data : option domain_data)
    : domain_data * result (list sensor_entity) :=
  let data := default empty_data data in
  let data := with_add_entities data in
  let device_id := data_device_id data in
  match data_store data with
  | None => (data, Raise AttributeError)
  | Some tasks => add_sensors hass device_id tasks data []
  end.

(** The loop of [button.async_setup_entry]. *)
Fixpoint add_buttons (device_id : option string)
    (tasks : list (Task.t num)) (data : domain_data)
    (entities : list button_entity)
    : domain_data * result (list button_entity) :=
  match tasks with
  | [] => (data, Ok entities)
  | task :: rest =>
      match button_init task device_id None with
      | Raise e => (data, Raise e)
      | Ok entity =>
          let entities := entities ++ [entity] in
          let table := default ∅ (data_button_entities data) in
          let data := with_button_entities table data in
          match item "id" (Task.id task) with
          | Raise e => (data, Raise e)
          | Ok id =>
              add_buttons device_id rest
                (with_button_entities (<[id := entity]> table) data) entities
          end
      end
  end.

(** [button.async_setup_entry] *)
Definition button_setup (data : option domain_data)
    : domain_data * result (list button_entity) :=
  let data := default empty_data data in
  let data := with_add_button_entities data in
  let device_id := data_device_id data in
  match data_store data with
  | None => (data, Raise AttributeError)
  | Some tasks => add_buttons device_id tasks data []
  end.

End Platform.
End Platform.

(** ** More concrete data *)

Module Fixtures.
Import Scenario.

#[local] Existing Instance Reference.runtime.

(** 2 June 2024, 10:30:00 local time. *)
Definition next_day : HomeAssistant := {|
  states := {[ "sensor.odometer" := "12000" ]};
  wall_clock := Py.mk_datetime 2024 6 2 10 30 0 0 None;
  DEFAULT_TIME_ZONE := 3600;
  store := true;
  button_entities := {[ "oil" ]}
|}.

(** [oil_task] under another title, tag and date. *)
Definition oil_task_renamed : Task.t Z :=
  Task.mk Z (Some "oil") (Some "Engine oil") (Some 5000)
    (Some "kilometers") (Some "2023-11-05T00:00:00+01:00") (Some "tag-7")
    (Some 8000) (Some "sensor.odometer").

(** [filter_task] with an odometer configured. *)
Definition filter_task_metered : Task.t Z :=
  Task.mk Z (Some "filter") (Some "Change filter") (Some 1) (Some "months")
    (Some "2024-01-31T00:00:00+01:00") None (Some 500)
    (Some "sensor.odometer").

(** Two presses of the oil button, two seconds apart. *)
Definition pressed_twice : @Button.world Z :=
  Button.run_from Button.initial [press (home 10 30 0); press (home 10 30 2)].

Definition retitle_and_redate : Websocket.message :=
  Websocket.mk_message 9 "oil"
    (Some {[ "title" := Websocket.JStr "Oil";
             "last_performed"
             := Websocket.JStr "2024-05-20T18:45:00+00:00" ]}).

Definition add_oil : @Commands.add_message Z :=
  Commands.mk_add_message 11 "Oil change" 5000 "kilometers"
    (Some "2024-05-20T18:45:00+00:00") None None (Some ["car"]) (Some 8000)
    (Some "sensor.odometer") None None.

Definition add_undated : @Commands.add_message Z :=
  Commands.mk_add_message 12 "Change filter" 1 "months" None None None None
    None None None None.

Definition added_oil : StoredTask.t Z :=
  StoredTask.mk "home_maintenance_0f3a" "Oil change" 5000 "kilometers"
    "2024-05-20T00:00:00+01:00" None None (Some 8000)
    (Some "sensor.odometer") None None.

Definition stored_oil : @Commands.dict Z :=
  {[ "id" := Sensor.AStr "oil"; "title" := Sensor.AStr "Oil change" ]}.

Definition stored_filter : @Commands.dict Z :=
  {[ "id" := Sensor.AStr "filter"; "title" := Sensor.AStr "Change filter" ]}.

Definition shelf : @Commands.Store Z :=
  Commands.mk_store (fun task _ => StoredTask.id task)
    [stored_oil; stored_filter].

Definition entity_ids : gmap string string :=
  {[ "oil" := "binary_sensor.oil_change" ]}.

(** [hass.data[DOMAIN]] as the integration's set-up leaves it. *)
Definition domain : @Platform.domain_data Z :=
  Platform.mk_data (Some "device-1") (Some [oil_task; filter_task]) (Some ∅)
    None false false.

End Fixtures.

(** * Properties of the due-state computation *)

Module SensorFacts.
Section SensorFacts.
Context {num : Type} {R : Runtime num}.
Import Sensor.

Lemma Ok_inj {A : Type} (a b : A) : Ok a = Ok b -> a = b.
Proof. intros H. injection H as H. exact H. Qed.

Lemma is_distance_spec (ty : string) :
  is_distance ty = true <-> ty = "kilometers" \/ ty = "miles".
Proof.
  unfold is_distance. rewrite orb_true_iff, !String.eqb_eq. tauto.
Qed.

Lemma eqb_string_false (a b : string) : a <> b -> (a =? b)%string = false.
Proof. apply String.eqb_neq. Qed.

Lemma of_instant_tzinfo (off us : Z) (dt : Py.datetime) :
  Py.of_instant off us = Ok dt -> Py.tzinfo dt = Some off.
Proof.
  unfold Py.of_instant. case_match; [|discriminate].
  destruct (Py.ord2ymd _) as [[y m] d]. intros [= <-]. reflexivity.
Qed.

Lemma of_instant_raises (off us : Z) (e : exn) :
  Py.of_instant off us = Raise e -> e = OverflowError.
Proof.
  unfold Py.of_instant. case_match; [|by intros [= <-]].
  by destruct (Py.ord2ymd _) as [[y m] d].
Qed.

Lemma astimezone_tzinfo (src dst : Z) (dt r : Py.datetime) :
  Py.astimezone src dt dst = Ok r -> Py.tzinfo r = Some dst.
Proof.
  unfold Py.astimezone. cbv zeta.
  destruct (Py.of_instant 0 _); cbn [rbind]; [|discriminate].
  apply of_instant_tzinfo.
Qed.

Lemma astimezone_raises (src dst : Z) (dt : Py.datetime) (e : exn) :
  Py.astimezone src dt dst = Raise e -> e = OverflowError.
Proof.
  unfold Py.astimezone. cbv zeta.
  destruct (Py.of_instant 0 _) eqn:E; cbn [rbind].
  - apply of_instant_raises.
  - intros [= <-]. by eapply of_instant_raises.
Qed.

Lemma aware_tzinfo (hass : HomeAssistant) (dt last : Py.datetime) :
  aware hass dt = Ok last -> is_Some (Py.tzinfo last).
Proof.
  unfold aware, dt_util.as_utc.
  destruct (Py.tzinfo dt) as [off|] eqn:E.
  - intros [= <-]. rewrite E. eauto.
  - intros H%astimezone_tzinfo. rewrite H. eauto.
Qed.

Lemma aware_raises (hass : HomeAssistant) (dt : Py.datetime) (e : exn) :
  aware hass dt = Raise e -> Py.tzinfo dt = None /\ e = OverflowError.
Proof.
  unfold aware, dt_util.as_utc.
  destruct (Py.tzinfo dt) as [off|]; [discriminate|].
  intros H%astimezone_raises. done.
Qed.

Lemma ge_utc (a b : Py.datetime) :
  is_Some (Py.tzinfo a) -> is_Some (Py.tzinfo b) ->
  Py.ge a b = Ok (Py.utc b <=? Py.utc a).
Proof. unfold Py.ge, Py.utc. by intros [oa ->] [ob ->]. Qed.

Lemma ge_aware (a b : Py.datetime) (oa ob : Z) :
  Py.tzinfo a = Some oa -> Py.tzinfo b = Some ob ->
  Py.ge a b = Ok (Py.instant ob b <=? Py.instant oa a).
Proof. unfold Py.ge. intros -> ->. reflexivity. Qed.

Lemma ge_now_midnight (hass : HomeAssistant) (last : Py.datetime) :
  is_Some (Py.tzinfo last) ->
  exists b, Py.ge (Py.replace_midnight (dt_util.now hass))
                  (Py.replace_midnight last) = Ok b.
Proof.
  intros [off Hoff]. eexists.
  apply (ge_aware _ _ (DEFAULT_TIME_ZONE hass) off); [reflexivity|exact Hoff].
Qed.


Lemma reading_absent_none (hass : HomeAssistant) (task : Task.t num) :
  reading_absent hass task -> _get_current_odometer hass task = None.
Proof.
  unfold reading_absent, _get_current_odometer.
  destruct (Task.odometer_entity task) as [e|]; [|done].
  intros [->|H]; [done|].
  destruct e; [done|]. cbn [truthy negb].
  destruct (states hass !! _) as [s|]; [|done].
  destruct H as [->|[->|H]]; [done|done|].
  by destruct (usable_state s).
Qed.

Lemma next_due_date_tzinfo
    (last due : Py.datetime) (v : Z) (ty : string) :
  _calculate_next_due_date last v ty = Ok (Some due) ->
  Py.tzinfo due = Py.tzinfo last.
Proof.
  unfold _calculate_next_due_date, Py.timedelta_weeks, Py.timedelta_days,
    Py.add_days, Relativedelta.add, Py.replace_date, rbind.
  intros H. repeat case_match; simplify_eq/=; done.
Qed.

Lemma not_in_known (ty : string) :
  ty ∉ ["days"; "weeks"; "months"; "kilometers"; "miles"] ->
  is_distance ty = false /\ (ty =? "days")%string = false /\
  (ty =? "weeks")%string = false /\ (ty =? "months")%string = false.
Proof.
  intros H. rewrite !not_elem_of_cons in H.
  destruct H as (Hd & Hw & Hm & Hk & Hmi & _).
  unfold is_distance. rewrite !eqb_string_false by done. done.
Qed.

(** C1, as amended.  A task whose [interval_type] is none of days, weeks,
    months, kilometers, miles, and whose [last_performed] parses to a
    datetime: the due date is that datetime, a naive one first converted from
    the default time zone to UTC.  A value with an offset always converts (to
    itself); when the conversion returns, so does the computation: [next_due]
    is the ISO text of the due date cut to midnight, the "last_performed"
    attribute is the stored text, and the task is due exactly when today's
    local midnight is at or after that midnight.  When the conversion of a
    naive value leaves the calendar, the computation raises
    [OverflowError]. *)
Theorem unrecognized_interval_type_due
    (hass : HomeAssistant) (task : Task.t num) (v : Z) (ty lp : string)
    (parsed : Py.datetime) :
  Task.interval_value task = Some v ->
  Task.interval_type task = Some ty ->
  ty ∉ ["days"; "weeks"; "months"; "kilometers"; "miles"] ->
  Task.last_performed task = Some lp ->
  parse_datetime lp = Ok (Some parsed) ->
  (is_Some (Py.tzinfo parsed) -> aware hass parsed = Ok parsed) /\
  (Py.tzinfo parsed = None ->
   aware hass parsed = Py.astimezone (DEFAULT_TIME_ZONE hass) parsed 0) /\
  (forall last,
     aware hass parsed = Ok last ->
     _calculate_next_due_date last v ty = Ok (Some last) /\
     exists st,
       _update_state hass task = Ok st /\
       _attr_is_on st
       = (Py.utc (Py.replace_midnight last)
          <=? Py.utc (Py.replace_midnight (dt_util.now hass))) /\
       _attr_extra_state_attributes st !! "next_due"
       = Some (AStr (Iso.isoformat (Py.replace_midnight last))) /\
       _attr_extra_state_attributes st !! "last_performed"
       = Some (AStr lp)) /\
  (forall e,
     aware hass parsed = Raise e ->
     Py.tzinfo parsed = None /\ e = OverflowError /\
     _update_state hass task = Raise OverflowError).
Proof.
  intros Hv Hty Hun Hlp Hparse.
  destruct (not_in_known ty Hun) as (Hkm & Hd & Hw & Hm).
  assert (Hrun : _update_state hass task
                 = let* last := aware hass parsed in
                   let due_date := Py.replace_midnight last in
                   let* on :=
                     Py.ge (Py.replace_midnight (dt_util.now hass))
                           due_date in
                   Ok (mk_state on
                         (<["last_performed" := AStr lp]>
                            (<["next_due" := AStr (Iso.isoformat due_date)]>
                               (match Task.tag_id task with
                                | Some tag =>
                                    if truthy (Some tag)
                                    then <["tag_id" := AStr tag]>
                                           (<["interval_type" := AStr ty]>
                                              (<["interval_value" := AInt v]>
                                                 ∅))
                                    else <["interval_type" := AStr ty]>
                                           (<["interval_value" := AInt v]> ∅)
                                | None =>
                                    <["interval_type" := AStr ty]>
                                      (<["interval_value" := AInt v]> ∅)
                                end))))).
  { unfold _update_state. rewrite Hv, Hty. cbn [item rbind].
    rewrite Hkm, Hlp. cbn [item rbind]. rewrite Hparse. cbn [rbind].
    destruct (aware hass parsed) as [last|]; cbn [rbind]; [|reflexivity].
    unfold _calculate_next_due_date. rewrite Hkm, Hd, Hw, Hm. reflexivity. }
  split_and!.
  - intros [off Hoff]. unfold aware. by rewrite Hoff.
  - intros Hnaive. unfold aware, dt_util.as_utc. by rewrite Hnaive.
  - intros last Haware. split.
    { unfold _calculate_next_due_date. by rewrite Hkm, Hd, Hw, Hm. }
    rewrite Hrun, Haware. cbn [rbind]. cbv zeta.
    rewrite ge_utc;
      [|by eexists|destruct (aware_tzinfo _ _ _ Haware) as [off Hoff];
                   by exists off].
    cbn [rbind]. eexists. split; [reflexivity|].
    cbn [_attr_is_on _attr_extra_state_attributes].
    split; [reflexivity|]. split; by simplify_map_eq.
  - intros e Haware. destruct (aware_raises _ _ _ Haware) as [Hnaive ->].
    split_and!; [done|done|]. by rewrite Hrun, Haware.
Qed.

Lemma unparsable_date_fails_open_aux
    (hass : HomeAssistant) (task : Task.t num) (v : Z) (ty lp : string) :
  Task.interval_value task = Some v ->
  Task.interval_type task = Some ty ->
  is_distance ty = false ->
  Task.last_performed task = Some lp ->
  parse_datetime lp = Ok None ->
  exists st,
    _update_state hass task = Ok st /\
    _attr_is_on st = true /\
    _attr_extra_state_attributes st !! "next_due" = Some (AStr "unknown") /\
    _attr_extra_state_attributes st !! "last_performed" = Some (AStr lp).
Proof.
  intros Hv Hty Hkm Hlp Hparse.
  unfold _update_state. rewrite Hv, Hty. cbn [item rbind]. rewrite Hkm, Hlp.
  cbn [item rbind]. rewrite Hparse. cbn [rbind].
  eexists. split; [reflexivity|]. split; [reflexivity|].
  cbn [_attr_extra_state_attributes]. split; by simplify_map_eq.
Qed.

(** C7, as amended.  A calendar task whose [last_performed] text
    [parse_datetime] reports as no date (it returns [None]) is reported due,
    with [next_due] set to "unknown".  Where [parse_datetime] raises instead
    (a text of date form that names no valid date), nothing catches the
    exception: the computation raises it. *)
Theorem unparsable_date_fails_open
    (hass : HomeAssistant) (task : Task.t num) (v : Z) (ty lp : string) :
  Task.interval_value task = Some v ->
  Task.interval_type task = Some ty ->
  is_distance ty = false ->
  Task.last_performed task = Some lp ->
  (parse_datetime lp = Ok None ->
   exists st,
     _update_state hass task = Ok st /\
     _attr_is_on st = true /\
     _attr_extra_state_attributes st !! "next_due" = Some (AStr "unknown") /\
     _attr_extra_state_attributes st !! "last_performed" = Some (AStr lp)) /\
  (forall e,
     parse_datetime lp = Raise e -> _update_state hass task = Raise e).
Proof.
  intros Hv Hty Hkm Hlp. split.
  - by apply (unparsable_date_fails_open_aux hass task v ty lp).
  - intros e Hparse. unfold _update_state.
    rewrite Hv, Hty. cbn [item rbind]. rewrite Hkm, Hlp. cbn [item rbind].
    by rewrite Hparse.
Qed.

Lemma update_state_distance
    (hass : HomeAssistant) (task : Task.t num) (v : Z) (ty : string) :
  Task.interval_value task = Some v ->
  Task.interval_type task = Some ty ->
  is_distance ty = true ->
  match Task.last_odometer task with
  | None =>
      exists st,
        _update_state hass task = Ok st /\ _attr_is_on st = false /\
        _attr_extra_state_attributes st !! "next_due"
        = Some (AStr "unknown (odometer not available)") /\
        _attr_extra_state_attributes st !! "next_due_odometer" = None
  | Some l =>
      match num_add l v with
      | Raise e => _update_state hass task = Raise e
      | Ok n =>
          match _get_current_odometer hass task with
          | None =>
              exists st,
                _update_state hass task = Ok st /\ _attr_is_on st = false /\
                _attr_extra_state_attributes st !! "next_due"
                = Some (AStr "unknown (odometer not available)") /\
                _attr_extra_state_attributes st !! "next_due_odometer"
                = Some (ANum n)
          | Some c =>
              match format_0f n with
              | Raise e => _update_state hass task = Raise e
              | Ok text =>
                  exists st,
                    _update_state hass task = Ok st /\
                    _attr_is_on st = num_ge c n /\
                    _attr_extra_state_attributes st !! "next_due"
                    = Some (AStr (text +:+ " " +:+ ty)) /\
                    _attr_extra_state_attributes st !! "next_due_odometer"
                    = Some (ANum n)
              end
          end
      end
  end.
Proof.
  intros Hv Hty Hkm.
  unfold _update_state. rewrite Hv, Hty. cbn [item rbind]. rewrite Hkm.
  unfold _calculate_next_due_odometer. rewrite Hkm. cbn [negb].
  destruct (Task.tag_id task) as [[|? ?]|]; cbn [truthy];
    (destruct (Task.last_odometer task) as [l|]; cbn [rbind];
     [destruct (num_add l v) as [n|e]; cbn [rbind]; [|reflexivity];
      destruct (_get_current_odometer hass task) as [c|];
      [destruct (format_0f n) as [text|e]; cbn [rbind]; [|reflexivity]|]
     |destruct (_get_current_odometer hass task) as [c|]]);
    (eexists; split; [reflexivity|]);
    cbn [_attr_is_on _attr_extra_state_attributes];
    (split_and!; [done|by simplify_map_eq..]).
Qed.

(** C4, as amended.  On a distance task on which the number operations
    return ([L + V] when the last reading [L] is present, the formatting of
    the sum when the current reading is present too): the next-due odometer
    is [L + V] when [L] is present; the task is due exactly when both
    readings are present and the current one has reached [L + V]; with either
    reading absent it is not due and [next_due] is the "unknown" text.  Where
    a number operation raises, so does the computation. *)
Theorem distance_due
    (hass : HomeAssistant) (task : Task.t num) (v : Z) (ty : string) :
  Task.interval_value task = Some v ->
  Task.interval_type task = Some ty ->
  is_distance ty = true ->
  (numbers_computable hass task v ->
   exists st,
     _update_state hass task = Ok st /\
     (forall l, Task.last_odometer task = Some l ->
        exists n,
          num_add l v = Ok n /\
          _calculate_next_due_odometer (Some l) v ty = Ok (Some n) /\
          _attr_extra_state_attributes st !! "next_due_odometer"
          = Some (ANum n)) /\
     (_attr_is_on st = true <->
        exists l c n, Task.last_odometer task = Some l /\
                      _get_current_odometer hass task = Some c /\
                      num_add l v = Ok n /\ num_ge c n = true) /\
     (Task.last_odometer task = None \/
      _get_current_odometer hass task = None ->
        _attr_is_on st = false /\
        _attr_extra_state_attributes st !! "next_due"
        = Some (AStr "unknown (odometer not available)"))) /\
  (forall l e,
     Task.last_odometer task = Some l -> num_add l v = Raise e ->
     _update_state hass task = Raise e) /\
  (forall l n c e,
     Task.last_odometer task = Some l -> num_add l v = Ok n ->
     _get_current_odometer hass task = Some c -> format_0f n = Raise e ->
     _update_state hass task = Raise e).
Proof.
  intros Hv Hty Hkm.
  pose proof (update_state_distance hass task v ty Hv Hty Hkm) as Hrun.
  split_and!.
  - intros Hnum. unfold numbers_computable in Hnum.
    destruct (Task.last_odometer task) as [l|] eqn:Hl.
    + destruct (Hnum l eq_refl) as (n & Hn & Hfmt).
      assert (Hcalc : _calculate_next_due_odometer (Some l) v ty
                      = Ok (Some n)).
      { unfold _calculate_next_due_odometer. rewrite Hkm. cbn [negb].
        by rewrite Hn. }
      rewrite Hn in Hrun.
      destruct (_get_current_odometer hass task) as [c|] eqn:Hc.
      * destruct Hfmt as [text Htext]; [by eexists|]. rewrite Htext in Hrun.
        destruct Hrun as (st & Hst & Hon & Hnext & Hodo).
        exists st. split_and!; [done| |split|].
        -- intros l' [= <-]. by exists n.
        -- rewrite Hon. intros H. by exists l, c, n.
        -- intros (l' & c' & n' & [= <-] & [= <-] & Hn' & Hge).
           rewrite Hon. congruence.
        -- intros [?|?]; discriminate.
      * destruct Hrun as (st & Hst & Hon & Hnext & Hodo).
        exists st. split_and!; [done| |split|].
        -- intros l' [= <-]. by exists n.
        -- rewrite Hon. discriminate.
        -- intros (? & ? & ? & _ & ? & _). discriminate.
        -- done.
    + destruct Hrun as (st & Hst & Hon & Hnext & Hodo).
      exists st. split_and!; [done| |split|].
      * discriminate.
      * rewrite Hon. discriminate.
      * intros (? & ? & ? & ? & _). discriminate.
      * done.
  - intros l e Hl Hn. by rewrite Hl, Hn in Hrun.
  - intros l n c e Hl Hn Hc Hfmt. by rewrite Hl, Hn, Hc, Hfmt in Hrun.
Qed.


Lemma days_in_month_lower (y m : Z) : 28 <= Py.days_in_month y m.
Proof.
  unfold Py.days_in_month.
  repeat case_match; lia.
Qed.

Lemma relativedelta_add_months (last : Py.datetime) (n : Z) :
  1 <= Py.month last <= 12 ->
  1 <= Py.day last ->
  let total := Py.year last * 12 + (Py.month last - 1) + n in
  let y := total / 12 in
  let m := total mod 12 + 1 in
  Py.MINYEAR <= y <= Py.MAXYEAR ->
  Relativedelta.add last (Relativedelta.relativedelta n)
  = Ok (Py.mk_datetime y m (Z.min (Py.days_in_month y m) (Py.day last))
          (Py.hour last) (Py.minute last) (Py.second last)
          (Py.microsecond last) (Py.tzinfo last)).
Proof.
  intros Hm Hd total y m Hy.
  assert (Hcarry :
    (let '(years, months) := Relativedelta.relativedelta n in
     let y0 := Py.year last + years in
     let m0 := Py.month last in
     if months =? 0 then (y0, m0)
     else let m1 := m0 + months in
          if 12 <? m1 then (y0 + 1, m1 - 12)
          else if m1 <? 1 then (y0 - 1, m1 + 12) else (y0, m1)) = (y, m)).
  { subst y m total. unfold Relativedelta.relativedelta.
    destruct (Z.ltb_spec 11 (Z.abs n)) as [Hbig|Hsmall].
    - destruct (Z.lt_trichotomy n 0) as [Hneg|[->|Hpos]]; [| simpl in Hbig; lia |].
      + rewrite (Z.sgn_neg n Hneg).
        repeat match goal with
               | |- context [?a =? ?b] => destruct (Z.eqb_spec a b)
               | |- context [?a <? ?b] => destruct (Z.ltb_spec a b)
               end; f_equal; Z.div_mod_to_equations; lia.
      + rewrite (Z.sgn_pos n Hpos).
        repeat match goal with
               | |- context [?a =? ?b] => destruct (Z.eqb_spec a b)
               | |- context [?a <? ?b] => destruct (Z.ltb_spec a b)
               end; f_equal; Z.div_mod_to_equations; lia.
    - repeat match goal with
             | |- context [?a =? ?b] => destruct (Z.eqb_spec a b)
             | |- context [?a <? ?b] => destruct (Z.ltb_spec a b)
             end; f_equal; Z.div_mod_to_equations; lia. }
  unfold Relativedelta.add.
  destruct (Relativedelta.relativedelta n) as [years months].
  cbv zeta in Hcarry. rewrite Hcarry.
  unfold Py.replace_date.
  pose proof (days_in_month_lower y m).
  assert (Hm' : 1 <= m <= 12) by (subst m; Z.div_mod_to_equations; lia).
  replace ((Py.MINYEAR <=? y) && (y <=? Py.MAXYEAR) && (1 <=? m) && (m <=? 12)
           && (1 <=? Z.min (Py.days_in_month y m) (Py.day last))
           && (Z.min (Py.days_in_month y m) (Py.day last)
               <=? Py.days_in_month y m)) with true; [reflexivity|].
  symmetry. rewrite !andb_true_iff, !Z.leb_le. lia.
Qed.


(** C8.  With [interval_type = "months"], 2024-01-31 plus one month is
    2024-02-29, not a day of March; in general adding [n] months lands in
    the month [n] months later, on the same day of the month or, when that
    month is shorter, on its last day. *)
Theorem month_addition_clamps :
  (forall last : Py.datetime,
     Py.year last = 2024 -> Py.month last = 1 -> Py.day last = 31 ->
     exists due,
       _calculate_next_due_date last 1 "months" = Ok (Some due) /\
       Py.year due = 2024 /\ Py.month due = 2 /\ Py.day due = 29 /\
       Py.day due = Py.days_in_month 2024 2) /\
  (forall (last : Py.datetime) (n : Z),
     1 <= Py.month last <= 12 ->
     1 <= Py.day last ->
     let total := Py.year last * 12 + (Py.month last - 1) + n in
     let y := total / 12 in
     let m := total mod 12 + 1 in
     Py.MINYEAR <= y <= Py.MAXYEAR ->
     exists due,
       _calculate_next_due_date last n "months" = Ok (Some due) /\
       Py.year due = y /\ Py.month due = m /\
       Py.day due = Z.min (Py.days_in_month y m) (Py.day last) /\
       Py.day due <= Py.days_in_month y m).
Proof.
  assert (Hgen : forall (last : Py.datetime) (n : Z),
     1 <= Py.month last <= 12 ->
     1 <= Py.day last ->
     let total := Py.year last * 12 + (Py.month last - 1) + n in
     let y := total / 12 in
     let m := total mod 12 + 1 in
     Py.MINYEAR <= y <= Py.MAXYEAR ->
     exists due,
       _calculate_next_due_date last n "months" = Ok (Some due) /\
       Py.year due = y /\ Py.month due = m /\
       Py.day due = Z.min (Py.days_in_month y m) (Py.day last) /\
       Py.day due <= Py.days_in_month y m).
  { intros last n Hm Hd total y m Hy.
    unfold _calculate_next_due_date. cbn [is_distance String.eqb Ascii.eqb
      Bool.eqb orb].
    rewrite (relativedelta_add_months last n Hm Hd Hy). cbn [rbind].
    eexists. split; [reflexivity|]. cbn [Py.year Py.month Py.day].
    repeat split; apply Z.le_min_l. }
  split; [|exact Hgen].
  intros last Hy Hm Hd.
  destruct (Hgen last 1) as (due & Hdue & H1 & H2 & H3 & _).
  - lia.
  - lia.
  - rewrite Hy, Hm. vm_compute. split; discriminate.
  - exists due. rewrite Hy, Hm, Hd in *.
    split; [exact Hdue|]. vm_compute in H1, H2, H3. vm_compute. done.
Qed.

Lemma update_state_calendar
    (hass : HomeAssistant) (task : Task.t num) (v : Z) (ty lp : string) :
  Task.interval_value task = Some v ->
  Task.interval_type task = Some ty ->
  is_distance ty = false ->
  Task.last_performed task = Some lp ->
  (exists st, _update_state hass task = Ok st)
  <-> dates_computable hass v ty lp.
Proof.
  intros Hv Hty Hkm Hlp. unfold dates_computable.
  unfold _update_state. rewrite Hv, Hty. cbn [item rbind]. rewrite Hkm, Hlp.
  cbn [item rbind].
  destruct (parse_datetime lp) as [[parsed|]|e]; cbn [rbind].
  - destruct (aware hass parsed) as [last|e] eqn:Hlast; cbn [rbind].
    + destruct (_calculate_next_due_date last v ty) as [d|e] eqn:Hd;
        cbn [rbind].
      * split.
        -- intros _. eexists. split; [reflexivity|].
           intros ? [= <-]. by exists last, d.
        -- intros _. destruct d as [due|]; [|by eexists].
           destruct (ge_now_midnight hass due) as [b Hb].
           { rewrite (next_due_date_tzinfo _ _ _ _ Hd).
             exact (aware_tzinfo _ _ _ Hlast). }
           rewrite Hb. cbn [rbind]. by eexists.
      * split; [by intros [? ?]|].
        intros (p & [= <-] & Hrest).
        destruct (Hrest parsed eq_refl) as (last' & d & Hlast' & Hd').
        congruence.
    + split; [by intros [? ?]|].
      intros (p & [= <-] & Hrest).
      destruct (Hrest parsed eq_refl) as (last' & d & Hlast' & _).
      congruence.
  - split; [|by eexists]. intros _. exists None. split; [done|]. done.
  - split; [by intros [? ?]|]. by intros (p & ? & _).
Qed.

(** C9, as amended.  A record without "interval_value", "interval_type"
    or, on a calendar task, "last_performed" raises [KeyError] for that key.
    With the keys present the computation returns exactly when the number
    operations (distance task) or the date operations (calendar task) it
    calls return, and raises otherwise.  Whenever it returns, a missing last
    reading, a missing or unknown odometer entity, an unavailable or
    non-numeric reading give the odometer "unknown" text with the task not
    due, and a date reported unparsable gives "unknown". *)
Theorem update_state_degrades
    (hass : HomeAssistant) (task : Task.t num) :
  (Task.interval_value task = None ->
   _update_state hass task = Raise (KeyError "interval_value")) /\
  (is_Some (Task.interval_value task) -> Task.interval_type task = None ->
   _update_state hass task = Raise (KeyError "interval_type")) /\
  (forall ty,
     is_Some (Task.interval_value task) ->
     Task.interval_type task = Some ty -> is_distance ty = false ->
     Task.last_performed task = None ->
     _update_state hass task = Raise (KeyError "last_performed")) /\
  (forall v ty,
     Task.interval_value task = Some v ->
     Task.interval_type task = Some ty ->
     ((exists st, _update_state hass task = Ok st)
      <-> (is_distance ty = true -> numbers_computable hass task v) /\
          (is_distance ty = false ->
           exists lp, Task.last_performed task = Some lp /\
                      dates_computable hass v ty lp)) /\
     ((forall st, _update_state hass task <> Ok st)
      <-> exists e, _update_state hass task = Raise e) /\
     (forall st,
        _update_state hass task = Ok st ->
        (is_distance ty = true ->
         Task.last_odometer task = None \/ reading_absent hass task ->
         _attr_is_on st = false /\
         _attr_extra_state_attributes st !! "next_due"
         = Some (AStr "unknown (odometer not available)")) /\
        (is_distance ty = false ->
         forall lp, Task.last_performed task = Some lp ->
                    parse_datetime lp = Ok None ->
         _attr_extra_state_attributes st !! "next_due"
         = Some (AStr "unknown")))).
Proof.
  split_and!.
  - intros Hv. unfold _update_state. by rewrite Hv.
  - intros [v Hv] Hty. unfold _update_state. by rewrite Hv, Hty.
  - intros ty [v Hv] Hty Hkm Hlp. unfold _update_state.
    rewrite Hv, Hty. cbn [item rbind]. by rewrite Hkm, Hlp.
  - intros v ty Hv Hty. split_and!.
    + destruct (is_distance ty) eqn:Hkm.
      * pose proof (update_state_distance hass task v ty Hv Hty Hkm) as Hrun.
        unfold numbers_computable. split.
        -- intros [st Hst]. split; [|discriminate]. intros _ l Hl.
           rewrite Hl in Hrun.
           destruct (num_add l v) as [n|e]; [|congruence].
           exists n. split; [done|]. intros [c Hc]. rewrite Hc in Hrun.
           destruct (format_0f n) as [text|e]; [by eexists|congruence].
        -- intros [Hnum _]. specialize (Hnum eq_refl).
           destruct (Task.last_odometer task) as [l|].
           ++ destruct (Hnum l eq_refl) as (n & Hn & Hfmt).
              rewrite Hn in Hrun.
              destruct (_get_current_odometer hass task) as [c|].
              ** destruct Hfmt as [text Htext]; [by eexists|].
                 rewrite Htext in Hrun.
                 destruct Hrun as (st & Hst & _). by exists st.
              ** destruct Hrun as (st & Hst & _). by exists st.
           ++ destruct Hrun as (st & Hst & _). by exists st.
      * destruct (Task.last_performed task) as [lp|] eqn:Hlp.
        -- rewrite (update_state_calendar hass task v ty lp Hv Hty Hkm Hlp).
           split.
           ++ intros Hd. split; [discriminate|]. intros _. by exists lp.
           ++ intros [_ Hcal].
              by destruct (Hcal eq_refl) as (lp' & [= <-] & Hd).
        -- split.
           ++ intros [st Hst]. revert Hst. unfold _update_state.
              rewrite Hv, Hty. cbn [item rbind]. by rewrite Hkm, Hlp.
           ++ intros [_ Hcal]. by destruct (Hcal eq_refl) as (lp' & ? & _).
    + destruct (_update_state hass task) as [st|e].
      * split; [intros H; by destruct (H st)|by intros [? ?]].
      * split; [by eexists|done].
    + intros st Hst. split.
      * intros Hkm Habs.
        pose proof (update_state_distance hass task v ty Hv Hty Hkm) as Hrun.
        assert (Hnone : Task.last_odometer task = None \/
                        _get_current_odometer hass task = None).
        { destruct Habs as [?|?%reading_absent_none]; tauto. }
        destruct (Task.last_odometer task) as [l|].
        -- destruct (num_add l v) as [n|e]; [|congruence].
           destruct Hnone as [?|Hc]; [discriminate|]. rewrite Hc in Hrun.
           destruct Hrun as (st' & Hst' & Hon & Hnext & _).
           rewrite Hst in Hst'. injection Hst' as <-. done.
        -- destruct Hrun as (st' & Hst' & Hon & Hnext & _).
           rewrite Hst in Hst'. injection Hst' as <-. done.
      * intros Hkm lp Hlp Hnone.
        destruct (unparsable_date_fails_open_aux hass task v ty lp
                    Hv Hty Hkm Hlp Hnone) as (st' & Hst' & _ & Hnext & _).
        rewrite Hst in Hst'. injection Hst' as <-. done.
Qed.

End SensorFacts.
End SensorFacts.

(** * Properties of the double-press confirmation *)

Module ButtonFacts.
Section ButtonFacts.
Context {num : Type} {R : Runtime num}.
Import Button Tally.

Implicit Types (w : @world num) (tid : string) (hass : HomeAssistant).

(** ** The clean-up loops *)

Lemma elem_of_expired (now : Py.datetime) (limit : Z)
    (d : gmap string Py.datetime) tid :
  tid ∈ expired now limit d
  <-> exists ts, d !! tid = Some ts /\ limit < Py.sub now ts.
Proof.
  unfold expired. rewrite list_elem_of_fmap. split.
  - intros ([k ts] & -> & [Hlim Hin%elem_of_map_to_list]%list_elem_of_filter).
    by exists ts.
  - intros (ts & Hts & Hlim). exists (tid, ts). split; [done|].
    apply list_elem_of_filter. split; [done|]. by apply elem_of_map_to_list.
Qed.

Lemma NoDup_expired (now : Py.datetime) (limit : Z)
    (d : gmap string Py.datetime) :
  NoDup (expired now limit d).
Proof.
  unfold expired. eapply sublist_NoDup; [apply (NoDup_fst_map_to_list d)|].
  apply fmap_sublist, sublist_filter.
Qed.

Lemma expire_pending_pending hass w tid :
  _pending_confirmations (expire_pending hass w tid)
  = delete tid (_pending_confirmations w).
Proof.
  unfold expire_pending, write_if_registered, cancel_and_forget.
  cbn. repeat case_match; reflexivity.
Qed.

Lemma expire_pending_timers hass w tid :
  _reset_timers (expire_pending hass w tid) = delete tid (_reset_timers w).
Proof.
  unfold expire_pending, write_if_registered, cancel_and_forget.
  cbn. destruct (_reset_timers w !! tid) eqn:E;
    case_decide; cbn; try reflexivity; by rewrite delete_id.
Qed.

Lemma expire_pending_loop hass w tid :
  loop (expire_pending hass w tid)
  = match _reset_timers w !! tid with
    | Some h => delete h (loop w)
    | None => loop w
    end.
Proof.
  unfold expire_pending, write_if_registered, cancel_and_forget.
  cbn. repeat case_match; reflexivity.
Qed.

Lemma expire_pending_written hass w tid :
  written (expire_pending hass w tid)
  = if decide (tid ∈ button_entities hass)
    then written w ⊎ {[+ tid +]} else written w.
Proof.
  unfold expire_pending, write_if_registered, cancel_and_forget.
  cbn. repeat case_match; reflexivity.
Qed.

Lemma expire_pending_rest hass w tid :
  _confirmed_tasks (expire_pending hass w tid) = _confirmed_tasks w /\
  next_handle (expire_pending hass w tid) = next_handle w /\
  store_calls (expire_pending hass w tid) = store_calls w.
Proof.
  unfold expire_pending, write_if_registered, cancel_and_forget.
  cbn. repeat case_match; done.
Qed.

(** What a run of [expire_pending] over a list of ids leaves behind. *)
Lemma sweep_pending hass (l : list string) w tid :
  _pending_confirmations (foldl (expire_pending hass) w l) !! tid
  = if decide (tid ∈ l) then None else _pending_confirmations w !! tid.
Proof.
  revert w. induction l as [|x l IH]; intros w; [done|].
  cbn [foldl]. rewrite IH, expire_pending_pending.
  destruct (decide (tid = x)) as [->|Hne].
  - rewrite lookup_delete_eq, (decide_True (P := x ∈ x :: l)) by set_solver.
    by case_decide.
  - rewrite lookup_delete_ne by done.
    repeat case_decide; set_solver.
Qed.

Lemma sweep_timers hass (l : list string) w tid :
  _reset_timers (foldl (expire_pending hass) w l) !! tid
  = if decide (tid ∈ l) then None else _reset_timers w !! tid.
Proof.
  revert w. induction l as [|x l IH]; intros w; [done|].
  cbn [foldl]. rewrite IH, expire_pending_timers.
  destruct (decide (tid = x)) as [->|Hne].
  - rewrite lookup_delete_eq, (decide_True (P := x ∈ x :: l)) by set_solver.
    by case_decide.
  - rewrite lookup_delete_ne by done.
    repeat case_decide; set_solver.
Qed.

Lemma sweep_rest hass (l : list string) w :
  _confirmed_tasks (foldl (expire_pending hass) w l) = _confirmed_tasks w /\
  next_handle (foldl (expire_pending hass) w l) = next_handle w /\
  store_calls (foldl (expire_pending hass) w l) = store_calls w.
Proof.
  revert w. induction l as [|x l IH]; intros w; [done|].
  cbn [foldl]. destruct (IH (expire_pending hass w x)) as (-> & -> & ->).
  apply expire_pending_rest.
Qed.

Lemma sweep_loop_gone hass (l : list string) w (h : nat) :
  loop w !! h = None -> loop (foldl (expire_pending hass) w l) !! h = None.
Proof.
  revert w. induction l as [|x l IH]; intros w Hw; [done|].
  cbn [foldl]. apply IH. rewrite expire_pending_loop.
  destruct (_reset_timers w !! x) as [h'|]; [|done].
  destruct (decide (h' = h)) as [->|]; by simplify_map_eq.
Qed.

Lemma sweep_loop_cancelled hass (l : list string) w tid (h : nat) :
  tid ∈ l -> _reset_timers w !! tid = Some h ->
  loop (foldl (expire_pending hass) w l) !! h = None.
Proof.
  revert w. induction l as [|x l IH]; intros w Hin Hh; [set_solver|].
  cbn [foldl]. destruct (decide (tid = x)) as [->|Hne].
  - apply sweep_loop_gone. rewrite expire_pending_loop, Hh.
    apply lookup_delete_eq.
  - apply IH; [set_solver|].
    by rewrite expire_pending_timers, lookup_delete_ne.
Qed.

Lemma sweep_written hass (l : list string) w tid :
  NoDup l ->
  multiplicity tid (written (foldl (expire_pending hass) w l))
  = (multiplicity tid (written w)
     + if decide (tid ∈ l /\ tid ∈ button_entities hass) then 1 else 0)%nat.
Proof.
  revert w. induction l as [|x l IH]; intros w Hnd.
  - cbn. rewrite decide_False by set_solver. lia.
  - apply NoDup_cons in Hnd as [Hx Hnd]. cbn [foldl].
    rewrite IH, expire_pending_written by done.
    destruct (decide (tid = x)) as [->|Hne].
    + rewrite (decide_False (P := x ∈ l /\ _)) by tauto.
      destruct (decide (x ∈ button_entities hass)).
      * rewrite multiplicity_disj_union, multiplicity_singleton_eq.
        rewrite decide_True by set_solver. lia.
      * rewrite decide_False by tauto. lia.
    + assert (multiplicity tid
                (if decide (x ∈ button_entities hass)
                 then written w ⊎ {[+ x +]} else written w)
              = multiplicity tid (written w)) as ->.
      { destruct (decide (x ∈ button_entities hass)); [|reflexivity].
        rewrite multiplicity_disj_union, multiplicity_singleton_ne by done.
        lia. }
      f_equal. repeat case_decide; set_solver.
Qed.

Lemma sweep_confirmed (l : list string) w tid :
  _confirmed_tasks (foldl expire_confirmed w l) !! tid
  = if decide (tid ∈ l) then None else _confirmed_tasks w !! tid.
Proof.
  revert w. induction l as [|x l IH]; intros w; [done|].
  cbn [foldl]. rewrite IH. cbn.
  destruct (decide (tid = x)) as [->|Hne].
  - rewrite lookup_delete_eq, (decide_True (P := x ∈ x :: l)) by set_solver.
    by case_decide.
  - rewrite lookup_delete_ne by done.
    repeat case_decide; set_solver.
Qed.

Lemma sweep_confirmed_rest (l : list string) w :
  let w' := foldl expire_confirmed w l in
  _pending_confirmations w' = _pending_confirmations w /\
  _reset_timers w' = _reset_timers w /\ loop w' = loop w /\
  next_handle w' = next_handle w /\ store_calls w' = store_calls w /\
  written w' = written w.
Proof.
  revert w. induction l as [|x l IH]; intros w; [done|].
  cbn [foldl]. cbv zeta in *.
  destruct (IH (expire_confirmed w x)) as (-> & -> & -> & -> & -> & ->).
  done.
Qed.


(** ** Consistency of the timer tables *)

Lemma consistent_ext w w' :
  _pending_confirmations w' = _pending_confirmations w ->
  _reset_timers w' = _reset_timers w ->
  loop w' = loop w ->
  next_handle w' = next_handle w ->
  consistent w -> consistent w'.
Proof.
  intros Hp Ht Hl Hn [H1 H2 H3 H4].
  split; rewrite ?Hp, ?Ht, ?Hl, ?Hn; assumption.
Qed.

Lemma forget_fields tid w :
  _pending_confirmations (forget tid w) = delete tid (_pending_confirmations w)
  /\ _reset_timers (forget tid w) = delete tid (_reset_timers w)
  /\ loop (forget tid w)
     = match _reset_timers w !! tid with
       | Some h => delete h (loop w)
       | None => loop w
       end
  /\ _confirmed_tasks (forget tid w) = _confirmed_tasks w
  /\ next_handle (forget tid w) = next_handle w
  /\ store_calls (forget tid w) = store_calls w
  /\ written (forget tid w) = written w.
Proof.
  unfold forget, cancel_and_forget. cbn.
  destruct (_reset_timers w !! tid) eqn:E; cbn; repeat split; try done.
  by rewrite delete_id.
Qed.

Lemma consistent_forget tid w : consistent w -> consistent (forget tid w).
Proof.
  intros [H1 H2 H3 H4].
  destruct (forget_fields tid w) as (Hp & Ht & Hl & _ & Hn & _).
  split; rewrite ?Hp, ?Ht, ?Hl, ?Hn.
  - intros k. rewrite !lookup_delete. case_decide; [done|apply H1].
  - intros k h. rewrite lookup_delete. case_decide as Hk; [done|]. intros Hh.
    destruct (_reset_timers w !! tid) as [h0|] eqn:E; [|by apply H2].
    rewrite lookup_delete_ne; [by apply H2|].
    intros ->. apply H2 in E. apply H2 in Hh. congruence.
  - intros h d k Hh.
    assert (loop w !! h = Some (d, reset_icon_cb k)
            /\ _reset_timers w !! tid <> Some h) as [Hw Hne].
    { destruct (_reset_timers w !! tid) as [h0|]; [|done].
      rewrite lookup_delete in Hh. case_decide; [done|]. split; congruence. }
    apply H3 in Hw. rewrite lookup_delete. case_decide; congruence.
  - intros h Hh. apply H4.
    destruct (_reset_timers w !! tid) as [h0|]; [|done].
    rewrite lookup_delete in Hh. by case_decide.
Qed.

Lemma first_press_fields tid (now : Py.datetime) w :
  _reset_timers w !! tid = None ->
  let w' := first_press tid now w in
  _pending_confirmations w' = <[tid := now]> (_pending_confirmations w)
  /\ _reset_timers w' = <[tid := next_handle w]> (_reset_timers w)
  /\ loop w'
     = <[next_handle w := (CONFIRMATION_TIMEOUT, reset_icon_cb tid)]> (loop w)
  /\ _confirmed_tasks w' = _confirmed_tasks w
  /\ next_handle w' = S (next_handle w)
  /\ store_calls w' = store_calls w
  /\ written w' = written w ⊎ {[+ tid +]}.
Proof.
  intros Hnone. unfold first_press. cbn. rewrite Hnone. cbn. done.
Qed.

Lemma consistent_first_press tid (now : Py.datetime) w :
  consistent w -> _pending_confirmations w !! tid = None ->
  consistent (first_press tid now w).
Proof.
  intros [H1 H2 H3 H4] Hnone.
  assert (Ht : _reset_timers w !! tid = None).
  { destruct (_reset_timers w !! tid) eqn:E; [|done].
    assert (is_Some (_pending_confirmations w !! tid)) as [? ?]
      by (apply H1; eauto). congruence. }
  destruct (first_press_fields tid now w Ht) as (Hp & Ht' & Hl & _ & Hn & _).
  assert (Hfresh : loop w !! next_handle w = None).
  { destruct (loop w !! next_handle w) eqn:E; [|done].
    assert (next_handle w < next_handle w)%nat by (apply H4; eauto). lia. }
  split; rewrite ?Hp, ?Ht', ?Hl, ?Hn.
  - intros k. rewrite !lookup_insert. case_decide; [|apply H1].
    split; eauto.
  - intros k h. rewrite lookup_insert. case_decide as Hk.
    + intros [= <-]. subst k. apply lookup_insert_eq.
    + intros Hh. rewrite lookup_insert_ne; [by apply H2|].
      intros <-. apply H2 in Hh. congruence.
  - intros h d k. rewrite !lookup_insert. case_decide as Hh.
    + intros [= <- <-]. case_decide; congruence.
    + intros Hk. apply H3 in Hk. case_decide; congruence.
  - intros h. rewrite lookup_insert. case_decide; [lia|].
    intros Hh%H4. lia.
Qed.

Lemma restart_forget tid (now : Py.datetime) w :
  restart tid now w = first_press tid now (forget tid w).
Proof.
  unfold restart, first_press, forget, cancel_and_forget. cbn.
  destruct (_reset_timers w !! tid) eqn:E; cbn.
  - rewrite lookup_delete_eq. cbn. by rewrite insert_delete_eq.
  - rewrite E. cbn. by rewrite insert_delete_eq.
Qed.

Lemma consistent_restart tid (now : Py.datetime) w :
  consistent w -> consistent (restart tid now w).
Proof.
  intros Hw. rewrite restart_forget.
  apply consistent_first_press; [by apply consistent_forget|].
  destruct (forget_fields tid w) as (-> & _). apply lookup_delete_eq.
Qed.


Lemma confirm_fields hass (task : Task.t num) tid (now : Py.datetime) w :
  let w' := confirm hass task tid now w in
  _pending_confirmations w' = delete tid (_pending_confirmations w)
  /\ _reset_timers w' = delete tid (_reset_timers w)
  /\ loop w'
     = (if store hass
        then <[next_handle w := (CONFIRMED_DISPLAY_TIME, write_state_cb tid)]>
        else id) (loop (forget tid w))
  /\ _confirmed_tasks w' = <[tid := now]> (_confirmed_tasks w)
  /\ next_handle w' = (if store hass then S (next_handle w) else next_handle w)
  /\ store_calls w'
     = (if store hass
        then store_calls w ++ [(tid, performed_odometer hass task)]
        else store_calls w)
  /\ written w' = written w ⊎ {[+ tid +]}.
Proof.
  destruct (forget_fields tid w) as (Hp & Ht & Hl & Hc & Hn & Hs & Hw).
  unfold confirm. fold (forget tid w).
  destruct (store hass); cbn; rewrite ?Hp, ?Ht, ?Hc, ?Hn, ?Hs, ?Hw; done.
Qed.

Lemma consistent_confirm hass (task : Task.t num) tid (now : Py.datetime) w :
  consistent w -> consistent (confirm hass task tid now w).
Proof.
  intros Hw. pose proof (consistent_forget tid w Hw) as [H1 H2 H3 H4].
  destruct (forget_fields tid w) as (Hp & Ht & _ & _ & Hn & _).
  destruct (confirm_fields hass task tid now w) as (Hp' & Ht' & Hl' & _ & Hn' & _).
  rewrite <- Hp in Hp'. rewrite <- Ht in Ht'. rewrite <- Hn in Hn', Hl'.
  destruct (store hass).
  - assert (Hfresh : loop (forget tid w) !! next_handle (forget tid w) = None).
    { destruct (loop (forget tid w) !! next_handle (forget tid w)) eqn:E;
        [|done].
      assert (next_handle (forget tid w) < next_handle (forget tid w))%nat
        by (apply H4; eauto). lia. }
    split; rewrite ?Hp', ?Ht', ?Hl', ?Hn'.
    + apply H1.
    + intros k h Hh. rewrite lookup_insert_ne; [by apply H2|].
      intros <-. apply H2 in Hh. congruence.
    + intros h d k. rewrite lookup_insert. case_decide; [done|]. apply H3.
    + intros h. rewrite lookup_insert. case_decide; [lia|].
      intros Hh%H4. lia.
  - split; rewrite ?Hp', ?Ht', ?Hl', ?Hn'; assumption.
Qed.

Lemma expire_pending_forget hass w tid :
  expire_pending hass w tid = write_if_registered hass tid (forget tid w).
Proof. reflexivity. Qed.

Lemma consistent_write_if_registered hass tid w :
  consistent w -> consistent (write_if_registered hass tid w).
Proof.
  unfold write_if_registered. case_decide; [|done].
  by apply consistent_ext.
Qed.

Lemma consistent_expire_pending hass w tid :
  consistent w -> consistent (expire_pending hass w tid).
Proof.
  intros Hw. rewrite expire_pending_forget.
  by apply consistent_write_if_registered, consistent_forget.
Qed.

Lemma consistent_clean_up hass (now : Py.datetime) w :
  consistent w -> consistent (clean_up hass now w).
Proof.
  intros Hw. unfold clean_up.
  set (l := expired now CONFIRMATION_TIMEOUT _). clearbody l.
  assert (Hs : consistent (foldl (expire_pending hass) w l)).
  { revert w Hw. induction l as [|x l IH]; intros w Hw; [done|].
    cbn [foldl]. by apply IH, consistent_expire_pending. }
  set (l2 := expired now CONFIRMED_DISPLAY_TIME _). clearbody l2.
  destruct (sweep_confirmed_rest l2 (foldl (expire_pending hass) w l))
    as (Hp & Ht & Hl & Hn & _).
  by apply (consistent_ext _ _ Hp Ht Hl Hn).
Qed.

(** A timer that fires performs the transition the sweep performs. *)
Lemma fire_reset_icon hass (h : nat) (d : Z) tid w :
  consistent w ->
  loop w !! h = Some (d, reset_icon_cb tid) ->
  fire hass h w = expire_pending hass w tid.
Proof.
  intros [H1 H2 H3 H4] Hh. pose proof (H3 _ _ _ Hh) as Ht.
  assert (is_Some (_pending_confirmations w !! tid)) as Hp
    by (apply H1; eauto).
  unfold fire, reset_icon, expire_pending, cancel_and_forget.
  rewrite Hh. cbn. rewrite decide_True by done. rewrite Ht. reflexivity.
Qed.

Lemma consistent_fire hass (h : nat) w :
  consistent w -> consistent (fire hass h w).
Proof.
  intros Hw. destruct (loop w !! h) as [[d [tid|tid]]|] eqn:Hh.
  - rewrite (fire_reset_icon hass h d tid w Hw Hh).
    by apply consistent_expire_pending.
  - unfold fire. rewrite Hh. destruct Hw as [H1 H2 H3 H4].
    split; cbn.
    + apply H1.
    + intros k h' Hk. rewrite lookup_delete_ne; [by apply H2|].
      intros <-. apply H2 in Hk. congruence.
    + intros h' d' k. rewrite lookup_delete. case_decide; [done|]. apply H3.
    + intros h'. rewrite lookup_delete. case_decide; [by intros []|].
      apply H4.
  - unfold fire. by rewrite Hh.
Qed.

Lemma icon_fields hass (task : Task.t num) w (s : string) w' :
  icon hass task w = Ok (s, w') ->
  _pending_confirmations w' = _pending_confirmations w /\
  _reset_timers w' = _reset_timers w /\ loop w' = loop w /\
  next_handle w' = next_handle w /\ store_calls w' = store_calls w /\
  written w' = written w /\
  forall k v, _confirmed_tasks w' !! k = Some v ->
              _confirmed_tasks w !! k = Some v.
Proof.
  unfold icon. destruct (Task.id task) as [tid|]; [|discriminate].
  cbn [item rbind].
  destruct (_confirmed_tasks w !! tid) as [tc|] eqn:E;
    repeat case_match; simplify_eq/=; intros; simplify_eq;
    repeat split; try done.
  all: intros k v; cbn; rewrite ?lookup_delete;
    by destruct (decide (tid = k)).
Qed.

Lemma consistent_async_press hass (task : Task.t num) w w' :
  consistent w -> async_press hass task w = Ok w' -> consistent w'.
Proof.
  intros Hw. unfold async_press.
  destruct (Task.id task) as [tid|]; [|discriminate]. cbn [item rbind].
  intros <-%SensorFacts.Ok_inj. apply consistent_clean_up.
  destruct (_pending_confirmations w !! tid) as [t0|] eqn:E.
  - case_match.
    + by apply consistent_confirm.
    + by apply consistent_restart.
  - by apply consistent_first_press.
Qed.

Lemma consistent_step w (e : event) : consistent w -> consistent (step w e).
Proof.
  intros Hw. destruct e as [hass task|hass h|hass task]; cbn [step].
  - destruct (async_press hass task w) eqn:E; [|done].
    by eapply consistent_async_press.
  - by apply consistent_fire.
  - destruct (icon hass task w) as [[s w']|] eqn:E; [|done].
    destruct (icon_fields _ _ _ _ _ E) as (Hp & Ht & Hl & Hn & _).
    by apply (consistent_ext _ _ Hp Ht Hl Hn).
Qed.

Lemma consistent_initial : consistent (@initial num).
Proof.
  split; cbn.
  - intros k. rewrite !lookup_empty. done.
  - intros k h. by rewrite lookup_empty.
  - intros h d k. by rewrite lookup_empty.
  - intros h. rewrite lookup_empty. by intros [].
Qed.

Lemma consistent_run (trace : list event) w :
  consistent w -> consistent (run_from w trace).
Proof.
  revert w. induction trace as [|e trace IH]; intros w Hw; [done|].
  apply IH, consistent_step, Hw.
Qed.


Lemma clean_up_fields hass (now : Py.datetime) w :
  let w' := clean_up hass now w in
  let late := expired now CONFIRMATION_TIMEOUT (_pending_confirmations w) in
  (forall k, _pending_confirmations w' !! k
             = if decide (k ∈ late) then None
               else _pending_confirmations w !! k) /\
  (forall k, _reset_timers w' !! k
             = if decide (k ∈ late) then None else _reset_timers w !! k) /\
  (forall k, _confirmed_tasks w' !! k
             = if decide (k ∈ expired now CONFIRMED_DISPLAY_TIME
                                (_confirmed_tasks w))
               then None else _confirmed_tasks w !! k) /\
  next_handle w' = next_handle w /\
  store_calls w' = store_calls w /\
  (forall k, multiplicity k (written w')
             = (multiplicity k (written w)
                + if decide (k ∈ late /\ k ∈ button_entities hass)
                  then 1 else 0)%nat).
Proof.
  cbv zeta. unfold clean_up.
  set (late := expired now CONFIRMATION_TIMEOUT (_pending_confirmations w)).
  set (w1 := foldl (expire_pending hass) w late).
  destruct (sweep_rest hass late w) as (Hc & Hn & Hs). fold w1 in Hc, Hn, Hs.
  rewrite Hc.
  set (old := expired now CONFIRMED_DISPLAY_TIME (_confirmed_tasks w)).
  destruct (sweep_confirmed_rest old w1) as (Hp2 & Ht2 & _ & Hn2 & Hs2 & Hw2).
  rewrite Hp2, Ht2, Hn2, Hs2, Hw2, Hn, Hs.
  repeat split.
  - intros k. apply sweep_pending.
  - intros k. apply sweep_timers.
  - intros k. rewrite sweep_confirmed. by rewrite Hc.
  - intros k. apply sweep_written, NoDup_expired.
Qed.

(** ** Timestamps along an execution *)

Lemma sub_utc (a b : Py.datetime) : Py.sub a b = Py.utc a - Py.utc b.
Proof. reflexivity. Qed.

Lemma timely_mono (t t' : Z) w : t <= t' -> timely t w -> timely t' w.
Proof.
  intros Hle [H1 H2 H3]. split.
  - intros k v Hk. apply H1 in Hk. lia.
  - intros k v Hk. apply H2 in Hk. lia.
  - exact H3.
Qed.

Lemma timely_shrink (t : Z) w w' :
  (forall k v, _pending_confirmations w' !! k = Some v ->
               _pending_confirmations w !! k = Some v) ->
  (forall k v, _confirmed_tasks w' !! k = Some v ->
               _confirmed_tasks w !! k = Some v) ->
  timely t w -> timely t w'.
Proof.
  intros Hp Hc [H1 H2 H3]. split.
  - intros k v Hk%Hp. eauto.
  - intros k v Hk%Hc. eauto.
  - intros k tp tc Hk%Hp Hk'%Hc. eauto.
Qed.

Lemma timely_press (t : Z) w w' tid (now : Py.datetime) :
  timely t w -> t <= Py.utc now ->
  (forall k v, _pending_confirmations w' !! k = Some v ->
               (k = tid /\ v = now) \/ _pending_confirmations w !! k = Some v) ->
  (forall k v, _confirmed_tasks w' !! k = Some v ->
               _confirmed_tasks w !! k = Some v) ->
  timely (Py.utc now) w'.
Proof.
  intros [H1 H2 H3] Hle Hp Hc. split.
  - intros k v [[-> ->]|Hk%H1]%Hp; lia.
  - intros k v Hk%Hc%H2. lia.
  - intros k tp tc [[-> ->]|Hk]%Hp Hk'%Hc.
    + apply H2 in Hk'. lia.
    + eauto.
Qed.

Lemma timely_confirm (t : Z) w w' tid (now : Py.datetime) :
  timely t w -> t <= Py.utc now ->
  (forall k v, _pending_confirmations w' !! k = Some v ->
               k <> tid /\ _pending_confirmations w !! k = Some v) ->
  (forall k v, _confirmed_tasks w' !! k = Some v ->
               (k = tid /\ v = now) \/ _confirmed_tasks w !! k = Some v) ->
  timely (Py.utc now) w'.
Proof.
  intros [H1 H2 H3] Hle Hp Hc. split.
  - intros k v [_ Hk%H1]%Hp. lia.
  - intros k v [[-> ->]|Hk%H2]%Hc; lia.
  - intros k tp tc [Hne Hk]%Hp [[-> ->]|Hk']%Hc; [done|eauto].
Qed.

Lemma timely_clean_up (t : Z) hass (now : Py.datetime) w :
  timely t w -> timely t (clean_up hass now w).
Proof.
  destruct (clean_up_fields hass now w) as (Hp & _ & Hc & _).
  apply timely_shrink.
  - intros k v. rewrite Hp. by case_decide.
  - intros k v. rewrite Hc. by case_decide.
Qed.

Lemma timely_async_press (t : Z) hass (task : Task.t num) w w' :
  timely t w -> t <= Py.utc (dt_util.now hass) ->
  async_press hass task w = Ok w' ->
  timely (Py.utc (dt_util.now hass)) w'.
Proof.
  intros Hw Hle. unfold async_press.
  destruct (Task.id task) as [tid|]; [|discriminate]. cbn [item rbind].
  intros <-%SensorFacts.Ok_inj. apply timely_clean_up.
  destruct (_pending_confirmations w !! tid) as [t0|] eqn:E.
  - case_match.
    + destruct (confirm_fields hass task tid (dt_util.now hass) w)
        as (Hp & _ & _ & Hc & _).
      apply (timely_confirm t w _ tid (dt_util.now hass) Hw Hle).
      * intros k v. rewrite Hp, lookup_delete. by case_decide.
      * intros k v. rewrite Hc, lookup_insert. case_decide; naive_solver.
    + rewrite restart_forget.
      destruct (forget_fields tid w) as (Hp & Ht & _ & Hc & _).
      destruct (first_press_fields tid (dt_util.now hass) (forget tid w))
        as (Hp' & _ & _ & Hc' & _).
      { rewrite Ht. apply lookup_delete_eq. }
      apply (timely_press t w _ tid (dt_util.now hass) Hw Hle).
      * intros k v. rewrite Hp', Hp, lookup_insert, lookup_delete.
        repeat case_decide; naive_solver.
      * intros k v. by rewrite Hc', Hc.
  - apply (timely_press t w _ tid (dt_util.now hass) Hw Hle).
    + intros k v. unfold first_press. cbn.
      destruct (_reset_timers w !! tid); cbn;
        rewrite lookup_insert; case_decide; naive_solver.
    + intros k v. unfold first_press. cbn.
      by destruct (_reset_timers w !! tid).
Qed.

Lemma timely_fire (t : Z) hass (h : nat) w :
  timely t w -> timely t (fire hass h w).
Proof.
  apply timely_shrink; unfold fire, reset_icon, write_if_registered;
    intros k v; repeat case_match; cbn; try done.
  all: rewrite lookup_delete;
    match goal with
    | |- context [decide (?a = ?b)] => by destruct (decide (a = b))
    end.
Qed.

Lemma timely_step (t : Z) w (e : event) :
  timely t w ->
  (forall t', reading e = Some t' -> t <= t') ->
  timely (default t (reading e)) (step w e).
Proof.
  intros Hw Hle. destruct e as [hass task|hass h|hass task]; cbn [step reading default].
  - specialize (Hle _ eq_refl).
    destruct (async_press hass task w) eqn:E.
    + by eapply timely_async_press.
    + by eapply timely_mono.
  - by apply timely_fire.
  - specialize (Hle _ eq_refl). apply (timely_mono t); [done|].
    destruct (icon hass task w) as [[s w']|] eqn:E; [|done].
    destruct (icon_fields _ _ _ _ _ E) as (Hp & _ & _ & _ & _ & _ & Hc).
    apply (timely_shrink t w); [|done|done].
    intros k v. by rewrite Hp.
Qed.

Lemma timely_run (trace : list event) (t : Z) w :
  timely t w -> ordered t trace ->
  timely (latest t trace) (run_from w trace).
Proof.
  revert t w. induction trace as [|e trace IH]; intros t w Hw Ho; [done|].
  cbn [ordered] in Ho. cbn [latest run_from foldl].
  apply IH.
  - apply timely_step; [done|].
    intros t' Ht'. rewrite Ht' in Ho. tauto.
  - destruct (reading e); cbn; tauto.
Qed.

Lemma timely_initial (t : Z) : timely t (@initial num).
Proof. split; cbn; intros *; by rewrite lookup_empty. Qed.

Lemma reachable_invariants (t : Z) w :
  reachable t w -> consistent w /\ timely t w.
Proof.
  intros (trace & t0 & Ho & <- & <-). split.
  - apply consistent_run, consistent_initial.
  - apply timely_run; [apply timely_initial|done].
Qed.


(** ** Facts about single transitions *)


Lemma clean_up_loop_cancelled hass (now : Py.datetime) w tid (h : nat) :
  tid ∈ expired now CONFIRMATION_TIMEOUT (_pending_confirmations w) ->
  _reset_timers w !! tid = Some h ->
  loop (clean_up hass now w) !! h = None.
Proof.
  intros Hin Hh. unfold clean_up.
  destruct (sweep_confirmed_rest
              (expired now CONFIRMED_DISPLAY_TIME (_confirmed_tasks w))
              (foldl (expire_pending hass) w
                 (expired now CONFIRMATION_TIMEOUT
                    (_pending_confirmations w)))) as (_ & _ & Hl & _).
  destruct (sweep_rest hass
              (expired now CONFIRMATION_TIMEOUT (_pending_confirmations w)) w)
    as (Hc & _).
  rewrite Hc. rewrite Hl. by eapply sweep_loop_cancelled.
Qed.

Lemma not_expired_now (now : Py.datetime) (limit : Z)
    (d : gmap string Py.datetime) tid :
  0 <= limit -> d !! tid = Some now -> tid ∉ expired now limit d.
Proof.
  intros Hlim Hd (ts & Hts & Hlate)%elem_of_expired.
  rewrite Hd in Hts. injection Hts as <-. rewrite sub_utc in Hlate. lia.
Qed.

Lemma timeout_nonneg : 0 <= CONFIRMATION_TIMEOUT.
Proof. unfold CONFIRMATION_TIMEOUT. lia. Qed.

Lemma display_nonneg : 0 <= CONFIRMED_DISPLAY_TIME.
Proof. unfold CONFIRMED_DISPLAY_TIME. lia. Qed.

Lemma timer_of_pending w tid (t0 : Py.datetime) :
  consistent w -> _pending_confirmations w !! tid = Some t0 ->
  exists h, _reset_timers w !! tid = Some h /\
            loop w !! h = Some (CONFIRMATION_TIMEOUT, reset_icon_cb tid) /\
            (h < next_handle w)%nat.
Proof.
  intros [H1 H2 H3 H4] Hp.
  destruct (proj2 (H1 tid)) as [h Hh]; [eauto|].
  exists h. split; [done|]. split; [by apply H2|].
  apply H4. rewrite (H2 _ _ Hh). eauto.
Qed.

(** The branch a press of [tid'] takes leaves another id [tid] as it was. *)
Lemma press_other hass (task : Task.t num) tid' tid w :
  Task.id task = Some tid' -> tid' <> tid -> consistent w ->
  exists wb,
    async_press hass task w = Ok (clean_up hass (dt_util.now hass) wb) /\
    consistent wb /\
    _pending_confirmations wb !! tid = _pending_confirmations w !! tid /\
    _reset_timers wb !! tid = _reset_timers w !! tid /\
    multiplicity tid (written wb) = multiplicity tid (written w) /\
    (store_calls wb = store_calls w \/
     exists o, store_calls wb = store_calls w ++ [(tid', o)]).
Proof.
  intros Hid Hne Hw. unfold async_press. rewrite Hid. cbn [item rbind].
  destruct (_pending_confirmations w !! tid') as [t0|] eqn:E.
  - case_match.
    + eexists. split; [reflexivity|]. split; [by apply consistent_confirm|].
      destruct (confirm_fields hass task tid' (dt_util.now hass) w)
        as (-> & -> & _ & _ & _ & -> & ->).
      rewrite !lookup_delete_ne by done.
      rewrite multiplicity_disj_union, multiplicity_singleton_ne by done.
      repeat split; [lia|]. destruct (store hass); eauto.
    + eexists. split; [reflexivity|]. split; [by apply consistent_restart|].
      rewrite restart_forget.
      destruct (forget_fields tid' w) as (Hp & Ht & _ & _ & _ & Hs & Hwr).
      destruct (first_press_fields tid' (dt_util.now hass) (forget tid' w))
        as (-> & -> & _ & _ & _ & -> & ->).
      { rewrite Ht. apply lookup_delete_eq. }
      rewrite Hp, Ht, Hs, Hwr.
      rewrite !lookup_insert_ne, !lookup_delete_ne by done.
      rewrite multiplicity_disj_union, multiplicity_singleton_ne by done.
      repeat split; [lia|]. eauto.
  - eexists. split; [reflexivity|].
    split; [by apply consistent_first_press|].
    destruct (first_press_fields tid' (dt_util.now hass) w)
      as (-> & -> & _ & _ & _ & -> & ->).
    { destruct (_reset_timers w !! tid') eqn:Et; [|done].
      destruct Hw as [H1 _ _ _].
      assert (is_Some (_pending_confirmations w !! tid')) as [? ?]
        by (apply H1; eauto). congruence. }
    rewrite !lookup_insert_ne by done.
    rewrite multiplicity_disj_union, multiplicity_singleton_ne by done.
    repeat split; [lia|]. eauto.
Qed.


(** ** The confirmation protocol *)

Lemma confirming_press hass (task : Task.t num) tid w (t0 : Py.datetime) :
  Task.id task = Some tid ->
  _pending_confirmations w !! tid = Some t0 ->
  Py.sub (dt_util.now hass) t0 <= CONFIRMATION_TIMEOUT ->
  exists w',
    async_press hass task w = Ok w' /\
    _pending_confirmations w' !! tid = None /\
    _confirmed_tasks w' !! tid = Some (dt_util.now hass) /\
    store_calls w'
    = if store hass
      then store_calls w ++ [(tid, performed_odometer hass task)]
      else store_calls w.
Proof.
  intros Hid Hp Hin. unfold async_press. rewrite Hid. cbn [item rbind].
  rewrite Hp. rewrite (proj2 (Z.leb_le _ _) Hin).
  eexists. split; [reflexivity|].
  destruct (confirm_fields hass task tid (dt_util.now hass) w)
    as (Hp' & _ & _ & Hc' & _ & Hs' & _).
  destruct (clean_up_fields hass (dt_util.now hass)
              (confirm hass task tid (dt_util.now hass) w))
    as (Hp2 & _ & Hc2 & _ & Hs2 & _).
  rewrite Hp2, Hc2, Hs2, Hp', Hc', Hs', lookup_delete_eq, lookup_insert_eq.
  split; [by case_decide|]. split; [|done].
  rewrite decide_False; [done|].
  apply not_expired_now; [apply display_nonneg|].
  apply lookup_insert_eq.
Qed.

(** C2, as amended.  Along any execution with a clock that does not go
    back, an id that is both pending and confirmed had its pending first
    press recorded at or after its confirmation; and the press that confirms
    an id leaves it confirmed and not pending. *)
Theorem pending_not_before_confirmed (t : Z) w tid :
  reachable t w ->
  (forall tp tc,
     _pending_confirmations w !! tid = Some tp ->
     _confirmed_tasks w !! tid = Some tc ->
     Py.utc tc <= Py.utc tp) /\
  (forall hass (task : Task.t num) (t0 : Py.datetime),
     Task.id task = Some tid ->
     _pending_confirmations w !! tid = Some t0 ->
     Py.sub (dt_util.now hass) t0 <= CONFIRMATION_TIMEOUT ->
     exists w',
       async_press hass task w = Ok w' /\
       _pending_confirmations w' !! tid = None /\
       _confirmed_tasks w' !! tid = Some (dt_util.now hass)).
Proof.
  intros [_ [_ _ H3]]%reachable_invariants. split.
  - intros tp tc. apply H3.
  - intros hass task t0 Hid Hp Hin.
    destruct (confirming_press hass task tid w t0 Hid Hp Hin)
      as (w' & Hw' & Hp' & Hc' & _).
    by exists w'.
Qed.

(** ** What happens between the two presses *)

Lemma commits_of_app tid (l1 l2 : list (string * option num)) :
  commits_of tid (l1 ++ l2) = (commits_of tid l1 + commits_of tid l2)%nat.
Proof. unfold commits_of. by rewrite filter_app, length_app. Qed.

Lemma commits_of_one tid tid' (o : option num) :
  commits_of tid [(tid', o)] = if decide (tid' = tid) then 1%nat else 0%nat.
Proof.
  unfold commits_of. rewrite filter_cons, filter_nil. cbn.
  by repeat case_decide.
Qed.





(** C5.  Once the window of a pending first press has elapsed, the sweep
    and the timer callback perform the same transition: whichever runs first
    drops the pending entry and its timer and asks for one refresh; run
    after the other, each changes nothing for that id, and neither calls the
    store. *)
Theorem sweep_and_timer_idempotent
    (t : Z) hass w tid (t0 : Py.datetime) :
  reachable t w ->
  _pending_confirmations w !! tid = Some t0 ->
  CONFIRMATION_TIMEOUT < Py.sub (dt_util.now hass) t0 ->
  exists h,
    _reset_timers w !! tid = Some h /\
    let sweep := clean_up hass (dt_util.now hass) in
    let refresh :=
      if decide (tid ∈ button_entities hass) then 1%nat else 0%nat in
    (forall first,
       first = sweep w \/ first = fire hass h w ->
       _pending_confirmations first !! tid = None /\
       _reset_timers first !! tid = None /\
       loop first !! h = None /\
       multiplicity tid (written first)
       = (multiplicity tid (written w) + refresh)%nat /\
       store_calls first = store_calls w) /\
    (forall hass', fire hass' h (sweep w) = sweep w) /\
    (forall hass', reset_icon hass' tid (sweep w) = sweep w) /\
    (forall hass',
       let after := clean_up hass' (dt_util.now hass') (fire hass h w) in
       _pending_confirmations after !! tid = None /\
       _reset_timers after !! tid = None /\
       multiplicity tid (written after)
       = multiplicity tid (written (fire hass h w)) /\
       store_calls after = store_calls w) /\
    (forall (task : Task.t num) tid',
       Task.id task = Some tid' -> tid' <> tid ->
       exists w',
         async_press hass task w = Ok w' /\
         _pending_confirmations w' !! tid = None /\
         _reset_timers w' !! tid = None /\
         multiplicity tid (written w')
         = (multiplicity tid (written w) + refresh)%nat /\
         (forall hass', fire hass' h w' = w')).
Proof.
  intros [Hw _]%reachable_invariants Hp Hlate.
  destruct (timer_of_pending w tid t0 Hw Hp) as (h & Hh & Hloop & _).
  exists h. split; [exact Hh|]. cbv zeta.
  assert (Hexp : tid ∈ expired (dt_util.now hass) CONFIRMATION_TIMEOUT
                        (_pending_confirmations w))
    by (apply elem_of_expired; eauto).
  destruct (clean_up_fields hass (dt_util.now hass) w)
    as (Hsp & Hst & _ & _ & Hss & Hsw).
  assert (Hsl : loop (clean_up hass (dt_util.now hass) w) !! h = None)
    by (by eapply clean_up_loop_cancelled).
  assert (Hfire : fire hass h w = expire_pending hass w tid)
    by (by eapply fire_reset_icon).
  assert (Hfp : _pending_confirmations (fire hass h w) !! tid = None)
    by (rewrite Hfire, expire_pending_pending; apply lookup_delete_eq).
  assert (Hfs : store_calls (fire hass h w) = store_calls w)
    by (rewrite Hfire; apply expire_pending_rest).
  repeat split.
  - destruct H as [->| ->];
      [rewrite Hsp; by rewrite decide_True|exact Hfp].
  - destruct H as [->| ->]; [rewrite Hst; by rewrite decide_True|].
    rewrite Hfire, expire_pending_timers. apply lookup_delete_eq.
  - destruct H as [->| ->]; [exact Hsl|].
    rewrite Hfire, expire_pending_loop, Hh. apply lookup_delete_eq.
  - destruct H as [->| ->].
    + rewrite Hsw. f_equal. repeat case_decide; tauto.
    + rewrite Hfire, expire_pending_written. case_decide; [|lia].
      rewrite multiplicity_disj_union, multiplicity_singleton_eq. lia.
  - destruct H as [->| ->]; [exact Hss|exact Hfs].
  - intros hass'. unfold fire. by rewrite Hsl.
  - intros hass'. unfold reset_icon. rewrite decide_False; [done|].
    rewrite Hsp, decide_True by done. by intros [].
  - destruct (clean_up_fields hass' (dt_util.now hass') (fire hass h w))
      as (-> & _). rewrite Hfp. by case_decide.
  - destruct (clean_up_fields hass' (dt_util.now hass') (fire hass h w))
      as (_ & -> & _). rewrite Hfire, expire_pending_timers, lookup_delete_eq.
    by case_decide.
  - destruct (clean_up_fields hass' (dt_util.now hass') (fire hass h w))
      as (_ & _ & _ & _ & _ & ->).
    rewrite decide_False; [lia|].
    intros [(ts & Hts & _)%elem_of_expired _]. congruence.
  - destruct (clean_up_fields hass' (dt_util.now hass') (fire hass h w))
      as (_ & _ & _ & _ & -> & _). exact Hfs.
  - intros task tid' Hid Hne.
    destruct (press_other hass task tid' tid w Hid Hne Hw)
      as (wb & Hpress & Hwb & Hpb & Htb & Hmb & _).
    eexists. split; [exact Hpress|].
    assert (Hexpb : tid ∈ expired (dt_util.now hass) CONFIRMATION_TIMEOUT
                           (_pending_confirmations wb)).
    { apply elem_of_expired. exists t0. by rewrite Hpb. }
    destruct (clean_up_fields hass (dt_util.now hass) wb)
      as (Hbp & Hbt & _ & _ & _ & Hbw).
    rewrite Hbp, Hbt, Hbw, Hmb, !decide_True by done.
    repeat split.
    + f_equal. repeat case_decide; tauto.
    + intros hass'. unfold fire.
      rewrite (clean_up_loop_cancelled hass _ wb tid h Hexpb); [done|].
      by rewrite Htb.
Qed.


End ButtonFacts.
End ButtonFacts.

(** * Properties of the update_task command *)

Module WebsocketFacts.
Section WebsocketFacts.
Context {num : Type} {R : Runtime num}.
Import Websocket.

Lemma as_local_tzinfo (hass : HomeAssistant) (dt dt' : Py.datetime) :
  dt_util.as_local hass dt = Ok dt' ->
  Py.tzinfo dt' = Some (DEFAULT_TIME_ZONE hass).
Proof.
  unfold dt_util.as_local.
  destruct (Py.tzinfo dt) as [off|] eqn:E.
  - apply SensorFacts.astimezone_tzinfo.
  - by intros [= <-].
Qed.

(** C10.  Without a "last_performed" key in [updates] the handler raises
    [KeyError] having sent nothing and left the store alone.  Whenever it
    does update the store, [updates] held a "last_performed" value, and the
    stored value is the ISO text of a local midnight: that of the parsed
    value, or today's when the value is empty. *)
Theorem update_requires_last_performed
    (hass : HomeAssistant) (msg : message) :
  (default ∅ (msg_updates msg) !! "last_performed" = None ->
   websocket_update_task hass msg = ([], Raise (KeyError "last_performed")))
  /\ (forall tid u,
        update_task tid u ∈ (websocket_update_task hass msg).1 ->
        exists v local,
          default ∅ (msg_updates msg) !! "last_performed" = Some v /\
          tid = msg_task_id msg /\
          u = <["last_performed" :=
                  JStr (Iso.isoformat (Py.replace_midnight local))]>
                (default ∅ (msg_updates msg)) /\
          Py.tzinfo local = Some (DEFAULT_TIME_ZONE hass) /\
          (json_truthy v = true ->
           exists s parsed,
             v = JStr s /\ parse_datetime s = Ok (Some parsed) /\
             dt_util.as_local hass parsed = Ok local) /\
          (json_truthy v = false -> local = dt_util.now hass)).
Proof.
  unfold websocket_update_task, subscript. split.
  - intros ->. reflexivity.
  - intros tid u.
    destruct (default ∅ (msg_updates msg) !! "last_performed") as [v|] eqn:E;
      [|by intros ?%elem_of_nil].
    destruct (json_truthy v) eqn:Htruthy.
    + unfold normalize. destruct v as [|b|z|s]; try by intros ?%elem_of_nil.
      destruct (parse_datetime s) as [[parsed|]|] eqn:Hparse; cbn [rbind].
      * destruct (dt_util.as_local hass parsed) as [local|] eqn:Hlocal;
          cbn [rbind]; [|by intros ?%elem_of_nil].
        destruct (store hass); [|by intros ?%elem_of_nil].
        cbn [fst]. rewrite !elem_of_cons, elem_of_nil.
        intros [[= -> ->]|[[=]|[]]].
        exists (JStr s), local. repeat split; try done.
        -- by eapply as_local_tzinfo.
        -- intros _. by exists s, parsed.
        -- intros Hf. rewrite Hf in Htruthy. discriminate.
      * cbn [fst]. rewrite elem_of_cons, elem_of_nil. by intros [[=]|[]].
      * by intros ?%elem_of_nil.
    + destruct (store hass); [|by intros ?%elem_of_nil].
      cbn [fst]. rewrite !elem_of_cons, elem_of_nil.
      intros [[= -> ->]|[[=]|[]]].
      exists v, (dt_util.now hass). repeat split; try done.
      intros Ht. rewrite Ht in Htruthy. discriminate.
Qed.

End WebsocketFacts.
End WebsocketFacts.

(** * The properties on concrete inputs *)

Module Checks.
Import Scenario.

#[local] Existing Instance Reference.runtime.

Abbreviation R := Reference.runtime.

(** C1: with [interval_type = "years"] and a past [last_performed], the
    task is reported due and [next_due] is not the stored text; and a naive
    date at the start of the calendar, east of UTC, raises. *)
Lemma unrecognized_interval_type_reported_due :
  Task.last_performed yearly_task = Some "2024-01-01T10:30:00+00:00" /\
  Sensor.observe "next_due" (Sensor._update_state (home 10 30 0) yearly_task)
  = Ok (true, Some (Sensor.AStr "2024-01-01T00:00:00+00:00")) /\
  Sensor._update_state (home 10 30 0) ancient_task = Raise OverflowError.
Proof. split_and!; [reflexivity| |]; vm_compute; reflexivity. Qed.

Lemma unrecognized_interval_type_due_witness :
  exists st,
    Sensor._update_state (home 10 30 0) yearly_task = Ok st /\
    Sensor._attr_is_on st = true /\
    Sensor._attr_extra_state_attributes st !! "last_performed"
    = Some (Sensor.AStr "2024-01-01T10:30:00+00:00").
Proof.
  destruct (@SensorFacts.unrecognized_interval_type_due Z R (home 10 30 0)
              yearly_task 1 "years" "2024-01-01T10:30:00+00:00"
              (Py.mk_datetime 2024 1 1 10 30 0 0 (Some 0)))
    as (_ & _ & Hreturns & _).
  - reflexivity.
  - reflexivity.
  - rewrite !not_elem_of_cons. repeat split; try discriminate.
    apply not_elem_of_nil.
  - reflexivity.
  - reflexivity.
  - destruct (Hreturns (Py.mk_datetime 2024 1 1 10 30 0 0 (Some 0)) eq_refl)
      as (_ & st & Hst & Hon & _ & Hlp).
    exists st. split; [assumption|]. split; [|assumption].
    rewrite Hon. vm_compute. reflexivity.
Defined.

(** C7: a text of date form that names no valid date is not reported as
    unparsable; the computation raises [ValueError]. *)
Lemma invalid_date_raises :
  Task.interval_type misdated_task = Some "days" /\
  Task.last_performed misdated_task = Some "2024-02-30T00:00:00+01:00" /\
  Sensor._update_state (home 10 30 0) misdated_task = Raise ValueError.
Proof. split_and!; [reflexivity..|]. vm_compute. reflexivity. Qed.

Lemma unparsable_date_fails_open_witness :
  exists st,
    Sensor._update_state (home 10 30 0) garbled_task = Ok st /\
    Sensor._attr_is_on st = true.
Proof.
  destruct (proj1 (@SensorFacts.unparsable_date_fails_open Z R
                     (home 10 30 0) garbled_task 30 "days" "last spring"
                     eq_refl eq_refl eq_refl eq_refl))
    as (st & Hst & Hon & _); [reflexivity|].
  exists st. split; assumption.
Defined.

(** C4: with an interval beyond the range of a float the formatting of
    [L + V] raises, although both readings are present. *)
Lemma distance_overflow_raises :
  Task.interval_type endless_task = Some "kilometers" /\
  Task.last_odometer endless_task = Some 8000 /\
  Sensor._get_current_odometer (home 10 30 0) endless_task = Some 12000 /\
  Sensor._update_state (home 10 30 0) endless_task = Raise OverflowError.
Proof. split_and!; [reflexivity..| |]; vm_compute; reflexivity. Qed.

Lemma distance_due_witness :
  exists st,
    Sensor._update_state (home 10 30 0) oil_task = Ok st /\
    Sensor._attr_extra_state_attributes st !! "next_due_odometer"
    = Some (Sensor.ANum (13000 : Z)).
Proof.
  destruct (proj1 (@SensorFacts.distance_due Z R (home 10 30 0) oil_task
                     5000 "kilometers" eq_refl eq_refl eq_refl))
    as (st & Hst & Hnext & _).
  - intros l Hl. injection Hl as <-. exists 13000.
    split; [reflexivity|]. intros _. exists "13000". reflexivity.
  - exists st. split; [assumption|].
    destruct (Hnext 8000 eq_refl) as (n & Hn & _ & Hodo).
    injection Hn as <-. exact Hodo.
Defined.

(** The same date through the whole computation. *)
Example filter_task_due_end_of_february :
  Sensor.observe "next_due" (Sensor._update_state (home 10 30 0) filter_task)
  = Ok (true, Some (Sensor.AStr "2024-02-29T00:00:00+01:00")).
Proof. vm_compute. reflexivity. Qed.

Lemma month_addition_clamps_witness :
  exists due,
    Sensor._calculate_next_due_date
      (Py.mk_datetime 2024 1 31 0 0 0 0 (Some 3600)) 1 "months"
    = Ok (Some due) /\
    Py.year due = 2024 /\ Py.month due = 2 /\ Py.day due = 29.
Proof.
  destruct (proj1 SensorFacts.month_addition_clamps
              (Py.mk_datetime 2024 1 31 0 0 0 0 (Some 3600)))
    as (due & Hdue & Hy & Hm & Hd & _); try reflexivity.
  exists due. repeat split; assumption.
Defined.

(** C9: a calendar task without "last_performed" raises [KeyError], and an
    interval that leaves the calendar raises [OverflowError]. *)
Lemma missing_last_performed_raises :
  Sensor._update_state (home 10 30 0) undated_task
  = Raise (KeyError "last_performed") /\
  Sensor._update_state (home 10 30 0) far_task = Raise OverflowError.
Proof. split; vm_compute; reflexivity. Qed.

Lemma update_state_degrades_witness :
  exists st,
    Sensor._update_state (home_with "unavailable" true 10 30 0) oil_task
    = Ok st /\
    Sensor._attr_extra_state_attributes st !! "next_due"
    = Some (Sensor.AStr "unknown (odometer not available)").
Proof.
  destruct (proj2 (proj2 (proj2 (@SensorFacts.update_state_degrades Z R
                     (home_with "unavailable" true 10 30 0) oil_task)))
              5000 "kilometers" eq_refl eq_refl) as (Hreturns & _ & Hkm).
  destruct (proj2 Hreturns) as [st Hst].
  - split; [|discriminate]. intros _ l Hl. injection Hl as <-.
    exists 13000. split; [reflexivity|].
    intros [c Hc]. vm_compute in Hc. discriminate.
  - exists st. split; [assumption|].
    apply (proj1 (Hkm st Hst)); [reflexivity|]. right. vm_compute.
    right. right. left. reflexivity.
Defined.


Lemma reachable_pressed_once :
  Button.reachable (Py.utc (dt_util.now (home 10 30 0))) pressed_once.
Proof.
  exists [press (home 10 30 0)], 0. repeat split. vm_compute. discriminate.
Defined.

(** C2: after three presses one second apart the id is pending (third
    press) while its confirmation (second press) is still on display. *)
Lemma pending_while_confirmed :
  Button.reachable (Py.utc (dt_util.now (home 10 30 2))) pressed_thrice /\
  Button._pending_confirmations pressed_thrice !! "oil"
  = Some (dt_util.now (home 10 30 2)) /\
  Button._confirmed_tasks pressed_thrice !! "oil"
  = Some (dt_util.now (home 10 30 1)) /\
  Py.sub (dt_util.now (home 10 30 2)) (dt_util.now (home 10 30 1))
  <= Button.CONFIRMED_DISPLAY_TIME /\
  Button.icon (home 10 30 2) oil_task pressed_thrice
  = Ok ("mdi:check-circle", pressed_thrice).
Proof.
  split.
  - exists [press (home 10 30 0); press (home 10 30 1); press (home 10 30 2)], 0.
    repeat split; vm_compute; discriminate.
  - repeat split; vm_compute; try reflexivity. discriminate.
Qed.

Lemma pending_not_before_confirmed_witness :
  exists w',
    Button.async_press (home 10 30 2) oil_task pressed_once = Ok w' /\
    Button._pending_confirmations w' !! "oil" = None.
Proof.
  destruct (proj2 (@ButtonFacts.pending_not_before_confirmed Z R _
                     pressed_once "oil" reachable_pressed_once)
              (home 10 30 2) oil_task (dt_util.now (home 10 30 0)))
    as (w' & Hw' & Hp & _).
  - reflexivity.
  - vm_compute. reflexivity.
  - vm_compute. discriminate.
  - exists w'. split; assumption.
Defined.



Lemma sweep_and_timer_idempotent_witness :
  exists h,
    Button._reset_timers pressed_once !! "oil" = Some h /\
    let swept :=
      Button.clean_up (home 10 30 6) (dt_util.now (home 10 30 6))
                      pressed_once in
    Button.fire (home 10 30 6) h swept = swept.
Proof.
  destruct (@ButtonFacts.sweep_and_timer_idempotent Z R _ (home 10 30 6)
              pressed_once "oil" (dt_util.now (home 10 30 0))
              reachable_pressed_once)
    as (h & Hh & _ & Hfire & _).
  - vm_compute. reflexivity.
  - vm_compute. reflexivity.
  - exists h. split; [assumption|]. apply Hfire.
Defined.


(** A supplied date is stored as the local midnight of its day. *)
Example redate_stores_local_midnight :
  Websocket.websocket_update_task (home 10 30 0) redate
  = ([Websocket.update_task "oil"
        {[ "last_performed" := Websocket.JStr "2024-05-20T00:00:00+01:00" ]};
      Websocket.send_result 8], Ok ()).
Proof. vm_compute. reflexivity. Qed.

Lemma update_requires_last_performed_witness :
  Websocket.websocket_update_task (home 10 30 0) rename_only
  = ([], Raise (KeyError "last_performed")).
Proof.
  apply (proj1 (@WebsocketFacts.update_requires_last_performed Z R
                  (home 10 30 0) rename_only)).
  vm_compute. reflexivity.
Defined.

End Checks.

(** * Further properties of the double-press confirmation *)

Module ButtonMore.
Section ButtonMore.
Context {num : Type} {R : Runtime num}.
Import Button ButtonFacts Tally.

Implicit Types (w : @world num) (tid : string) (hass : HomeAssistant).

(** X1.  In every reachable world the armed [reset_icon] callbacks are
    exactly the timers of the pending ids: each has the timeout delay, belongs
    to a pending id and is the handle recorded for it, so an id never has two
    armed timeout timers; and every pending id has one. *)
Theorem armed_timers_belong_to_pending (t : Z) w :
  reachable t w ->
  (forall h d tid,
     loop w !! h = Some (d, reset_icon_cb tid) ->
     d = CONFIRMATION_TIMEOUT /\
     _reset_timers w !! tid = Some h /\
     is_Some (_pending_confirmations w !! tid)) /\
  (forall h1 h2 d1 d2 tid,
     loop w !! h1 = Some (d1, reset_icon_cb tid) ->
     loop w !! h2 = Some (d2, reset_icon_cb tid) ->
     h1 = h2) /\
  (forall tid,
     is_Some (_pending_confirmations w !! tid) ->
     exists h, _reset_timers w !! tid = Some h /\
               loop w !! h = Some (CONFIRMATION_TIMEOUT, reset_icon_cb tid)).
Proof.
  intros [[H1 H2 H3 H4] _]%reachable_invariants. repeat split.
  - pose proof (H3 _ _ _ H) as Ht. apply H2 in Ht. congruence.
  - by eapply H3.
  - apply H1. rewrite (H3 _ _ _ H). eauto.
  - intros h1 h2 d1 d2 tid Ha Hb. apply H3 in Ha, Hb. congruence.
  - intros tid Hp. apply H1 in Hp as [h Hh]. exists h. split; [done|].
    by apply H2.
Qed.

Lemma async_press_store_calls hass (task : Task.t num) tid w :
  Task.id task = Some tid ->
  exists w',
    async_press hass task w = Ok w' /\
    store_calls w'
    = match _pending_confirmations w !! tid with
      | Some t0 =>
          if (Py.sub (dt_util.now hass) t0 <=? CONFIRMATION_TIMEOUT)
             && store hass
          then store_calls w ++ [(tid, performed_odometer hass task)]
          else store_calls w
      | None => store_calls w
      end.
Proof.
  intros Hid. unfold async_press. rewrite Hid. cbn [item rbind].
  eexists. split; [reflexivity|].
  match goal with
  | |- store_calls (clean_up ?h ?n ?x) = _ =>
      destruct (clean_up_fields h n x) as (_ & _ & _ & _ & -> & _)
  end.
  destruct (_pending_confirmations w !! tid) as [t0|] eqn:E.
  - destruct (Py.sub (dt_util.now hass) t0 <=? CONFIRMATION_TIMEOUT).
    + destruct (confirm_fields hass task tid (dt_util.now hass) w)
        as (_ & _ & _ & _ & _ & -> & _). by destruct (store hass).
    + rewrite restart_forget. cbn [andb].
      destruct (forget_fields tid w) as (_ & Ht & _ & _ & _ & Hs & _).
      destruct (first_press_fields tid (dt_util.now hass) (forget tid w))
        as (_ & _ & _ & _ & _ & -> & _); [|done].
      rewrite Ht. apply lookup_delete_eq.
  - unfold first_press. cbn. by destruct (_reset_timers w !! tid).
Qed.

(** X2.  A press calls the store at most once, and only for its own id: it
    does so exactly when the id has a pending first press not older than the
    timeout and the store is available; a first press, a stale press and a
    press without store leave the store alone. *)
Theorem press_commits_iff hass (task : Task.t num) tid w :
  Task.id task = Some tid ->
  exists w',
    async_press hass task w = Ok w' /\
    store_calls w'
    = match _pending_confirmations w !! tid with
      | Some t0 =>
          if (Py.sub (dt_util.now hass) t0 <=? CONFIRMATION_TIMEOUT)
             && store hass
          then store_calls w ++ [(tid, performed_odometer hass task)]
          else store_calls w
      | None => store_calls w
      end.
Proof. apply async_press_store_calls. Qed.

(** X3.  A first press that gets no follow-up: once its timer (the
    handle the press allocated) runs, the id is no longer pending, the timer
    is gone from the table and from the loop, and the store was never called.
    When the id was not on display as confirmed at the press, the indicator
    reads pending after the press and is back to its default after the
    timer. *)
Theorem abandoned_press_resets
    (t : Z) hass hass' (task : Task.t num) tid w :
  reachable t w ->
  Task.id task = Some tid ->
  _pending_confirmations w !! tid = None ->
  exists w1,
    async_press hass task w = Ok w1 /\
    _pending_confirmations w1 !! tid = Some (dt_util.now hass) /\
    let w2 := fire hass' (next_handle w) w1 in
    _pending_confirmations w2 !! tid = None /\
    _reset_timers w2 !! tid = None /\
    loop w2 !! next_handle w = None /\
    store_calls w2 = store_calls w /\
    (_confirmed_tasks w !! tid = None ->
     (forall hass1, icon hass1 task w1 = Ok ("mdi:alert-circle", w1)) /\
     (forall hass2,
        icon hass2 task w2 = Ok ("mdi:check-circle-outline", w2))).
Proof.
  intros [Hw _]%reachable_invariants Hid Hp.
  set (now := dt_util.now hass).
  set (wf := first_press tid now w).
  assert (Hpress : async_press hass task w = Ok (clean_up hass now wf)).
  { unfold async_press. rewrite Hid. cbn [item rbind]. by rewrite Hp. }
  assert (Ht : _reset_timers w !! tid = None).
  { destruct (_reset_timers w !! tid) eqn:E; [|done].
    assert (is_Some (_pending_confirmations w !! tid)) as [? ?]
      by (apply (timers_pending w Hw); eauto). congruence. }
  destruct (first_press_fields tid now w Ht)
    as (Hfp & Hft & _ & Hfc & _ & Hfs & _). fold wf in Hfp, Hft, Hfc, Hfs.
  assert (Hwf : consistent wf) by (by apply consistent_first_press).
  pose proof (consistent_clean_up hass now wf Hwf) as Hw1.
  destruct (clean_up_fields hass now wf) as (Hcp & Hct & Hcc & _ & Hcs & _).
  assert (Hfresh : tid ∉ expired now CONFIRMATION_TIMEOUT
                           (_pending_confirmations wf)).
  { apply not_expired_now; [apply timeout_nonneg|].
    rewrite Hfp. apply lookup_insert_eq. }
  set (w1 := clean_up hass now wf) in *.
  assert (Hp1 : _pending_confirmations w1 !! tid = Some now).
  { rewrite Hcp, decide_False by done. rewrite Hfp. apply lookup_insert_eq. }
  assert (Ht1 : _reset_timers w1 !! tid = Some (next_handle w)).
  { rewrite Hct, decide_False by done. rewrite Hft. apply lookup_insert_eq. }
  assert (Hl1 : loop w1 !! next_handle w
                = Some (CONFIRMATION_TIMEOUT, reset_icon_cb tid))
    by (by apply (timers_armed w1 Hw1)).
  exists w1. split; [exact Hpress|]. split; [exact Hp1|].
  cbv zeta.
  rewrite (fire_reset_icon hass' _ _ tid w1 Hw1 Hl1).
  destruct (expire_pending_rest hass' w1 tid) as (Hec & _ & Hes).
  assert (Hp2 : _pending_confirmations (expire_pending hass' w1 tid) !! tid
                = None)
    by (rewrite expire_pending_pending; apply lookup_delete_eq).
  split_and!.
  - exact Hp2.
  - rewrite expire_pending_timers. apply lookup_delete_eq.
  - rewrite expire_pending_loop, Ht1. apply lookup_delete_eq.
  - by rewrite Hes, Hcs, Hfs.
  - intros Hc.
    assert (Hc1 : _confirmed_tasks w1 !! tid = None).
    { rewrite Hcc. case_decide; [done|]. by rewrite Hfc. }
    split.
    + intros hass1. unfold icon. rewrite Hid. cbn [item rbind].
      rewrite Hc1, decide_True by (rewrite Hp1; eauto). reflexivity.
    + intros hass2. unfold icon. rewrite Hid. cbn [item rbind].
      rewrite Hec, Hc1, decide_False; [done|]. rewrite Hp2. by intros [].
Qed.

(** X4.  After a confirming press the indicator reads confirmed for as long
    as the display time has not passed; the first read after that drops the
    confirmation, leaves the pending table alone and shows the default. *)
Theorem confirmed_indicator_expires
    hass (task : Task.t num) tid w (t0 : Py.datetime) :
  Task.id task = Some tid ->
  _pending_confirmations w !! tid = Some t0 ->
  Py.sub (dt_util.now hass) t0 <= CONFIRMATION_TIMEOUT ->
  exists w',
    async_press hass task w = Ok w' /\
    (forall hass',
       Py.sub (dt_util.now hass') (dt_util.now hass)
       <= CONFIRMED_DISPLAY_TIME ->
       icon hass' task w' = Ok ("mdi:check-circle", w')) /\
    (forall hass',
       CONFIRMED_DISPLAY_TIME
       < Py.sub (dt_util.now hass') (dt_util.now hass) ->
       exists w'',
         icon hass' task w' = Ok ("mdi:check-circle-outline", w'') /\
         _confirmed_tasks w'' !! tid = None /\
         _pending_confirmations w'' = _pending_confirmations w' /\
         store_calls w'' = store_calls w').
Proof.
  intros Hid Hp Hin.
  destruct (confirming_press hass task tid w t0 Hid Hp Hin)
    as (w' & Hw' & Hp' & Hc' & _).
  exists w'. split; [exact Hw'|]. split.
  - intros hass' Hlive. unfold icon. rewrite Hid. cbn [item rbind].
    rewrite Hc'. by rewrite (proj2 (Z.leb_le _ _) Hlive).
  - intros hass' Hgone. unfold icon. rewrite Hid. cbn [item rbind].
    rewrite Hc'. rewrite (proj2 (Z.leb_gt _ _) Hgone).
    cbn [_pending_confirmations set_confirmed].
    rewrite decide_False by (rewrite Hp'; by intros []).
    eexists. split; [reflexivity|]. cbn. split; [apply lookup_delete_eq|done].
Qed.

(** X5.  Reading the indicator twice in a row at the same clock gives the
    same icon, and the second read changes nothing. *)
Theorem icon_read_idempotent hass (task : Task.t num) w (s : string) w' :
  icon hass task w = Ok (s, w') -> icon hass task w' = Ok (s, w').
Proof.
  unfold icon. destruct (Task.id task) as [tid|]; [|discriminate].
  cbn [item rbind].
  destruct (_confirmed_tasks w !! tid) as [tc|] eqn:E.
  - destruct (Py.sub (dt_util.now hass) tc <=? CONFIRMED_DISPLAY_TIME) eqn:El.
    + intros [= <- <-]. by rewrite E, El.
    + cbn [_pending_confirmations set_confirmed].
      case_decide as Hp; intros [= <- <-]; cbn; rewrite lookup_delete_eq; cbn.
      * by rewrite decide_True.
      * by rewrite decide_False.
  - case_decide as Hp; intros [= <- <-]; rewrite E.
    + by rewrite decide_True.
    + by rewrite decide_False.
Qed.


(** X6.  A press of one button leaves another id's pending first press
    alone while that press is within its window: same timestamp, same armed
    timer, no refresh requested for it. *)
Theorem press_leaves_other_pending
    (t : Z) hass (task' : Task.t num) tid' tid w (t0 : Py.datetime) :
  reachable t w ->
  Task.id task' = Some tid' -> tid' <> tid ->
  _pending_confirmations w !! tid = Some t0 ->
  Py.sub (dt_util.now hass) t0 <= CONFIRMATION_TIMEOUT ->
  exists w' h,
    async_press hass task' w = Ok w' /\
    _pending_confirmations w' !! tid = Some t0 /\
    _reset_timers w !! tid = Some h /\
    _reset_timers w' !! tid = Some h /\
    loop w' !! h = Some (CONFIRMATION_TIMEOUT, reset_icon_cb tid) /\
    multiplicity tid (written w') = multiplicity tid (written w).
Proof.
  intros [Hw _]%reachable_invariants Hid Hne Hp Hin.
  destruct (timer_of_pending w tid t0 Hw Hp) as (h & Hh & _).
  destruct (press_other hass task' tid' tid w Hid Hne Hw)
    as (wb & Hpress & Hwb & Hpb & Htb & Hmb & _).
  destruct (clean_up_fields hass (dt_util.now hass) wb)
    as (Hcp & Hct & _ & _ & _ & Hcw).
  assert (Hlive : tid ∉ expired (dt_util.now hass) CONFIRMATION_TIMEOUT
                          (_pending_confirmations wb)).
  { intros (ts & Hts & Hlate)%elem_of_expired.
    rewrite Hpb, Hp in Hts. injection Hts as <-. lia. }
  assert (Ht' : _reset_timers (clean_up hass (dt_util.now hass) wb) !! tid
                = Some h) by (by rewrite Hct, decide_False, Htb).
  eexists _, h. split; [exact Hpress|]. repeat split.
  - by rewrite Hcp, decide_False, Hpb.
  - exact Hh.
  - exact Ht'.
  - by apply (timers_armed _ (consistent_clean_up _ _ wb Hwb)).
  - rewrite Hcw, Hmb, decide_False by tauto. lia.
Qed.

(** X8.  When a press returns, no pending first press older than the
    timeout and no confirmation older than the display time is left in the
    tables, whatever button was pressed. *)
Theorem press_sweeps_stale hass (task : Task.t num) w w' :
  async_press hass task w = Ok w' ->
  (forall k ts,
     _pending_confirmations w' !! k = Some ts ->
     Py.sub (dt_util.now hass) ts <= CONFIRMATION_TIMEOUT) /\
  (forall k tc,
     _confirmed_tasks w' !! k = Some tc ->
     Py.sub (dt_util.now hass) tc <= CONFIRMED_DISPLAY_TIME).
Proof.
  unfold async_press. destruct (Task.id task) as [tid|]; [|discriminate].
  cbn [item rbind]. intros <-%SensorFacts.Ok_inj.
  match goal with
  | |- context [clean_up ?h ?n ?x] =>
      destruct (clean_up_fields h n x) as (Hp & _ & Hc & _)
  end.
  split.
  - intros k ts. rewrite Hp. case_decide as Hk; [done|]. intros Hts.
    destruct (Z.le_gt_cases (Py.sub (dt_util.now hass) ts)
                CONFIRMATION_TIMEOUT) as [|Hlate]; [done|].
    exfalso. apply Hk, elem_of_expired. eauto.
  - intros k tc. rewrite Hc. case_decide as Hk; [done|]. intros Htc.
    destruct (Z.le_gt_cases (Py.sub (dt_util.now hass) tc)
                CONFIRMED_DISPLAY_TIME) as [|Hlate]; [done|].
    exfalso. apply Hk, elem_of_expired. eauto.
Qed.

(** ** Two presses per commit *)

Lemma pending_count_le tid w w' :
  (forall v, _pending_confirmations w' !! tid = Some v ->
             is_Some (_pending_confirmations w !! tid)) ->
  (pending_count tid w' <= pending_count tid w)%nat.
Proof.
  intros H. unfold pending_count. repeat case_decide; try lia.
  exfalso. destruct H0 as [v Hv]. eauto.
Qed.

Lemma pending_count_bound tid w : (pending_count tid w <= 1)%nat.
Proof. unfold pending_count. case_decide; lia. Qed.

Lemma fire_store_and_pending hass (h : nat) w :
  store_calls (fire hass h w) = store_calls w /\
  forall k v, _pending_confirmations (fire hass h w) !! k = Some v ->
              _pending_confirmations w !! k = Some v.
Proof.
  unfold fire, reset_icon, write_if_registered.
  repeat case_match; cbn; split; try done.
  all: intros k v; rewrite lookup_delete;
    match goal with
    | |- context [decide (?a = ?b)] => by destruct (decide (a = b))
    end.
Qed.

Lemma tally_step w (e : event) tid :
  consistent w ->
  (2 * commits_of tid (store_calls (step w e)) + pending_count tid (step w e)
   <= 2 * commits_of tid (store_calls w) + pending_count tid w
      + (if is_press_of tid e then 1 else 0))%nat.
Proof.
  intros Hw. destruct e as [hass task|hass h|hass task]; cbn [step is_press_of].
  - destruct (Task.id task) as [tid'|] eqn:Hid.
    + destruct (decide (tid' = tid)) as [->|Hne].
      * rewrite bool_decide_eq_true_2 by done.
        destruct (async_press_store_calls hass task tid w Hid)
          as (w' & Hw' & Hs). rewrite Hw', Hs.
        destruct (_pending_confirmations w !! tid) as [t0|] eqn:Hp.
        -- destruct (Z.leb_spec (Py.sub (dt_util.now hass) t0)
                        CONFIRMATION_TIMEOUT) as [Hin|Hlate].
           ++ destruct (confirming_press hass task tid w t0 Hid Hp Hin)
                as (w2 & Hw2 & Hp2 & _). rewrite Hw' in Hw2.
              injection Hw2 as <-.
              assert (pending_count tid w' = 0%nat) as ->.
              { unfold pending_count. rewrite Hp2.
                rewrite decide_False; [done|]. by intros []. }
              assert (pending_count tid w = 1%nat) as ->.
              { unfold pending_count. rewrite Hp. by rewrite decide_True. }
              cbn [andb]. destruct (store hass); [|lia].
              rewrite commits_of_app, commits_of_one, decide_True by done.
              lia.
           ++ cbn [andb]. pose proof (pending_count_bound tid w').
              assert (pending_count tid w = 1%nat) as ->.
              { unfold pending_count. rewrite Hp. by rewrite decide_True. }
              lia.
        -- pose proof (pending_count_bound tid w'). lia.
      * rewrite bool_decide_eq_false_2 by congruence.
        destruct (press_other hass task tid' tid w Hid Hne Hw)
          as (wb & Hpress & _ & Hpb & _ & _ & Hsb).
        rewrite Hpress.
        destruct (clean_up_fields hass (dt_util.now hass) wb)
          as (Hcp & _ & _ & _ & Hcs & _).
        rewrite Hcs.
        assert (commits_of tid (store_calls wb)
                = commits_of tid (store_calls w)) as ->.
        { destruct Hsb as [->|[o ->]]; [done|].
          rewrite commits_of_app, commits_of_one, decide_False by done. lia. }
        pose proof (pending_count_le tid w
                      (clean_up hass (dt_util.now hass) wb)) as Hle.
        assert (pending_count tid (clean_up hass (dt_util.now hass) wb)
                <= pending_count tid w)%nat; [|lia].
        apply Hle. intros v. rewrite Hcp. case_decide; [done|].
        rewrite Hpb. eauto.
    + unfold async_press. rewrite Hid. cbn [item rbind].
      rewrite bool_decide_eq_false_2 by done. lia.
  - destruct (fire_store_and_pending hass h w) as [-> Hp].
    pose proof (pending_count_le tid w (fire hass h w)) as Hle.
    assert (pending_count tid (fire hass h w) <= pending_count tid w)%nat;
      [|lia].
    apply Hle. intros v Hv. apply Hp in Hv. eauto.
  - destruct (icon hass task w) as [[s w']|] eqn:E; [|lia].
    destruct (icon_fields _ _ _ _ _ E) as (Hp & _ & _ & _ & Hs & _).
    unfold pending_count. rewrite Hp, Hs. lia.
Qed.

Lemma tally_run (trace : list event) w tid :
  consistent w ->
  (2 * commits_of tid (store_calls (run_from w trace))
   + pending_count tid (run_from w trace)
   <= 2 * commits_of tid (store_calls w) + pending_count tid w
      + presses_on tid trace)%nat.
Proof.
  revert w. induction trace as [|e trace IH]; intros w Hw.
  - cbn. lia.
  - cbn [run_from foldl presses_on].
    pose proof (tally_step w e tid Hw).
    pose proof (IH (step w e) (consistent_step w e Hw)) as IH'.
    unfold run_from in IH'. lia.
Qed.

(** X7.  Starting from empty tables, whatever the order of presses, timer
    firings and indicator reads, the store is called for an id at most once
    per two presses of that id's button. *)
Theorem two_presses_per_commit (trace : list event) tid :
  (2 * commits_of tid (store_calls (run_from initial trace))
   <= presses_on tid trace)%nat.
Proof.
  pose proof (tally_run trace (@initial num) tid consistent_initial) as H.
  change (commits_of tid (store_calls (@initial num))) with 0%nat in H.
  change (pending_count tid (@initial num)) with 0%nat in H.
  lia.
Qed.

End ButtonMore.
End ButtonMore.

(** * Further properties of the due-state computation *)

Module SensorMore.
Section SensorMore.
Context {num : Type} {R : Runtime num}.
Import Sensor SensorFacts.

(** X9.  The due state changes only when the local date changes: two
    clocks on the same day (same entity states, same time zone) give the same
    state and attributes, whatever the time of day. *)
Theorem due_state_changes_at_midnight
    (hass hass' : HomeAssistant) (task : Task.t num) :
  states hass = states hass' ->
  DEFAULT_TIME_ZONE hass = DEFAULT_TIME_ZONE hass' ->
  Py.year (wall_clock hass) = Py.year (wall_clock hass') ->
  Py.month (wall_clock hass) = Py.month (wall_clock hass') ->
  Py.day (wall_clock hass) = Py.day (wall_clock hass') ->
  _update_state hass task = _update_state hass' task.
Proof.
  destruct hass as [s c z st b], hass' as [s' c' z' st' b']. cbn.
  intros <- <- Hy Hm Hd.
  unfold _update_state, _get_current_odometer, aware, dt_util.as_utc,
    dt_util.now, Py.replace_midnight. cbn.
  rewrite Hy, Hm, Hd. reflexivity.
Qed.

(** X10.  On a distance task the due decision and [next_due] depend on the
    odometer readings and the interval only: neither the clock nor
    [last_performed], title or tag change them. *)
Theorem distance_due_ignores_calendar
    (hass hass' : HomeAssistant) (task task' : Task.t num) (ty : string) :
  Task.interval_type task = Some ty -> is_distance ty = true ->
  Task.interval_type task' = Some ty ->
  Task.interval_value task = Task.interval_value task' ->
  Task.last_odometer task = Task.last_odometer task' ->
  Task.odometer_entity task = Task.odometer_entity task' ->
  states hass = states hass' ->
  observe "next_due" (_update_state hass task)
  = observe "next_due" (_update_state hass' task').
Proof.
  intros Hty Hkm Hty' Hv Hl He Hs.
  destruct (Task.interval_value task) as [v|] eqn:Hv0.
  2: { unfold observe, _update_state. by rewrite Hv0, <- Hv. }
  pose proof (update_state_distance hass task v ty Hv0 Hty Hkm) as H1.
  pose proof (update_state_distance hass' task' v ty (eq_sym Hv) Hty' Hkm)
    as H2.
  assert (Hc : _get_current_odometer hass' task'
               = _get_current_odometer hass task)
    by (unfold _get_current_odometer; by rewrite <- He, <- Hs).
  rewrite <- Hl, Hc in H2.
  destruct (Task.last_odometer task) as [l|].
  - destruct (num_add l v) as [n|e]; [|by rewrite H1, H2].
    destruct (_get_current_odometer hass task) as [c|].
    + destruct (format_0f n) as [text|e]; [|by rewrite H1, H2].
      destruct H1 as (st & -> & Hon & Hnext & _).
      destruct H2 as (st' & -> & Hon' & Hnext' & _).
      unfold observe. cbn [rbind]. by rewrite Hon, Hon', Hnext, Hnext'.
    + destruct H1 as (st & -> & Hon & Hnext & _).
      destruct H2 as (st' & -> & Hon' & Hnext' & _).
      unfold observe. cbn [rbind]. by rewrite Hon, Hon', Hnext, Hnext'.
  - destruct H1 as (st & -> & Hon & Hnext & _).
    destruct H2 as (st' & -> & Hon' & Hnext' & _).
    unfold observe. cbn [rbind]. by rewrite Hon, Hon', Hnext, Hnext'.
Qed.

(** X11.  On a calendar task nothing about the odometer matters: entity
    states, [last_odometer] and [odometer_entity] do not change the result. *)
Theorem calendar_due_ignores_odometer
    (hass hass' : HomeAssistant) (task task' : Task.t num) (ty : string) :
  Task.interval_type task = Some ty -> is_distance ty = false ->
  Task.interval_type task' = Some ty ->
  Task.interval_value task = Task.interval_value task' ->
  Task.last_performed task = Task.last_performed task' ->
  Task.tag_id task = Task.tag_id task' ->
  wall_clock hass = wall_clock hass' ->
  DEFAULT_TIME_ZONE hass = DEFAULT_TIME_ZONE hass' ->
  _update_state hass task = _update_state hass' task'.
Proof.
  intros Hty Hkm Hty' Hv Hl Ht Hc Hz.
  unfold _update_state, aware, dt_util.as_utc, dt_util.now.
  rewrite Hty, Hty', <- Hv, <- Hl, <- Ht, <- Hc, <- Hz.
  destruct (Task.interval_value task) as [v|]; [|reflexivity].
  cbn [item rbind]. rewrite Hkm. reflexivity.
Qed.

Lemma update_state_attributes
    (hass : HomeAssistant) (task : Task.t num) (st : state) :
  _update_state hass task = Ok st ->
  exists (v : Z) (ty next : string),
    Task.interval_value task = Some v /\
    Task.interval_type task = Some ty /\
    _attr_extra_state_attributes st !! "interval_value" = Some (AInt v) /\
    _attr_extra_state_attributes st !! "interval_type" = Some (AStr ty) /\
    _attr_extra_state_attributes st !! "next_due" = Some (AStr next) /\
    _attr_extra_state_attributes st !! "last_performed"
    = Some (AStr (default "" (Task.last_performed task))) /\
    _attr_extra_state_attributes st !! "tag_id"
    = (if truthy (Task.tag_id task) then AStr <$> Task.tag_id task else None).
Proof.
  unfold _update_state.
  destruct (Task.interval_value task) as [v|]; [|discriminate].
  destruct (Task.interval_type task) as [ty|]; [|discriminate].
  cbn [item rbind]. intros H. exists v, ty.
  revert H. destruct (is_distance ty) eqn:Hkm.
  - unfold _calculate_next_due_odometer. rewrite Hkm. cbn [negb].
    destruct (Task.tag_id task) as [[|? ?]|]; cbn [truthy];
      (destruct (Task.last_odometer task) as [l|]; cbn [rbind];
       [destruct (num_add l v) as [n|e]; cbn [rbind]; [|discriminate];
        destruct (_get_current_odometer hass task) as [c|];
        [destruct (format_0f n) as [text|e]; cbn [rbind]; [|discriminate]|]
       |destruct (_get_current_odometer hass task) as [c|]]);
      intros [= <-]; cbn [_attr_extra_state_attributes];
      eexists; (split_and!; [done|done|by simplify_map_eq..]).
  - destruct (Task.last_performed task) as [lp|]; [|discriminate].
    unfold rbind.
    repeat case_match; intros; simplify_eq/=;
      eexists; split_and!; by simplify_map_eq.
Qed.

(** X12.  Every state the computation returns carries the interval, a
    textual [next_due] and [last_performed]; [tag_id] is present exactly when
    the task has a non-empty tag. *)
Theorem attributes_always_present
    (hass : HomeAssistant) (task : Task.t num) (st : state) :
  _update_state hass task = Ok st ->
  exists (v : Z) (ty next : string),
    Task.interval_value task = Some v /\
    Task.interval_type task = Some ty /\
    _attr_extra_state_attributes st !! "interval_value" = Some (AInt v) /\
    _attr_extra_state_attributes st !! "interval_type" = Some (AStr ty) /\
    _attr_extra_state_attributes st !! "next_due" = Some (AStr next) /\
    _attr_extra_state_attributes st !! "last_performed"
    = Some (AStr (default "" (Task.last_performed task))) /\
    _attr_extra_state_attributes st !! "tag_id"
    = (if truthy (Task.tag_id task) then AStr <$> Task.tag_id task else None).
Proof. apply update_state_attributes. Qed.

Lemma distance_attributes
    (hass : HomeAssistant) (task : Task.t num) (v : Z) (ty : string)
    (st : state) :
  Task.interval_value task = Some v ->
  Task.interval_type task = Some ty ->
  is_distance ty = true ->
  _update_state hass task = Ok st ->
  (forall l, Task.last_odometer task = Some l ->
     exists n, num_add l v = Ok n /\
               _attr_extra_state_attributes st !! "next_due_odometer"
               = Some (ANum n)) /\
  (Task.last_odometer task = None ->
   _attr_extra_state_attributes st !! "next_due_odometer" = None) /\
  _attr_extra_state_attributes st !! "current_odometer"
  = ANum <$> _get_current_odometer hass task.
Proof.
  intros Hv Hty Hkm. unfold _update_state. rewrite Hv, Hty.
  cbn [item rbind]. rewrite Hkm.
  unfold _calculate_next_due_odometer. rewrite Hkm. cbn [negb].
  destruct (Task.tag_id task) as [[|? ?]|]; cbn [truthy];
    (destruct (Task.last_odometer task) as [l|]; cbn [rbind];
     [destruct (num_add l v) as [n|e] eqn:Hn; cbn [rbind]; [|discriminate];
      destruct (_get_current_odometer hass task) as [c|];
      [destruct (format_0f n) as [text|e]; cbn [rbind]; [|discriminate]|]
     |destruct (_get_current_odometer hass task) as [c|]]);
    intros [= <-]; cbn [_attr_extra_state_attributes fmap option_fmap
                        option_map];
    split_and!;
    lazymatch goal with
    | |- forall l', Some _ = Some l' -> _ =>
        intros ? [= <-]; eexists; split; [done|]; by simplify_map_eq
    | |- forall l', None = Some l' -> _ => discriminate
    | |- Some _ = None -> _ => discriminate
    | |- None = None -> _ => intros _; by simplify_map_eq
    | |- _ => by simplify_map_eq
    end.
Qed.

(** X13.  The two helpers divide the interval types between them as their
    docstrings say: the date helper returns no date exactly for kilometers and
    miles, the odometer helper returns no reading for every other type (and
    for a missing last reading), so never both return a value. *)
Theorem helpers_split_interval_types :
  (forall (last : Py.datetime) (v : Z) (ty : string) d,
     _calculate_next_due_date last v ty = Ok d ->
     (d = None <-> is_distance ty = true)) /\
  (forall (l : option num) (v : Z) (ty : string),
     _calculate_next_due_odometer l v ty = Ok None
     <-> is_distance ty = false \/ l = None) /\
  (forall (last due : Py.datetime) (l : option num) (v : Z) (ty : string),
     _calculate_next_due_date last v ty = Ok (Some due) ->
     _calculate_next_due_odometer l v ty = Ok None).
Proof.
  assert (Hdate : forall (last : Py.datetime) (v : Z) (ty : string) d,
            _calculate_next_due_date last v ty = Ok d ->
            (d = None <-> is_distance ty = true)).
  { intros last v ty d. unfold _calculate_next_due_date, rbind.
    destruct (is_distance ty); [by intros [= <-]|].
    repeat case_match; intros; simplify_eq; split; discriminate. }
  split; [exact Hdate|]. split.
  - intros l v ty. unfold _calculate_next_due_odometer.
    destruct (is_distance ty), l as [x|]; cbn [negb]; split;
      try done; try tauto.
    + destruct (num_add x v); discriminate.
    + intros [?|?]; discriminate.
  - intros last due l v ty Hd. unfold _calculate_next_due_odometer.
    destruct (is_distance ty) eqn:Hkm; [|done].
    apply Hdate in Hd. pose proof (proj2 Hd Hkm). discriminate.
Qed.

(** X14.  A task that is due stays due as the days go by: with the same
    entity states and time zone, a clock whose midnight is not earlier keeps
    [is_on] true. *)
Theorem due_stays_due
    (hass hass' : HomeAssistant) (task : Task.t num) (st : state) :
  states hass = states hass' ->
  DEFAULT_TIME_ZONE hass = DEFAULT_TIME_ZONE hass' ->
  Py.utc (Py.replace_midnight (dt_util.now hass))
  <= Py.utc (Py.replace_midnight (dt_util.now hass')) ->
  _update_state hass task = Ok st ->
  _attr_is_on st = true ->
  exists st', _update_state hass' task = Ok st' /\ _attr_is_on st' = true.
Proof.
  intros Hs Hz Hle. unfold _update_state.
  destruct (Task.interval_value task) as [v|]; [|discriminate].
  destruct (Task.interval_type task) as [ty|]; [|discriminate].
  cbn [item rbind].
  assert (Hodo : _get_current_odometer hass' task
                 = _get_current_odometer hass task)
    by (unfold _get_current_odometer; by rewrite Hs).
  assert (Haw : forall dt, aware hass' dt = aware hass dt)
    by (intros dt; unfold aware, dt_util.as_utc; by rewrite Hz).
  destruct (is_distance ty).
  - rewrite Hodo. intros H Hon. by exists st.
  - destruct (Task.last_performed task) as [lp|]; [|discriminate].
    cbn [item rbind].
    destruct (parse_datetime lp) as [[parsed|]|]; cbn [rbind];
      [|intros H Hon; by exists st|discriminate].
    rewrite Haw. destruct (aware hass parsed) as [last|]; [|discriminate].
    cbn [rbind].
    destruct (_calculate_next_due_date last v ty) as [[due|]|];
      cbn [rbind]; [|intros H Hon; by exists st|discriminate].
    unfold Py.ge. cbn [Py.tzinfo Py.replace_midnight dt_util.now].
    destruct (Py.tzinfo due) as [off|]; [|discriminate]. cbn [rbind].
    intros [= <-]. cbn [_attr_is_on]. intros Hon%Z.leb_le.
    eexists. split; [reflexivity|]. cbn [_attr_is_on]. apply Z.leb_le.
    unfold Py.utc in Hle. cbn [Py.tzinfo Py.replace_midnight dt_util.now
      default] in Hle. unfold id in Hle. lia.
Qed.

(** X15.  The sensor has a current reading exactly when an odometer entity
    is configured, has a state, the state is neither "unknown" nor
    "unavailable", and its text is a number; the reading is that number. *)
Theorem current_odometer_iff
    (hass : HomeAssistant) (task : Task.t num) (x : num) :
  _get_current_odometer hass task = Some x
  <-> exists e s,
        Task.odometer_entity task = Some e /\ e <> "" /\
        states hass !! e = Some s /\
        s <> "unknown" /\ s <> "unavailable" /\
        float s = Some x.
Proof.
  unfold _get_current_odometer, usable_state. split.
  - destruct (Task.odometer_entity task) as [[|c e]|]; try discriminate.
    cbn [truthy negb].
    destruct (states hass !! String c e) as [s|] eqn:Hs; [|discriminate].
    destruct (String.eqb_spec s "unknown"); [discriminate|].
    destruct (String.eqb_spec s "unavailable"); [discriminate|].
    cbn. intros Hx. exists (String c e), s. done.
  - intros (e & s & -> & He & Hs & Hu & Ha & Hx).
    destruct e; [done|]. cbn [truthy negb]. rewrite Hs.
    rewrite (proj2 (String.eqb_neq _ _) Hu), (proj2 (String.eqb_neq _ _) Ha).
    exact Hx.
Qed.

(** X16.  The reading a confirming press hands to the store is the one the
    sensor of the same task would use: on a distance task the two sampling
    blocks agree, and on any other task the press passes no reading. *)
Theorem press_samples_like_sensor
    (hass : HomeAssistant) (task : Task.t num) :
  (forall ty, Task.interval_type task = Some ty -> is_distance ty = true ->
     Button.performed_odometer hass task = _get_current_odometer hass task) /\
  ((forall ty, Task.interval_type task = Some ty -> is_distance ty = false) ->
     Button.performed_odometer hass task = None).
Proof.
  unfold Button.performed_odometer, _get_current_odometer. split.
  - intros ty -> ->.
    destruct (Task.odometer_entity task) as [[|c e]|]; reflexivity.
  - intros H. destruct (Task.interval_type task) as [ty|]; [|done].
    by rewrite (H ty eq_refl).
Qed.

End SensorMore.
End SensorMore.

(** * Properties of the websocket commands *)

Module CommandFacts.
Section CommandFacts.
Context {num : Type} {R : Runtime num}.
Import Commands.

Implicit Types (hass : HomeAssistant)
  (attrs task : gmap string (@Sensor.attr num)).

Lemma update_task_effect hass (msg : Websocket.message) tid u :
  Websocket.update_task tid u ∈ (Websocket.websocket_update_task hass msg).1 ->
  exists v lp,
    default ∅ (Websocket.msg_updates msg) !! "last_performed" = Some v /\
    u = <["last_performed" := Websocket.JStr lp]>
          (default ∅ (Websocket.msg_updates msg)).
Proof.
  unfold Websocket.websocket_update_task, subscript.
  destruct (default ∅ (Websocket.msg_updates msg) !! "last_performed")
    as [v|] eqn:E; [|by intros ?%elem_of_nil].
  destruct (if Websocket.json_truthy v then Websocket.normalize hass v
            else Ok (Some (Iso.isoformat
                             (Py.replace_midnight (dt_util.now hass)))))
    as [[lp|]|]; cbn [fst].
  - destruct (store hass); [|by intros ?%elem_of_nil]. cbn [fst].
    rewrite !elem_of_cons, elem_of_nil. intros [[= -> ->]|[[=]|[]]].
    by exists v, lp.
  - rewrite elem_of_cons, elem_of_nil. by intros [[=]|[]].
  - by intros ?%elem_of_nil.
Qed.

(** X17.  Whatever the message, [update_task] does one of three things:
    it raises having sent and stored nothing, it replies [invalid_date]
    without touching the store, or it updates the store once and then sends
    the one result. *)
Theorem update_replies_once hass (msg : Websocket.message) :
  (exists e, Websocket.websocket_update_task hass msg = ([], Raise e)) \/
  (exists text,
     Websocket.websocket_update_task hass msg
     = ([Websocket.send_error (Websocket.msg_id msg) "invalid_date" text],
        Ok ())) \/
  (exists u,
     Websocket.websocket_update_task hass msg
     = ([Websocket.update_task (Websocket.msg_task_id msg) u;
         Websocket.send_result (Websocket.msg_id msg)], Ok ())).
Proof.
  unfold Websocket.websocket_update_task, subscript.
  destruct (default ∅ (Websocket.msg_updates msg) !! "last_performed")
    as [v|]; [|left; eauto].
  destruct (if Websocket.json_truthy v then Websocket.normalize hass v
            else Ok (Some (Iso.isoformat
                             (Py.replace_midnight (dt_util.now hass)))))
    as [[lp|]|].
  - destruct (store hass); [right; right; eauto|left; eauto].
  - right. left. eauto.
  - left. eauto.
Qed.

(** X18.  An update reaches the store with every key the client sent and
    no other: only the value under "last_performed" is rewritten. *)
Theorem update_keeps_other_keys hass (msg : Websocket.message) tid u :
  Websocket.update_task tid u ∈ (Websocket.websocket_update_task hass msg).1 ->
  (forall k, k <> "last_performed" ->
             u !! k = default ∅ (Websocket.msg_updates msg) !! k) /\
  dom u = dom (default ∅ (Websocket.msg_updates msg)).
Proof.
  intros (v & lp & Hv & ->)%update_task_effect. split.
  - intros k Hk. by rewrite lookup_insert_ne.
  - rewrite dom_insert_L.
    assert ("last_performed" ∈ dom (default ∅ (Websocket.msg_updates msg)))
      by (apply elem_of_dom; eauto).
    set_solver.
Qed.

(** X19.  [add_task] reads "last_performed" by subscript although the
    schema makes the key optional: without it the handler raises [KeyError]
    and nothing is sent or stored.  In every case it raises with nothing done,
    or replies [invalid_date] without touching the store, or adds one task and
    then sends the one result carrying the id the store returned. *)
Theorem add_task_replies_once hass (st : Store) (uuid_hex : string)
    (msg : add_message) :
  (add_last_performed msg = None ->
   websocket_add_task hass st uuid_hex msg
   = ([], Raise (KeyError "last_performed"))) /\
  ((exists e, websocket_add_task hass st uuid_hex msg = ([], Raise e)) \/
   (exists text,
      websocket_add_task hass st uuid_hex msg
      = ([send_error (add_id msg) "invalid_date" text], Ok ())) \/
   (exists new_task labels,
      websocket_add_task hass st uuid_hex msg
      = ([store_add new_task labels;
          send_result (add_id msg)
            (SuccessId (add_returns st new_task labels))], Ok ()))).
Proof.
  unfold websocket_add_task. split.
  - intros ->. reflexivity.
  - destruct (add_last_performed msg) as [last_str|]; cbn [item];
      [|left; eauto].
    destruct (if truthy (Some last_str)
              then Websocket.normalize hass (Websocket.JStr last_str)
              else Ok (Some (Iso.isoformat
                               (Py.replace_midnight (dt_util.now hass)))))
      as [[lp|]|].
    + destruct (store hass); [right; right; eauto|left; eauto].
    + right. left. eauto.
    + left. eauto.
Qed.

(** X20.  A task that [add_task] hands to the store has the id
    "home_maintenance_" followed by the fresh hex text, the fields of the
    message copied as they are, the labels of the message (none when absent),
    and as [last_performed] the ISO text of a local midnight: today's when the
    message gave an empty text, else that of the parsed date. *)
Theorem added_task_fields hass (st : Store) (uuid_hex : string)
    (msg : add_message) (new_task : StoredTask.t num) (labels : list string) :
  store_add new_task labels ∈ (websocket_add_task hass st uuid_hex msg).1 ->
  StoredTask.id new_task = "home_maintenance_" +:+ uuid_hex /\
  StoredTask.title new_task = add_title msg /\
  StoredTask.interval_value new_task = add_interval_value msg /\
  StoredTask.interval_type new_task = add_interval_type msg /\
  StoredTask.tag_id new_task = add_tag_id msg /\
  StoredTask.icon new_task = add_icon msg /\
  StoredTask.last_odometer new_task = add_last_odometer msg /\
  StoredTask.odometer_entity new_task = add_odometer_entity msg /\
  StoredTask.category new_task = add_category msg /\
  StoredTask.item_name new_task = add_item_name msg /\
  labels = default [] (add_labels msg) /\
  exists last_str local,
    add_last_performed msg = Some last_str /\
    Py.tzinfo local = Some (DEFAULT_TIME_ZONE hass) /\
    StoredTask.last_performed new_task
    = Iso.isoformat (Py.replace_midnight local) /\
    (last_str = "" -> local = dt_util.now hass) /\
    (last_str <> "" ->
     exists parsed,
       parse_datetime last_str = Ok (Some parsed) /\
       dt_util.as_local hass parsed = Ok local).
Proof.
  unfold websocket_add_task.
  destruct (add_last_performed msg) as [last_str|]; cbn [item];
    [|by intros ?%elem_of_nil].
  destruct last_str as [|c s]; cbn [truthy].
  - destruct (store hass); [|by intros ?%elem_of_nil]. cbn [fst].
    rewrite !elem_of_cons, elem_of_nil. intros [[= -> ->]|[[=]|[]]].
    cbn. split_and!; try reflexivity.
    exists "", (dt_util.now hass). split_and!; try done.
  - unfold Websocket.normalize.
    destruct (parse_datetime (String c s)) as [[parsed|]|] eqn:Hparse;
      cbn [rbind].
    + destruct (dt_util.as_local hass parsed) as [local|] eqn:Hlocal;
        cbn [rbind]; [|by intros ?%elem_of_nil].
      destruct (store hass); [|by intros ?%elem_of_nil]. cbn [fst].
      rewrite !elem_of_cons, elem_of_nil. intros [[= -> ->]|[[=]|[]]].
      cbn. split_and!; try reflexivity.
      exists (String c s), local. split_and!; try done.
      * by eapply WebsocketFacts.as_local_tzinfo.
      * intros _. by exists parsed.
    + cbn [fst]. rewrite elem_of_cons, elem_of_nil. by intros [[=]|[]].
    + by intros ?%elem_of_nil.
Qed.

Lemma copy_if_set_lookup (key : string) attrs task (k : string) :
  copy_if_set key attrs task !! k
  = if decide (k = key)
    then match attrs !! key with
         | Some Sensor.ANone | None => task !! k
         | Some v => Some v
         end
    else task !! k.
Proof.
  unfold copy_if_set, dict in *.
  destruct (attrs !! key) as [[]|]; case_decide; subst;
    rewrite ?lookup_insert_eq, ?lookup_insert_ne by done; reflexivity.
Qed.

Lemma copy_if_present_lookup (key : string) attrs task (k : string) :
  copy_if_present key attrs task !! k
  = if decide (k = key)
    then match attrs !! key with Some v => Some v | None => task !! k end
    else task !! k.
Proof.
  unfold copy_if_present, dict in *.
  destruct (attrs !! key); case_decide; subst;
    rewrite ?lookup_insert_eq, ?lookup_insert_ne by done; reflexivity.
Qed.

Lemma enrich_lookups attrs task (k : string) :
  enrich attrs task !! k
  = if decide (k = "next_due")
    then match attrs !! k with Some v => Some v | None => task !! k end
    else if decide (k = "current_odometer" \/ k = "next_due_odometer")
    then match attrs !! k with
         | Some Sensor.ANone | None => task !! k
         | Some v => Some v
         end
    else task !! k.
Proof.
  unfold enrich.
  rewrite copy_if_present_lookup, !copy_if_set_lookup.
  repeat case_decide; subst; try done; exfalso; intuition congruence.
Qed.

(** X21.  Enriching a task touches three keys only.  "next_due" takes the
    entity's value whenever the entity has one, a [None] included;
    "current_odometer" and "next_due_odometer" take it only when it is not
    [None]; every other key, and these three when the entity has nothing to
    give, keep the task's own value. *)
Theorem enrich_touches_three_keys attrs task (k : string) :
  enrich attrs task !! k
  = if decide (k = "next_due")
    then match attrs !! k with Some v => Some v | None => task !! k end
    else if decide (k = "current_odometer" \/ k = "next_due_odometer")
    then match attrs !! k with
         | Some Sensor.ANone | None => task !! k
         | Some v => Some v
         end
    else task !! k.
Proof. apply enrich_lookups. Qed.

Lemma enrich_all_cons (entities : gmap string string)
    (attributes : gmap string (gmap string (@Sensor.attr num))) task
    (rest ts : list (gmap string (@Sensor.attr num))) :
  enrich_all entities attributes (task :: rest) = Ok ts ->
  exists idv ts',
    task !! "id" = Some idv /\
    enrich_all entities attributes rest = Ok ts' /\
    ts = enriched entities attributes idv task :: ts'.
Proof.
  unfold dict in *. cbn [enrich_all]. unfold subscript.
  destruct (task !! "id") as [idv|]; [|discriminate]. cbn [rbind].
  destruct (enrich_all entities attributes rest) as [ts'|]; [|discriminate].
  cbn [rbind]. intros [= <-]. by exists idv, ts'.
Qed.

(** X22.  [get_tasks] answers with one task per stored task, in the store's
    order, each the enrichment of the stored one; it does so exactly when
    every stored task has an "id", and otherwise raises [KeyError] for "id"
    and sends nothing. *)
Theorem get_tasks_keeps_order (entities : gmap string string)
    (attributes : gmap string (gmap string (@Sensor.attr num)))
    (tasks : list (gmap string (@Sensor.attr num))) :
  (forall ts,
     enrich_all entities attributes tasks = Ok ts ->
     length ts = length tasks /\
     forall (i : nat) task,
       tasks !! i = Some task ->
       exists idv,
         task !! "id" = Some idv /\
         ts !! i = Some (enriched entities attributes idv task)) /\
  ((forall task, task ∈ tasks -> is_Some (task !! "id"))
   <-> exists ts, enrich_all entities attributes tasks = Ok ts) /\
  (forall e,
     enrich_all entities attributes tasks = Raise e -> e = KeyError "id").
Proof.
  unfold dict in *.
  induction tasks as [|task rest (IH1 & IH2 & IH3)].
  - split_and!.
    + intros ts [= <-]. split; [done|]. intros i task. by rewrite lookup_nil.
    + split; [eauto|]. intros _ task Hin. by apply elem_of_nil in Hin.
    + discriminate.
  - split_and!.
    + intros ts (idv & ts' & Hid & Hrest & ->)%enrich_all_cons.
      destruct (IH1 ts' Hrest) as [Hlen Hnth]. split; [cbn; by rewrite Hlen|].
      intros [|i] t; cbn.
      * intros [= <-]. by exists idv.
      * apply Hnth.
    + split.
      * intros Hall.
        destruct (Hall task) as [idv Hid]; [apply elem_of_cons; by left|].
        destruct (proj1 IH2) as [ts' Hts'].
        { intros t Ht. apply Hall, elem_of_cons. by right. }
        exists (enriched entities attributes idv task :: ts').
        cbn [enrich_all]. unfold subscript. rewrite Hid. cbn [rbind].
        by rewrite Hts'.
      * intros [ts (idv & ts' & Hid & Hrest & ->)%enrich_all_cons].
        intros t [->|Hin]%elem_of_cons; [eauto|].
        apply (proj2 IH2); eauto.
    + intros e. cbn [enrich_all]. unfold subscript.
      destruct (task !! "id") as [idv|]; cbn [rbind]; [|by intros [= <-]].
      destruct (enrich_all entities attributes rest) as [ts'|] eqn:Hrest;
        cbn [rbind]; [discriminate|].
      intros [= <-]. by apply IH3.
Qed.

(** X23.  What the sensor computed is what the client reads: when the
    entity state of a task holds the attributes [_update_state] produced, the
    task in the reply has the sensor's textual [next_due], on a distance task
    with a last reading the next-due odometer [L + V], and the current reading
    when there is one. *)
Theorem reply_carries_sensor_attributes
    hass (task : Task.t num) (st : Sensor.state)
    (entities : gmap string string)
    (attributes : gmap string (gmap string (@Sensor.attr num)))
    (tid eid : string) (found : (gmap string (@Sensor.attr num))) :
  Sensor._update_state hass task = Ok st ->
  entities !! tid = Some eid ->
  attributes !! eid = Some (Sensor._attr_extra_state_attributes st) ->
  let reply := enriched entities attributes (Sensor.AStr tid) found in
  (exists next,
     Sensor._attr_extra_state_attributes st !! "next_due"
     = Some (Sensor.AStr next) /\
     reply !! "next_due" = Some (Sensor.AStr next)) /\
  (forall v ty l,
     Task.interval_value task = Some v ->
     Task.interval_type task = Some ty -> is_distance ty = true ->
     Task.last_odometer task = Some l ->
     exists n,
       num_add l v = Ok n /\
       reply !! "next_due_odometer" = Some (Sensor.ANum n)) /\
  (forall ty c,
     Task.interval_type task = Some ty -> is_distance ty = true ->
     Sensor._get_current_odometer hass task = Some c ->
     reply !! "current_odometer" = Some (Sensor.ANum c)).
Proof.
  intros Hst He Ha. cbv zeta. unfold enriched, dict in *. rewrite He.
  cbn beta iota. rewrite Ha.
  destruct (SensorMore.update_state_attributes hass task st Hst)
    as (v0 & ty0 & next & Hv0 & Hty0 & _ & _ & Hnext & _).
  split_and!.
  - exists next. split; [exact Hnext|].
    rewrite enrich_lookups, decide_True by done. unfold dict.
    by rewrite Hnext.
  - intros v ty l Hv Hty Hkm Hl.
    destruct (SensorMore.distance_attributes hass task v ty st Hv Hty Hkm Hst)
      as [Hnd _].
    destruct (Hnd l Hl) as (n & Hn & Hodo). exists n. split; [exact Hn|].
    rewrite enrich_lookups, decide_False, decide_True by (done || tauto).
    unfold dict. by rewrite Hodo.
  - intros ty c Hty Hkm Hc.
    rewrite Hty0 in Hty. injection Hty as ->.
    destruct (SensorMore.distance_attributes hass task v0 ty st Hv0 Hty0 Hkm
                Hst) as (_ & _ & Hcur).
    rewrite enrich_lookups, decide_False, decide_True by (done || tauto).
    unfold dict. by rewrite Hcur, Hc.
Qed.

End CommandFacts.
End CommandFacts.

(** * Properties of the platform set-up *)

Module PlatformFacts.
Section PlatformFacts.
Context {num : Type} {R : Runtime num}.
Import Platform.

Implicit Types (hass : HomeAssistant) (data : @domain_data num)
  (device_id : option string).

Lemma add_buttons_registers device_id (tasks : list (Task.t num)) :
  forall data (acc : list button_entity),
    (forall task, task ∈ tasks ->
                  is_Some (Task.title task) /\ is_Some (Task.id task)) ->
    exists (new : list button_entity) (table : gmap string button_entity),
      add_buttons device_id tasks data acc
      = (match tasks with
         | [] => data
         | _ => with_button_entities table data
         end, Ok (acc ++ new)) /\
      Forall2 (fun task e => button_init task device_id None = Ok e)
              tasks new /\
      (forall k, (forall task, task ∈ tasks -> Task.id task <> Some k) ->
                 table !! k = default ∅ (data_button_entities data) !! k) /\
      (forall task k, task ∈ tasks -> Task.id task = Some k ->
         exists e, table !! k = Some e /\ e ∈ new /\
                   Task.id (button_task e) = Some k).
Proof.
  induction tasks as [|task rest IH]; intros data acc Hwf.
  - exists [], (default ∅ (data_button_entities data)). split_and!.
    + cbn. by rewrite app_nil_r.
    + constructor.
    + done.
    + intros task k Hin. by apply elem_of_nil in Hin.
  - destruct (Hwf task) as [[title Ht] [id Hid]];
      [apply elem_of_cons; by left|].
    set (entity := mk_button task (title +:+ " - Confirm") (id +:+ "_button")
                     device_id [] "restart").
    assert (Hinit : button_init task device_id None = Ok entity)
      by (unfold button_init; rewrite Ht, Hid; reflexivity).
    set (old := default ∅ (data_button_entities data)).
    destruct (IH (with_button_entities (<[id := entity]> old)
                    (with_button_entities old data)) (acc ++ [entity]))
      as (new & table & Hrun & Hall & Hframe & Hreg).
    { intros t Hin. apply Hwf, elem_of_cons. by right. }
    exists (entity :: new),
      (match rest with [] => <[id := entity]> old | _ => table end).
    split_and!.
    + cbn [add_buttons]. rewrite Hinit, Hid. cbn [item]. fold old.
      rewrite Hrun, <- app_assoc. cbn [app]. by destruct rest.
    + by constructor.
    + intros k Hk.
      assert (Hne : id <> k).
      { intros ->. apply (Hk task); [apply elem_of_cons; by left|done]. }
      destruct rest as [|t rest'].
      * by rewrite lookup_insert_ne.
      * rewrite Hframe; [by cbn; rewrite lookup_insert_ne|].
        intros t' Hin. apply Hk, elem_of_cons. by right.
    + intros t k [->|Hin]%elem_of_cons Hk.
      * rewrite Hid in Hk. injection Hk as <-.
        destruct (decide (Exists (fun t' => Task.id t' = Some id) rest))
          as [(t' & Hin' & Hid')%Exists_exists|Hnone].
        -- destruct rest as [|r rest']; [by apply elem_of_nil in Hin'|].
           destruct (Hreg t' id Hin' Hid') as (e & He & Hnew & Hide).
           exists e. split_and!; [done|apply elem_of_cons; by right|done].
        -- exists entity. split_and!; [|apply elem_of_cons; by left|done].
           destruct rest as [|r rest']; [apply lookup_insert_eq|].
           rewrite Hframe; [cbn; apply lookup_insert_eq|].
           intros t' Hin' Hid'. apply Hnone, Exists_exists. eauto.
      * destruct rest as [|r rest']; [by apply elem_of_nil in Hin|].
        destruct (Hreg t k Hin Hk) as (e & He & Hnew & Hide).
        exists e. split_and!; [done|apply elem_of_cons; by right|done].
Qed.

(** X24.  Button set-up over a store whose tasks all have a title and an
    id builds one button per task, in the store's order, named "<title> -
    Confirm" with unique id "<id>_button", hands them all to the platform, and
    leaves every task id registered in "button_entities" (creating that table
    when it is missing) without disturbing other keys. *)
Theorem button_setup_registers_all
    (data : option domain_data) (tasks : list (Task.t num)) :
  data_store (default empty_data data) = Some tasks ->
  (forall task, task ∈ tasks ->
                is_Some (Task.title task) /\ is_Some (Task.id task)) ->
  exists (entities : list button_entity) (table : gmap string button_entity),
    let data0 := with_add_button_entities (default empty_data data) in
    button_setup data
    = (match tasks with
       | [] => data0
       | _ => with_button_entities table data0
       end, Ok entities) /\
    length entities = length tasks /\
    (forall (i : nat) task,
       tasks !! i = Some task ->
       exists title id,
         Task.title task = Some title /\ Task.id task = Some id /\
         entities !! i
         = Some (mk_button task (title +:+ " - Confirm") (id +:+ "_button")
                   (data_device_id data0) [] "restart")) /\
    (forall task k, task ∈ tasks -> Task.id task = Some k ->
       exists e, table !! k = Some e /\ e ∈ entities /\
                 Task.id (button_task e) = Some k) /\
    (forall k, (forall task, task ∈ tasks -> Task.id task <> Some k) ->
       table !! k = default ∅ (data_button_entities data0) !! k).
Proof.
  intros Hstore Hwf. cbv zeta.
  set (data0 := with_add_button_entities (default empty_data data)).
  destruct (add_buttons_registers (data_device_id data0) tasks data0 [] Hwf)
    as (new & table & Hrun & Hall & Hframe & Hreg).
  exists new, table. split_and!.
  - unfold button_setup. fold data0.
    replace (data_store data0) with (Some tasks) by (by rewrite <- Hstore).
    exact Hrun.
  - symmetry. by eapply Forall2_length.
  - intros i task Hi.
    destruct (Forall2_lookup_l _ _ _ _ _ Hall Hi) as (e & He & Hinit).
    revert Hinit. unfold button_init.
    destruct (Task.title task) as [title|]; [|discriminate].
    destruct (Task.id task) as [id|]; [|discriminate].
    cbn [item rbind]. intros [= <-]. by exists title, id.
  - exact Hreg.
  - exact Hframe.
Qed.

(** X25.  Set-up without a store fails on both platforms with
    [AttributeError], having only recorded the platform's callback.  Sensor
    set-up also needs the "entities" table to exist already: when it is
    missing and the store has a task, the first registration raises [KeyError]
    and nothing reaches the platform, while an empty store sets up fine. *)
Theorem setup_needs_store_and_table hass (data : option domain_data) :
  (data_store (default empty_data data) = None ->
   sensor_setup hass data
   = (with_add_entities (default empty_data data), Raise AttributeError) /\
   button_setup data
   = (with_add_button_entities (default empty_data data),
      Raise AttributeError)) /\
  (data_store (default empty_data data) = Some [] ->
   sensor_setup hass data
   = (with_add_entities (default empty_data data), Ok [])) /\
  (forall task rest entity,
     data_store (default empty_data data) = Some (task :: rest) ->
     data_entities (default empty_data data) = None ->
     sensor_init hass task (data_device_id (default empty_data data)) None
     = Ok entity ->
     sensor_setup hass data
     = (with_add_entities (default empty_data data),
        Raise (KeyError "entities"))).
Proof.
  unfold sensor_setup, button_setup. cbn [with_add_entities
    with_add_button_entities data_store data_device_id data_entities].
  split_and!.
  - intros ->. done.
  - intros ->. done.
  - intros task rest entity -> Hnone Hinit. cbn [add_sensors].
    rewrite Hinit. cbn [data_entities with_add_entities]. by rewrite Hnone.
Qed.

Lemma with_entities_same data (table : gmap string sensor_entity) :
  data_entities data = Some table -> with_entities table data = data.
Proof. destruct data. cbn. by intros ->. Qed.

Lemma add_sensors_registers hass device_id (tasks : list (Task.t num)) :
  forall (new : list sensor_entity) data (acc : list sensor_entity)
         (table0 : gmap string sensor_entity),
    data_entities data = Some table0 ->
    Forall2 (fun task e => sensor_init hass task device_id None = Ok e)
            tasks new ->
    exists table : gmap string sensor_entity,
      add_sensors hass device_id tasks data acc
      = (with_entities table data, Ok (acc ++ new)) /\
      (forall k, (forall task, task ∈ tasks -> Task.id task <> Some k) ->
                 table !! k = table0 !! k) /\
      (forall task k, task ∈ tasks -> Task.id task = Some k ->
         exists e, table !! k = Some e /\ e ∈ new /\
                   Task.id (sensor_task e) = Some k).
Proof.
  induction tasks as [|task rest IH]; intros new data acc table0 Ht0 Hall.
  - apply Forall2_nil_inv_l in Hall as ->. exists table0. split_and!.
    + cbn. by rewrite app_nil_r, with_entities_same.
    + done.
    + intros task k Hin. by apply elem_of_nil in Hin.
  - apply Forall2_cons_inv_l in Hall as (entity & new' & Hinit & Hall & ->).
    assert (Hid : exists id,
               Task.id task = Some id /\ sensor_task entity = task).
    { revert Hinit. unfold sensor_init.
      destruct (Task.title task); [|discriminate].
      destruct (Task.id task) as [id|]; [|discriminate]. cbn [item rbind].
      destruct (Sensor._update_state hass task); [|discriminate].
      intros [= <-]. by exists id. }
    destruct Hid as (id & Hid & Htask).
    destruct (IH new' (with_entities (<[id := entity]> table0) data)
                (acc ++ [entity]) (<[id := entity]> table0) eq_refl Hall)
      as (table & Hrun & Hframe & Hreg).
    exists table. split_and!.
    + cbn [add_sensors]. rewrite Hinit, Ht0, Hid. cbn [item].
      rewrite Hrun, <- app_assoc. reflexivity.
    + intros k Hk.
      assert (Hne : id <> k).
      { intros ->. apply (Hk task); [apply elem_of_cons; by left|done]. }
      rewrite Hframe; [by rewrite lookup_insert_ne|].
      intros t' Hin. apply Hk, elem_of_cons. by right.
    + intros t k [->|Hin]%elem_of_cons Hk.
      * rewrite Hid in Hk. injection Hk as <-.
        destruct (decide (Exists (fun t' => Task.id t' = Some id) rest))
          as [(t' & Hin' & Hid')%Exists_exists|Hnone].
        -- destruct (Hreg t' id Hin' Hid') as (e & He & Hnew & Hide).
           exists e. split_and!; [done|apply elem_of_cons; by right|done].
        -- exists entity.
           split_and!; [|apply elem_of_cons; by left|by rewrite Htask].
           rewrite Hframe; [apply lookup_insert_eq|].
           intros t' Hin' Hid'. apply Hnone, Exists_exists. eauto.
      * destruct (Hreg t k Hin Hk) as (e & He & Hnew & Hide).
        exists e. split_and!; [done|apply elem_of_cons; by right|done].
Qed.

(** X26.  Sensor set-up with the "entities" table in place: when every
    stored task yields a sensor, the sensors reach the platform in the store's
    order, every task id ends up registered under a sensor built from a task
    of that id, and keys of no stored task are left as they were. *)
Theorem sensor_setup_registers_all hass
    (data : option domain_data) (tasks : list (Task.t num))
    (table0 : gmap string sensor_entity) (new : list sensor_entity) :
  data_store (default empty_data data) = Some tasks ->
  data_entities (default empty_data data) = Some table0 ->
  Forall2 (fun task e =>
             sensor_init hass task
               (data_device_id (default empty_data data)) None = Ok e)
          tasks new ->
  exists table : gmap string sensor_entity,
    sensor_setup hass data
    = (with_entities table (with_add_entities (default empty_data data)),
       Ok new) /\
    (forall task k, task ∈ tasks -> Task.id task = Some k ->
       exists e, table !! k = Some e /\ e ∈ new /\
                 Task.id (sensor_task e) = Some k) /\
    (forall k, (forall task, task ∈ tasks -> Task.id task <> Some k) ->
       table !! k = table0 !! k).
Proof.
  intros Hstore Ht0 Hall.
  destruct (add_sensors_registers hass
              (data_device_id (default empty_data data)) tasks new
              (with_add_entities (default empty_data data)) [] table0
              Ht0 Hall) as (table & Hrun & Hframe & Hreg).
  exists table. split_and!; [|exact Hreg|exact Hframe].
  unfold sensor_setup. cbn [with_add_entities data_store data_device_id].
  rewrite Hstore. exact Hrun.
Qed.

End PlatformFacts.
End PlatformFacts.

(** * The further properties on concrete data *)

Module MoreChecks.
Import Scenario Fixtures.

#[local] Existing Instance Reference.runtime.

Abbreviation R := Reference.runtime.

Lemma armed_timers_belong_to_pending_witness :
  exists h,
    Button._reset_timers pressed_once !! "oil" = Some h /\
    Button.loop pressed_once !! h
    = Some (Button.CONFIRMATION_TIMEOUT, Button.reset_icon_cb "oil").
Proof.
  apply (proj2 (proj2 (@ButtonMore.armed_timers_belong_to_pending Z R _
                         pressed_once Checks.reachable_pressed_once))).
  vm_compute. eexists. reflexivity.
Defined.

Lemma press_commits_iff_witness :
  exists w',
    Button.async_press (home 10 30 2) oil_task pressed_once = Ok w' /\
    Button.store_calls w' = [("oil", Some (12000 : Z))].
Proof.
  destruct (@ButtonMore.press_commits_iff Z R (home 10 30 2) oil_task "oil"
              pressed_once) as (w' & Hw' & Hcalls).
  - reflexivity.
  - exists w'. split; [assumption|]. rewrite Hcalls. vm_compute. reflexivity.
Defined.

Lemma abandoned_press_resets_witness :
  exists w1,
    Button.async_press (home 10 30 1) filter_task pressed_once = Ok w1 /\
    Button.icon (home 10 30 1) filter_task w1 = Ok ("mdi:alert-circle", w1) /\
    Button.store_calls
      (Button.fire (home 10 30 7) (Button.next_handle pressed_once) w1)
    = Button.store_calls pressed_once.
Proof.
  destruct (@ButtonMore.abandoned_press_resets Z R _ (home 10 30 1)
              (home 10 30 7) filter_task "filter" pressed_once
              Checks.reachable_pressed_once)
    as (w1 & Hw1 & _ & _ & _ & _ & Hcalls & Hicon).
  - reflexivity.
  - vm_compute. reflexivity.
  - exists w1. split; [assumption|]. split; [|assumption].
    apply Hicon. vm_compute. reflexivity.
Defined.

Lemma confirmed_indicator_expires_witness :
  exists w',
    Button.async_press (home 10 30 2) oil_task pressed_once = Ok w' /\
    Button.icon (home 10 30 4) oil_task w' = Ok ("mdi:check-circle", w').
Proof.
  destruct (@ButtonMore.confirmed_indicator_expires Z R (home 10 30 2)
              oil_task "oil" pressed_once (dt_util.now (home 10 30 0)))
    as (w' & Hw' & Hshown & _).
  - reflexivity.
  - vm_compute. reflexivity.
  - vm_compute. discriminate.
  - exists w'. split; [assumption|]. apply Hshown. vm_compute. discriminate.
Defined.

Lemma icon_read_idempotent_witness :
  let w' :=
    Button.set_confirmed (delete "oil") pressed_twice in
  Button.icon (home 10 30 9) oil_task pressed_twice
  = Ok ("mdi:check-circle-outline", w') /\
  Button.icon (home 10 30 9) oil_task w'
  = Ok ("mdi:check-circle-outline", w').
Proof.
  cbv zeta.
  assert (H : Button.icon (home 10 30 9) oil_task pressed_twice
              = Ok ("mdi:check-circle-outline",
                    Button.set_confirmed (delete "oil") pressed_twice))
    by (vm_compute; reflexivity).
  split; [exact H|].
  exact (ButtonMore.icon_read_idempotent _ _ _ _ _ H).
Defined.

Lemma press_leaves_other_pending_witness :
  exists w',
    Button.async_press (home 10 30 2) filter_task pressed_once = Ok w' /\
    Button._pending_confirmations w' !! "oil"
    = Some (dt_util.now (home 10 30 0)).
Proof.
  destruct (@ButtonMore.press_leaves_other_pending Z R _ (home 10 30 2)
              filter_task "filter" "oil" pressed_once
              (dt_util.now (home 10 30 0)) Checks.reachable_pressed_once)
    as (w' & h & Hw' & Hp & _).
  - reflexivity.
  - discriminate.
  - vm_compute. reflexivity.
  - vm_compute. discriminate.
  - exists w'. split; assumption.
Defined.

Lemma press_sweeps_stale_witness :
  let now := dt_util.now (home 10 30 9) in
  let w' :=
    Button.clean_up (home 10 30 9) now
      (Button.first_press "filter" now pressed_once) in
  Button.async_press (home 10 30 9) filter_task pressed_once = Ok w' /\
  forall k ts,
    Button._pending_confirmations w' !! k = Some ts ->
    Py.sub now ts <= Button.CONFIRMATION_TIMEOUT.
Proof.
  cbv zeta.
  assert (H : Button.async_press (home 10 30 9) filter_task pressed_once
              = Ok (Button.clean_up (home 10 30 9)
                      (dt_util.now (home 10 30 9))
                      (Button.first_press "filter"
                         (dt_util.now (home 10 30 9)) pressed_once)))
    by (vm_compute; reflexivity).
  split; [exact H|].
  exact (proj1 (@ButtonMore.press_sweeps_stale Z R _ _ _ _ H)).
Defined.

Lemma due_state_changes_at_midnight_witness :
  Sensor._update_state (home 0 0 1) filter_task
  = Sensor._update_state (home 23 59 59) filter_task.
Proof.
  apply (@SensorMore.due_state_changes_at_midnight Z R); reflexivity.
Defined.

Lemma distance_due_ignores_calendar_witness :
  Sensor.observe "next_due" (Sensor._update_state (home 10 30 0) oil_task)
  = Sensor.observe "next_due"
      (Sensor._update_state next_day oil_task_renamed).
Proof.
  apply (@SensorMore.distance_due_ignores_calendar Z R (home 10 30 0)
           next_day oil_task oil_task_renamed "kilometers"); reflexivity.
Defined.

Lemma calendar_due_ignores_odometer_witness :
  Sensor._update_state (home 10 30 0) filter_task
  = Sensor._update_state (home_with "unavailable" true 10 30 0)
      filter_task_metered.
Proof.
  apply (@SensorMore.calendar_due_ignores_odometer Z R (home 10 30 0)
           (home_with "unavailable" true 10 30 0) filter_task
           filter_task_metered "months"); reflexivity.
Defined.

Lemma update_state_succeeds (hass : HomeAssistant) (task : Task.t Z) :
  match Sensor._update_state hass task with
  | Ok _ => true
  | Raise _ => false
  end = true ->
  exists st, Sensor._update_state hass task = Ok st.
Proof. destruct (Sensor._update_state hass task); [eauto|discriminate]. Qed.

Lemma attributes_always_present_witness :
  exists st next,
    Sensor._update_state (home 10 30 0) oil_task = Ok st /\
    Sensor._attr_extra_state_attributes st !! "next_due"
    = Some (Sensor.AStr next).
Proof.
  destruct (update_state_succeeds (home 10 30 0) oil_task) as [st Hst];
    [vm_compute; reflexivity|].
  destruct (@SensorMore.attributes_always_present Z R (home 10 30 0) oil_task
              st Hst) as (v & ty & next & _ & _ & _ & _ & Hnext & _).
  exists st, next. split; assumption.
Defined.

Lemma helpers_split_interval_types_witness :
  Sensor._calculate_next_due_odometer (Some (8000 : Z)) 1 "months"
  = Ok None.
Proof.
  apply (proj2 (proj2 (@SensorMore.helpers_split_interval_types Z R))
           (Py.mk_datetime 2024 1 31 0 0 0 0 (Some 3600))
           (Py.mk_datetime 2024 2 29 0 0 0 0 (Some 3600))).
  vm_compute. reflexivity.
Defined.

Lemma due_stays_due_witness :
  exists st',
    Sensor._update_state next_day filter_task = Ok st' /\
    Sensor._attr_is_on st' = true.
Proof.
  destruct (update_state_succeeds (home 10 30 0) filter_task) as [st Hst];
    [vm_compute; reflexivity|].
  apply (@SensorMore.due_stays_due Z R (home 10 30 0) next_day filter_task
           st).
  - reflexivity.
  - reflexivity.
  - vm_compute. discriminate.
  - exact Hst.
  - assert (H : match Sensor._update_state (home 10 30 0) filter_task with
                | Ok st => Sensor._attr_is_on st
                | Raise _ => false
                end = true) by (vm_compute; reflexivity).
    rewrite Hst in H. exact H.
Defined.

Lemma current_odometer_iff_witness :
  Sensor._get_current_odometer (home 10 30 0) oil_task = Some (12000 : Z).
Proof.
  apply (proj2 (@SensorMore.current_odometer_iff Z R (home 10 30 0) oil_task
                  12000)).
  exists "sensor.odometer", "12000".
  split_and!; try discriminate; vm_compute; reflexivity.
Defined.

Lemma press_samples_like_sensor_witness :
  Button.performed_odometer (home 10 30 0) oil_task
  = Sensor._get_current_odometer (home 10 30 0) oil_task.
Proof.
  apply (proj1 (@SensorMore.press_samples_like_sensor Z R (home 10 30 0)
                  oil_task) "kilometers"); reflexivity.
Defined.

Lemma retitle_and_redate_effects :
  (Websocket.websocket_update_task (home 10 30 0) retitle_and_redate).1
  = [Websocket.update_task "oil"
       {[ "title" := Websocket.JStr "Oil";
          "last_performed" := Websocket.JStr "2024-05-20T00:00:00+01:00" ]};
     Websocket.send_result 9].
Proof. vm_compute. reflexivity. Qed.

Lemma update_keeps_other_keys_witness :
  let u : gmap string Websocket.json :=
    {[ "title" := Websocket.JStr "Oil";
       "last_performed" := Websocket.JStr "2024-05-20T00:00:00+01:00" ]} in
  u !! "title"
  = default ∅ (Websocket.msg_updates retitle_and_redate) !! "title" /\
  dom u = dom (default ∅ (Websocket.msg_updates retitle_and_redate)).
Proof.
  cbv zeta.
  destruct (@CommandFacts.update_keeps_other_keys Z R (home 10 30 0)
              retitle_and_redate "oil"
              {[ "title" := Websocket.JStr "Oil";
                 "last_performed"
                 := Websocket.JStr "2024-05-20T00:00:00+01:00" ]})
    as [Hkeys Hdom].
  - rewrite retitle_and_redate_effects. apply elem_of_cons; by left.
  - split; [apply Hkeys; discriminate|exact Hdom].
Defined.

Lemma add_task_replies_once_witness :
  Commands.websocket_add_task (home 10 30 0) shelf "0f3a" add_undated
  = ([], Raise (KeyError "last_performed")).
Proof.
  apply (proj1 (@CommandFacts.add_task_replies_once Z R (home 10 30 0) shelf
                  "0f3a" add_undated)).
  reflexivity.
Defined.

Lemma add_oil_effects :
  (Commands.websocket_add_task (home 10 30 0) shelf "0f3a" add_oil).1
  = [Commands.store_add added_oil ["car"];
     Commands.send_result 11 (Commands.SuccessId "home_maintenance_0f3a")].
Proof. vm_compute. reflexivity. Qed.

Lemma added_task_fields_witness :
  StoredTask.id added_oil = "home_maintenance_" +:+ "0f3a" /\
  StoredTask.title added_oil = Commands.add_title add_oil.
Proof.
  destruct (@CommandFacts.added_task_fields Z R (home 10 30 0) shelf "0f3a"
              add_oil added_oil ["car"]) as (Hid & Htitle & _).
  - rewrite add_oil_effects. apply elem_of_cons; by left.
  - split; assumption.
Defined.

Lemma get_tasks_keeps_order_witness :
  exists ts,
    Commands.enrich_all entity_ids ∅ (Commands.get_all shelf) = Ok ts.
Proof.
  apply (proj1 (proj1 (proj2 (@CommandFacts.get_tasks_keeps_order Z
                                entity_ids ∅ (Commands.get_all shelf))))).
  intros task [->|[->|[]%elem_of_nil]%elem_of_cons]%elem_of_cons.
  - exists (Sensor.AStr "oil"). vm_compute. reflexivity.
  - exists (Sensor.AStr "filter"). vm_compute. reflexivity.
Defined.

Lemma reply_carries_sensor_attributes_witness :
  exists st,
    Sensor._update_state (home 10 30 0) oil_task = Ok st /\
    Commands.enriched entity_ids
      {[ "binary_sensor.oil_change"
         := Sensor._attr_extra_state_attributes st ]}
      (Sensor.AStr "oil") stored_oil !! "next_due_odometer"
    = Some (Sensor.ANum (13000 : Z)).
Proof.
  destruct (update_state_succeeds (home 10 30 0) oil_task) as [st Hst];
    [vm_compute; reflexivity|].
  exists st. split; [exact Hst|].
  destruct (@CommandFacts.reply_carries_sensor_attributes Z R (home 10 30 0)
              oil_task st entity_ids
              {[ "binary_sensor.oil_change"
                 := Sensor._attr_extra_state_attributes st ]}
              "oil" "binary_sensor.oil_change" stored_oil Hst)
    as (_ & Hodo & _).
  - vm_compute. reflexivity.
  - apply lookup_insert_eq.
  - destruct (Hodo 5000 "kilometers" 8000 eq_refl eq_refl eq_refl eq_refl)
      as (n & Hn & Hreply).
    injection Hn as <-. exact Hreply.
Defined.

Lemma button_setup_registers_all_witness :
  exists entities,
    (Platform.button_setup (Some domain)).2 = Ok entities /\
    length entities = 2%nat.
Proof.
  destruct (@PlatformFacts.button_setup_registers_all Z (Some domain)
              [oil_task; filter_task]) as (entities & table & Hrun & Hlen & _).
  - reflexivity.
  - intros task [->|[->|[]%elem_of_nil]%elem_of_cons]%elem_of_cons;
      split; eexists; reflexivity.
  - exists entities. cbv zeta in Hrun. rewrite Hrun. split; [reflexivity|].
    exact Hlen.
Defined.

Lemma setup_needs_store_and_table_witness :
  Platform.sensor_setup (home 10 30 0) None
  = (Platform.with_add_entities Platform.empty_data, Raise AttributeError).
Proof.
  apply (proj1 (@PlatformFacts.setup_needs_store_and_table Z R (home 10 30 0)
                  None)).
  reflexivity.
Defined.

Lemma sensor_init_succeeds (hass : HomeAssistant) (task : Task.t Z)
    (device_id : option string) :
  match Platform.sensor_init hass task device_id None with
  | Ok _ => true
  | Raise _ => false
  end = true ->
  exists e, Platform.sensor_init hass task device_id None = Ok e.
Proof.
  destruct (Platform.sensor_init hass task device_id None);
    [eauto|discriminate].
Qed.

Lemma sensor_setup_registers_all_witness :
  exists new table,
    Platform.sensor_setup (home 10 30 0) (Some domain)
    = (Platform.with_entities table (Platform.with_add_entities domain),
       Ok new) /\
    length new = 2%nat.
Proof.
  destruct (sensor_init_succeeds (home 10 30 0) oil_task (Some "device-1"))
    as [e1 H1]; [vm_compute; reflexivity|].
  destruct (sensor_init_succeeds (home 10 30 0) filter_task (Some "device-1"))
    as [e2 H2]; [vm_compute; reflexivity|].
  destruct (@PlatformFacts.sensor_setup_registers_all Z R (home 10 30 0)
              (Some domain) [oil_task; filter_task] ∅ [e1; e2])
    as (table & Hrun & _).
  - reflexivity.
  - reflexivity.
  - repeat constructor; assumption.
  - exists [e1; e2], table. split; [exact Hrun|reflexivity].
Defined.

End MoreChecks.
